(** * Release manager: a shallow embedding of [src/release_manager.py]

    The development follows the layout of the Python module: text helpers
    standing for the [str] and [pathlib] methods the program calls, a model
    of the Python values that [yaml.safe_load] and [json.loads] hand back
    (with an explicit object store, because the program mutates a loaded
    mapping in place), a state-and-exception monad for the effects
    (filesystem, spawned tools, log, console), and then one Rocq module per
    Python class.  The properties of the specification are proved at the
    end of the file. *)

From stdpp Require Import gmap strings list fin_maps pretty.
From Stdlib Require Import ZArith String Ascii.

Local Open Scope string_scope.
Local Open Scope Z_scope.

(** ** Text: the [str] methods used by the program *)

Module Str.

(** [s.startswith(pre)] *)
Definition startswith (s pre : string) : bool := String.prefix pre s.

(** [needle in s] for two strings: substring search. *)
Fixpoint contains (needle s : string) : bool :=
  String.prefix needle s ||
  match s with
  | EmptyString => false
  | String _ s' => contains needle s'
  end.

(** A text is kept as the bytes of its UTF-8 encoding.  The blanks that
    [str.strip] removes are the characters for which [str.isspace] holds:
    in one byte TAB, LF, VT, FF, CR, FS, GS, RS, US and SPACE; in two
    bytes U+0085 and U+00A0; in three bytes U+1680, U+2000 to U+200A,
    U+2028, U+2029, U+202F, U+205F and U+3000. *)
Definition isspace (c : ascii) : bool :=
  let n := nat_of_ascii c in
  (((9 <=? n) && (n <=? 13)) || ((28 <=? n) && (n <=? 32)))%nat.

Definition isspace2 (c d : ascii) : bool :=
  let n := nat_of_ascii c in
  let m := nat_of_ascii d in
  ((n =? 194) && ((m =? 133) || (m =? 160)))%nat.

Definition isspace3 (c d e : ascii) : bool :=
  let n := nat_of_ascii c in
  let m := nat_of_ascii d in
  let k := nat_of_ascii e in
  (((n =? 225) && (m =? 154) && (k =? 128))
   || ((n =? 226) && (m =? 128)
       && (((128 <=? k) && (k <=? 138)) || (k =? 168) || (k =? 169)
           || (k =? 175)))
   || ((n =? 226) && (m =? 129) && (k =? 159))
   || ((n =? 227) && (m =? 128) && (k =? 128)))%nat.

Fixpoint lstrip (s : string) : string :=
  match s with
  | EmptyString => EmptyString
  | String c s1 =>
      if isspace c then lstrip s1
      else
        match s1 with
        | EmptyString => s
        | String d s2 =>
            if isspace2 c d then lstrip s2
            else
              match s2 with
              | EmptyString => s
              | String e s3 => if isspace3 c d e then lstrip s3 else s
              end
        end
  end.

(** A text made of blanks only is stripped to nothing; otherwise its first
    byte stays and the rest is stripped. *)
Fixpoint rstrip (s : string) : string :=
  match s with
  | EmptyString => EmptyString
  | String c s' =>
      if String.eqb (lstrip s) "" then EmptyString else String c (rstrip s')
  end.

(** [s.strip()] *)
Definition strip (s : string) : string := rstrip (lstrip s).

(** [s.split(sep)] for a one-character separator. *)
Fixpoint split (sep : ascii) (s : string) : list string :=
  match s with
  | EmptyString => [EmptyString]
  | String c s' =>
      if Ascii.eqb c sep then EmptyString :: split sep s'
      else match split sep s' with
           | h :: t => String c h :: t
           | [] => [String c EmptyString]
           end
  end.

Definition is_digit (c : ascii) : bool :=
  let n := nat_of_ascii c in ((48 <=? n) && (n <=? 57))%nat.

Definition digit_value (c : ascii) : Z := Z.of_nat (nat_of_ascii c) - 48.

(** The digit part accepted by [int(s)]: decimal digits, single
    underscores allowed between two digits. *)
Fixpoint int_digits (acc : Z) (after_digit : bool) (s : string) : option Z :=
  match s with
  | EmptyString => if after_digit then Some acc else None
  | String c s' =>
      if is_digit c then int_digits (10 * acc + digit_value c) true s'
      else if Ascii.eqb c "_" then
             (if after_digit then int_digits acc false s' else None)
           else None
  end.

Fixpoint is_ascii (s : string) : bool :=
  match s with
  | EmptyString => true
  | String c s' => (nat_of_ascii c <? 128)%nat && is_ascii s'
  end.

Fixpoint count_digits (s : string) : nat :=
  match s with
  | EmptyString => 0%nat
  | String c s' => ((if is_digit c then 1 else 0) + count_digits s')%nat
  end.

(** [sys.get_int_max_str_digits()], as the interpreter starts. *)
Definition int_max_str_digits : nat := 4300.

(** [int(s)]: [None] stands for [ValueError].  The text is stripped of its
    blanks; more than [int_max_str_digits] digits are refused; a text that
    holds a character outside ASCII is read with the decimal digits of the
    interpreter's Unicode database, [unicode_int]. *)
Definition to_int (unicode_int : string -> option Z) (s : string)
  : option Z :=
  let t := strip s in
  if negb (is_ascii t) then unicode_int t
  else if (int_max_str_digits <? count_digits t)%nat then None
  else
    match t with
    | String "+" r => int_digits 0 false r
    | String "-" r => Z.opp <$> int_digits 0 false r
    | _ => int_digits 0 false t
    end.

(** [sep.join(parts)] *)
Definition join (sep : string) (parts : list string) : string :=
  String.concat sep parts.

End Str.

(** ** Paths: [pathlib.Path] as the list of its components

    Paths are absolute and are kept as written: the filesystem below is
    keyed by the component list, symbolic links and [..] are not resolved. *)

Definition path := list string.

Definition path_parts (s : string) : list string :=
  List.filter (fun c => negb (String.eqb c "") && negb (String.eqb c "."))
              (Str.split "/" s).

(** [p / s] *)
Definition path_div (p : path) (s : string) : path :=
  if Str.startswith s "/" then path_parts s else (p ++ path_parts s)%list.

(** [Path(s)] *)
Definition path_of_string (s : string) : path := path_parts s.

(** [str(p)] *)
Definition path_str (p : path) : string := "/" +:+ Str.join "/" p.

(** [p.parent] and [p.name] *)
Definition path_parent (p : path) : path := removelast p.
Definition path_name (p : path) : string := List.last p "".

(** ** Python values

    What [yaml.safe_load] and [json.loads] can return.  Scalars are
    values; lists, tuples, sets and dicts are objects of a store and are
    reached through references, so that two positions of a document that
    alias one mapping (a YAML anchor and its alias) share it. *)

Definition loc := nat.

Inductive pyval :=
| VNone
| VBool (b : bool)
| VInt (z : Z)
| VFloat (bits : Z)        (* the IEEE-754 binary64 pattern *)
| VStr (s : string)
| VBytes (s : string)      (* [!!binary] *)
| VDate (iso : string)     (* [!!timestamp] without a time: a date *)
| VDateTime (iso : string) (* [!!timestamp] with a time: a datetime *)
| VRef (l : loc).

Inductive pyobj :=
| OList (xs : list pyval)
| OTuple (xs : list pyval)                (* elements of [!!omap], [!!pairs] *)
| OSet (xs : list pyval)                  (* [!!set] *)
| ODict (es : list (pyval * pyval)).      (* insertion-ordered *)

Abbreviation heap := (gmap loc pyobj).

(** ** Exceptions *)

Inductive exn :=
| ReleaseError (msg : string)
| DependencyError (msg : string)
| YAMLError (msg : string)
| HTTPError (code : Z) (reason : string)
| URLError (reason : string)
| CalledProcessError (returncode : Z) (stderr : string)
| TimeoutExpired
| FileNotFoundError (msg : string)
| PermissionError (msg : string)
| OSError (msg : string)
| UnicodeDecodeError (msg : string)
| KeyError (key : string)
| TypeError (msg : string)
| IndexError (msg : string)
| ValueError (msg : string)
| SystemError (msg : string)
| SystemExit (code : Z).

(** [isinstance(e, Exception)]: everything but [SystemExit]. *)
Definition is_Exception (e : exn) : bool :=
  match e with SystemExit _ => false | _ => true end.

Definition is_ReleaseError (e : exn) : bool :=
  match e with ReleaseError _ => true | _ => false end.

(** [str(e)], as interpolated by an f-string.  The wording of the
    exceptions raised by the interpreter and the libraries is indicative. *)
Definition exn_str (e : exn) : string :=
  match e with
  | ReleaseError m | DependencyError m | YAMLError m | FileNotFoundError m
  | PermissionError m | OSError m | UnicodeDecodeError m | TypeError m
  | IndexError m | ValueError m | SystemError m => m
  | HTTPError c r => "HTTP Error " +:+ pretty c +:+ ": " +:+ r
  | URLError r => "<urlopen error " +:+ r +:+ ">"
  | CalledProcessError rc _ =>
      "Command returned non-zero exit status " +:+ pretty rc +:+ "."
  | TimeoutExpired => "Command timed out"
  | KeyError k => "'" +:+ k +:+ "'"
  | SystemExit c => pretty c
  end.

Inductive res (A : Type) :=
| Ok (a : A)
| Raise (e : exn).
Arguments Ok {A} a.
Arguments Raise {A} e.

(** ** The operations of the interpreter on values *)

Module Py.

Definition deref (h : heap) (v : pyval) : option pyobj :=
  match v with VRef l => h !! l | _ => None end.

Definition type_name (h : heap) (v : pyval) : string :=
  match v with
  | VNone => "NoneType" | VBool _ => "bool" | VInt _ => "int"
  | VFloat _ => "float" | VStr _ => "str" | VBytes _ => "bytes"
  | VDate _ => "datetime.date"
  | VDateTime _ => "datetime.datetime"
  | VRef l => match h !! l with
              | Some (OList _) => "list" | Some (OTuple _) => "tuple"
              | Some (OSet _) => "set" | Some (ODict _) => "dict"
              | None => "object"
              end
  end.

(** [v == s] for a string [s]: only an equal string is equal to it. *)
Definition eq_str (v : pyval) (s : string) : bool :=
  match v with VStr t => String.eqb t s | _ => false end.

(** [k == 0] for a key of a dict: [0], [False] and [0.0] are one key. *)
Definition eq_zero (k : pyval) : bool :=
  match k with
  | VInt z => z =? 0
  | VBool b => negb b
  | VFloat bits => Z.land bits (Z.ones 63) =? 0
  | _ => false
  end.

(** [d[key]] on the entries of a dict, for a string key. *)
Fixpoint dict_get (es : list (pyval * pyval)) (key : string) : option pyval :=
  match es with
  | [] => None
  | (k, v) :: es' => if eq_str k key then Some v else dict_get es' key
  end.

(** [d[key] = v]: an existing key keeps its position, a new key is
    appended. *)
Fixpoint dict_set (es : list (pyval * pyval)) (key : string) (v : pyval)
  : list (pyval * pyval) :=
  match es with
  | [] => [(VStr key, v)]
  | (k, v0) :: es' =>
      if eq_str k key then (k, v) :: es' else (k, v0) :: dict_set es' key v
  end.

(** A reference that the store does not hold cannot be built by the
    loaders; the operations answer it with [SystemError]. *)
Definition dangling {A} : res A := Raise (SystemError "dangling reference").

(** [key in c] for a string [key]. *)
Definition contains (h : heap) (key : string) (c : pyval) : res bool :=
  match c with
  | VStr s => Ok (Str.contains key s)
  | VBytes _ =>
      Raise (TypeError "a bytes-like object is required, not 'str'")
  | VRef l =>
      match h !! l with
      | Some (ODict es) => Ok (existsb (fun kv => eq_str (fst kv) key) es)
      | Some (OList xs) | Some (OTuple xs) | Some (OSet xs) =>
          Ok (existsb (fun x => eq_str x key) xs)
      | None => dangling
      end
  | _ => Raise (TypeError ("argument of type '" +:+ type_name h c
                           +:+ "' is not iterable"))
  end.

(** [c[key]] for a string [key]. *)
Definition getitem (h : heap) (c : pyval) (key : string) : res pyval :=
  match c with
  | VStr _ => Raise (TypeError "string indices must be integers, not 'str'")
  | VBytes _ =>
      Raise (TypeError "byte indices must be integers or slices, not str")
  | VRef l =>
      match h !! l with
      | Some (ODict es) =>
          match dict_get es key with
          | Some v => Ok v
          | None => Raise (KeyError key)
          end
      | Some (OList _) =>
          Raise (TypeError "list indices must be integers or slices, not str")
      | Some (OTuple _) =>
          Raise (TypeError "tuple indices must be integers or slices, not str")
      | Some (OSet _) => Raise (TypeError "'set' object is not subscriptable")
      | None => dangling
      end
  | _ => Raise (TypeError ("'" +:+ type_name h c
                           +:+ "' object is not subscriptable"))
  end.

(** [c[0]] *)
Definition getitem0 (h : heap) (c : pyval) : res pyval :=
  match c with
  | VStr s | VBytes s =>
      match s with
      | EmptyString => Raise (IndexError "index out of range")
      | String a _ =>
          match c with
          | VBytes _ => Ok (VInt (Z.of_nat (nat_of_ascii a)))
          | _ => Ok (VStr (String a EmptyString))
          end
      end
  | VRef l =>
      match h !! l with
      | Some (OList xs) | Some (OTuple xs) =>
          match xs with
          | x :: _ => Ok x
          | [] => Raise (IndexError "index out of range")
          end
      | Some (ODict es) =>
          match List.find (fun kv => eq_zero (fst kv)) es with
          | Some kv => Ok (snd kv)
          | None => Raise (KeyError "0")
          end
      | Some (OSet _) => Raise (TypeError "'set' object is not subscriptable")
      | None => dangling
      end
  | _ => Raise (TypeError ("'" +:+ type_name h c
                           +:+ "' object is not subscriptable"))
  end.

(** [c[key] = v] for a string [key]: the store after the assignment. *)
Definition setitem (h : heap) (c : pyval) (key : string) (v : pyval)
  : res heap :=
  match c with
  | VRef l =>
      match h !! l with
      | Some (ODict es) => Ok (<[l := ODict (dict_set es key v)]> h)
      | Some (OList _) =>
          Raise (TypeError "list indices must be integers or slices, not str")
      | Some (OTuple _) | Some (OSet _) =>
          Raise (TypeError "object does not support item assignment")
      | None => dangling
      end
  | _ => Raise (TypeError ("'" +:+ type_name h c
                           +:+ "' object does not support item assignment"))
  end.

(** Truth value, as tested by [not v]. *)
Definition truthy (h : heap) (v : pyval) : bool :=
  match v with
  | VNone => false
  | VBool b => b
  | VInt z => negb (z =? 0)
  | VFloat bits => negb (Z.land bits (Z.ones 63) =? 0)
  | VStr s | VBytes s => negb (String.eqb s "")
  | VDate _ | VDateTime _ => true
  | VRef l =>
      match h !! l with
      | Some (OList xs) | Some (OTuple xs) | Some (OSet xs) =>
          negb (Nat.eqb (List.length xs) 0)
      | Some (ODict es) => negb (Nat.eqb (List.length es) 0)
      | None => false
      end
  end.

(** [isinstance(v, list)] *)
Definition is_list (h : heap) (v : pyval) : bool :=
  match deref h v with Some (OList _) => true | _ => false end.

End Py.

(** A Python object as a function returns it: a value and the store that
    holds what it refers to. *)
Definition object := (pyval * heap)%type.

(** ** The world the program acts on *)

Inductive node :=
| Dir
| File (content : string).

(** The operations that can change what is on disk: the two writing calls
    of [pathlib] the program makes, and every spawned tool. *)
Inductive event :=
| EMkdir (p : path)               (* [p.mkdir(parents=True, exist_ok=True)] *)
| EWrite (p : path)               (* [p.open('w')], [p.write_text] *)
| ESpawn (argv : list string).    (* [subprocess.run(argv, ...)] *)

Inductive level := INFO | WARNING | ERROR.

Record world := World {
  fs : gmap path node;
  events : list event;
  log : list (level * string);
  console : list string
}.

Definition set_fs (f : gmap path node) (w : world) : world :=
  World f (events w) (log w) (console w).
Definition add_event (e : event) (w : world) : world :=
  World (fs w) (events w ++ [e]) (log w) (console w).
Definition add_log (l : level) (msg : string) (w : world) : world :=
  World (fs w) (events w) (log w ++ [(l, msg)]) (console w).
Definition add_console (line : string) (w : world) : world :=
  World (fs w) (events w) (log w) (console w ++ [line]).

(** ** What lies outside the program

    The external tools, the HTTP endpoint, the YAML and JSON libraries and
    the interpreter's rendering of objects are not part of the repository:
    they are taken as given, without any assumption. *)

Inductive spawn_result :=
| Exited (returncode : Z) (stdout stderr : string)
| TimedOut                 (* [subprocess.TimeoutExpired] *)
| NotInstalled             (* [FileNotFoundError]: no such program *)
| NotPermitted             (* [PermissionError]: not executable *)
| SpawnFailed (msg : string)   (* another [OSError] of the spawn *)
| Undecodable (msg : string).  (* [UnicodeDecodeError]: with [text=True],
                                  output that is not text in the locale's
                                  encoding *)

Inductive http_result :=
| HttpBody (body : string)        (* a 2xx answer, read and decoded *)
| HttpRaises (e : exn).

Inductive load_result :=
| Loaded (root : pyval) (h : heap)
| LoadRaises (e : exn).

Record dump_options := DumpOptions {
  default_flow_style : bool;
  sort_keys : bool
}.

Record oracle := Oracle {
  (** a tool run with the given arguments and timeout (seconds), from the
      given filesystem: its outcome and the filesystem it leaves *)
  run_tool : list string -> option Z -> gmap path node
             -> spawn_result * gmap path node;
  (** [urlopen(req, timeout=...)] followed by [read().decode()] *)
  urlopen : string -> list (string * string) -> Z -> http_result;
  json_loads : string -> load_result;
  yaml_safe_load : string -> load_result;
  yaml_dump : heap -> pyval -> dump_options -> string;
  (** [str(v)] for the values whose rendering is not fixed below *)
  py_repr : heap -> pyval -> string;
  (** [int(s)] for a stripped text that holds a character outside ASCII *)
  unicode_int : string -> option Z
}.

(** ** The monad of effects *)

Definition M (A : Type) : Type := world -> res A * world.

Definition ret {A} (a : A) : M A := fun w => (Ok a, w).

Definition bind {A B} (m : M A) (k : A -> M B) : M B :=
  fun w => match m w with
           | (Ok a, w') => k a w'
           | (Raise e, w') => (Raise e, w')
           end.

Definition raise {A} (e : exn) : M A := fun w => (Raise e, w).

Definition lift {A} (r : res A) : M A := fun w => (r, w).

(** [try: body except ...: handler]; a handler that does not match
    re-raises. *)
Definition try_except {A} (body : M A) (handler : exn -> M A) : M A :=
  fun w => match body w with
           | (Raise e, w') => handler e w'
           | r => r
           end.

Declare Scope py_scope.
Delimit Scope py_scope with py.
Notation "x <- m ;; k" := (bind m (fun x => k))
  (at level 100, m at next level, right associativity) : py_scope.
Notation "m ;; k" := (bind m (fun _ => k))
  (at level 100, right associativity) : py_scope.
Local Open Scope py_scope.

(** *** Logging and printing *)

Definition logger_info (msg : string) : M unit :=
  fun w => (Ok tt, add_log INFO msg w).
Definition logger_warning (msg : string) : M unit :=
  fun w => (Ok tt, add_log WARNING msg w).
Definition logger_error (msg : string) : M unit :=
  fun w => (Ok tt, add_log ERROR msg w).
Definition print (line : string) : M unit :=
  fun w => (Ok tt, add_console line w).

(** *** Files *)

(** The root directory is always there. *)
Definition lookup_node (f : gmap path node) (p : path) : option node :=
  match p with
  | [] => Some Dir
  | _ => f !! p
  end.

Definition is_dir (f : gmap path node) (p : path) : bool :=
  match lookup_node f p with Some Dir => true | _ => false end.

(** [p.exists()] *)
Definition path_exists (p : path) : M bool :=
  fun w => (Ok (match lookup_node (fs w) p with
                | Some _ => true
                | None => false
                end), w).

(** [with p.open('r') as f: ... f.read()] *)
Definition read_text (p : path) : M string :=
  fun w => match lookup_node (fs w) p with
           | Some (File c) => (Ok c, w)
           | Some Dir =>
               (Raise (OSError ("[Errno 21] Is a directory: '"
                                +:+ path_str p +:+ "'")), w)
           | None =>
               (Raise (FileNotFoundError
                         ("[Errno 2] No such file or directory: '"
                          +:+ path_str p +:+ "'")), w)
           end.

(** [p.open('w')] followed by the writing of [c], and [p.write_text(c)]:
    the file is created when its directory exists, truncated and rewritten
    when it is there.  Access rights are not part of the model: a file
    that is there can be read and written. *)
Definition write_text (p : path) (c : string) : M unit :=
  fun w =>
    let w1 := add_event (EWrite p) w in
    match lookup_node (fs w) p with
    | Some (File _) => (Ok tt, set_fs (<[p := File c]> (fs w)) w1)
    | Some Dir =>
        (Raise (OSError ("[Errno 21] Is a directory: '"
                         +:+ path_str p +:+ "'")), w1)
    | None =>
        if is_dir (fs w) (path_parent p)
        then (Ok tt, set_fs (<[p := File c]> (fs w)) w1)
        else (Raise (FileNotFoundError
                       ("[Errno 2] No such file or directory: '"
                        +:+ path_str p +:+ "'")), w1)
    end.

(** The directories [done/c1], [done/c1/c2], ... are created when absent;
    a file in the way is an error. *)
Fixpoint make_dirs (f : gmap path node) (done : path) (todo : list string)
  : res (gmap path node) :=
  match todo with
  | [] => Ok f
  | c :: rest =>
      let p := (done ++ [c])%list in
      match f !! p with
      | Some Dir => make_dirs f p rest
      | Some (File _) =>
          Raise (OSError ("[Errno 17] File exists: '" +:+ path_str p +:+ "'"))
      | None => make_dirs (<[p := Dir]> f) p rest
      end
  end.

(** [p.mkdir(parents=True, exist_ok=True)] *)
Definition mkdir_parents (p : path) : M unit :=
  fun w =>
    let w1 := add_event (EMkdir p) w in
    match make_dirs (fs w) [] p with
    | Ok f => (Ok tt, set_fs f w1)
    | Raise e => (Raise e, w1)
    end.

(** [p.mkdir(exist_ok=True)]: one level, the parent has to be there.  The
    call is recorded as [EMkdir] like the one above. *)
Definition mkdir_exist_ok (p : path) : M unit :=
  fun w =>
    let w1 := add_event (EMkdir p) w in
    match lookup_node (fs w) p with
    | Some Dir => (Ok tt, w1)
    | Some (File _) =>
        (Raise (OSError ("[Errno 17] File exists: '" +:+ path_str p +:+ "'")),
         w1)
    | None =>
        if is_dir (fs w) (path_parent p)
        then (Ok tt, set_fs (<[p := Dir]> (fs w)) w1)
        else (Raise (FileNotFoundError
                       ("[Errno 2] No such file or directory: '"
                        +:+ path_str p +:+ "'")), w1)
    end.

(** *** Processes *)

Record completed := Completed {
  returncode : Z;
  stdout : string;
  stderr : string
}.

(** The exception with which [subprocess.run] answers an outcome: for an
    exit, the one of [check=True] on a non-zero status. *)
Definition spawn_error (argv : list string) (r : spawn_result) : exn :=
  match r with
  | Exited rc _ err => CalledProcessError rc err
  | TimedOut => TimeoutExpired
  | NotInstalled =>
      FileNotFoundError ("[Errno 2] No such file or directory: '"
                         +:+ List.hd "" argv +:+ "'")
  | NotPermitted =>
      PermissionError ("[Errno 13] Permission denied: '"
                       +:+ List.hd "" argv +:+ "'")
  | SpawnFailed msg => OSError msg
  | Undecodable msg => UnicodeDecodeError msg
  end.

(** [subprocess.run(argv, capture_output=True, text=True, check=...,
    timeout=...)] *)
Definition subprocess_run (E : oracle) (argv : list string) (check : bool)
    (timeout : option Z) : M completed :=
  fun w =>
    let w1 := add_event (ESpawn argv) w in
    let '(r, f) := run_tool E argv timeout (fs w) in
    let w2 := set_fs f w1 in
    match r with
    | Exited rc out err =>
        if check && negb (rc =? 0)
        then (Raise (spawn_error argv r), w2)
        else (Ok (Completed rc out err), w2)
    | _ => (Raise (spawn_error argv r), w2)
    end.

(** *** Rendering of values in f-strings *)

Definition py_str (E : oracle) (o : object) : string :=
  match fst o with
  | VStr s => s
  | VNone => "None"
  | VBool true => "True"
  | VBool false => "False"
  | VInt z => pretty z
  | v => py_repr E (snd o) v
  end.

(** ** class ReleaseConfig *)

Record ReleaseConfig := {
  fbc_repo_path : path;
  operator_branch : string;
  fbc_branch : string;
  tenant : string;
  bundle_component : string;
  quay_registry : string;
  ocp_version : string;
  operator_repo_owner : string;
  operator_repo_name : string;
  fbc_repo_url : string
}.

(** The configuration with the defaults of the dataclass. *)
Definition default_config (repo : path) : ReleaseConfig := {|
  fbc_repo_path := repo;
  operator_branch := "next";
  fbc_branch := "main";
  tenant := "dynamicacceleratorsl-tenant";
  bundle_component := "instaslice-operator-bundle-next";
  quay_registry := "quay.io/redhat-user-workloads";
  ocp_version := "v4.19";
  operator_repo_owner := "openshift";
  operator_repo_name := "instaslice-operator";
  fbc_repo_url := "https://github.com/openshift/instaslice-fbc.git"
|}.

Definition dquote : string := String (ascii_of_nat 34) EmptyString.

(** ** class DependencyChecker *)

Module DependencyChecker.

(** The pattern [OpmVersion:"v?([0-9.]+)"] of [get_opm_version]. *)

Fixpoint strip_prefix (pre s : string) : option string :=
  match pre, s with
  | EmptyString, _ => Some s
  | String a pre', String b s' =>
      if Ascii.eqb a b then strip_prefix pre' s' else None
  | String _ _, EmptyString => None
  end.

Definition is_version_char (c : ascii) : bool :=
  Str.is_digit c || Ascii.eqb c ".".

(** The longest prefix made of digits and dots, and what follows it. *)
Fixpoint span_version (s : string) : string * string :=
  match s with
  | EmptyString => (EmptyString, EmptyString)
  | String c s' =>
      if is_version_char c
      then let '(v, rest) := span_version s' in (String c v, rest)
      else (EmptyString, s)
  end.

(** The pattern matched at the start of [s]: the captured group. *)
Definition match_here (s : string) : option string :=
  match strip_prefix ("OpmVersion:" +:+ dquote) s with
  | None => None
  | Some r =>
      let r' := match r with String "v" t => t | _ => r end in
      let '(v, rest) := span_version r' in
      if String.eqb v "" then None
      else if Str.startswith rest dquote then Some v else None
  end.

(** [re.search(pattern, s)]: the leftmost match. *)
Fixpoint re_search (s : string) : option string :=
  match match_here s with
  | Some v => Some v
  | None => match s with
            | EmptyString => None
            | String _ s' => re_search s'
            end
  end.

(** [tuple(map(int, v.split('.')))]; [None] stands for [ValueError]. *)
Definition version_tuple (E : oracle) (v : string) : option (list Z) :=
  mapM (Str.to_int (unicode_int E)) (Str.split "." v).

(** [a >= b] on tuples of integers. *)
Fixpoint tuple_ge (a b : list Z) : bool :=
  match a, b with
  | _, [] => true
  | [], _ :: _ => false
  | x :: a', y :: b' => if x =? y then tuple_ge a' b' else y <? x
  end.

Section WithOracle.
Context (E : oracle).

(** The value of the [try] block is [Some v] where the source returns the
    captured group; [None] is the fall-through to the final [return None],
    reached also through the [except ...: pass] clause. *)
Definition get_opm_version : M (option string) :=
  try_except
    (result <- subprocess_run E ["opm"; "version"] false (Some 5) ;;
     if returncode result =? 0 then ret (re_search (stdout result))
     else ret None)
    (fun e => match e with
              | TimeoutExpired | FileNotFoundError _ => ret None
              | _ => raise e
              end).

Definition check_opm_version (min_version : string) : M bool :=
  version <- get_opm_version ;;
  match version with
  | None => ret false
  | Some v =>
      if String.eqb v "" then ret false
      else
        match version_tuple E v with
        | None => ret false
        | Some current =>
            match version_tuple E min_version with
            | None => ret false
            | Some required => ret (tuple_ge current required)
            end
        end
  end.

(** [REQUIRED_TOOLS] and [REQUIRED_PYTHON_PACKAGES], in the order of the
    dicts. *)
Definition REQUIRED_TOOLS : list (string * string) :=
  [("git", "Git version control");
   ("skopeo", "Container image inspection tool");
   ("opm", "OLM package manager (v1.47.0+)")].

Definition REQUIRED_PYTHON_PACKAGES : list (string * string) :=
  [("yaml", "PyYAML - YAML parser")].

Definition check_command_exists (command : string) : M bool :=
  result <- subprocess_run E ["which"; command] false None ;;
  ret (returncode result =? 0).

(** The loop over the tools, [missing] being the list built so far. *)
Fixpoint check_tools (tools : list (string * string)) (missing : list string)
  : M (list string) :=
  match tools with
  | [] => ret missing
  | (tool, description) :: rest =>
      found <- check_command_exists tool ;;
      missing <-
        (if negb found then
           ret (missing ++ [tool +:+ " - " +:+ description])%list
         else if String.eqb tool "opm" then
           passes <- check_opm_version "1.47.0" ;;
           if negb passes then
             version <- get_opm_version ;;
             match version with
             | Some v =>
                 if String.eqb v "" then
                   ret (missing ++ ["opm - Could not determine version, v1.47.0+ required"])%list
                 else
                   ret (missing ++ ["opm - Version " +:+ v
                                    +:+ " found, but v1.47.0+ required"])%list
             | None =>
                 ret (missing ++ ["opm - Could not determine version, v1.47.0+ required"])%list
             end
           else ret missing
         else ret missing) ;;
      check_tools rest missing
  end.

(** The loop over the Python packages; [yaml_present] tells whether
    [import yaml] succeeded when the module was loaded. *)
Fixpoint check_packages (yaml_present : bool)
    (packages : list (string * string)) (missing : list string)
  : list string :=
  match packages with
  | [] => missing
  | (package, description) :: rest =>
      check_packages yaml_present rest
        (if String.eqb package "yaml" && negb yaml_present
         then (missing ++ ["python3-" +:+ package +:+ " - " +:+ description])%list
         else missing)
  end.

Definition check_all_dependencies (yaml_present : bool)
  : M (bool * list string) :=
  missing <- check_tools REQUIRED_TOOLS [] ;;
  let missing := check_packages yaml_present REQUIRED_PYTHON_PACKAGES missing in
  ret (Nat.eqb (List.length missing) 0, missing).

End WithOracle.
End DependencyChecker.

(** ** class GitHubOperations *)

Module GitHubOperations.
Section WithOracle.
Context (E : oracle).

Definition http_get (url : string) (headers : list (string * string))
    (timeout : Z) : M string :=
  fun w => match urlopen E url headers timeout with
           | HttpBody b => (Ok b, w)
           | HttpRaises e => (Raise e, w)
           end.

Definition loads (s : string) : M object :=
  fun w => match json_loads E s with
           | Loaded v h => (Ok (v, h), w)
           | LoadRaises e => (Raise e, w)
           end.

Definition api_url (repo_owner repo_name branch : string) : string :=
  "https://api.github.com/repos/" +:+ repo_owner +:+ "/" +:+ repo_name
  +:+ "/branches/" +:+ branch.

Definition get_latest_commit_sha (repo_owner repo_name branch : string)
  : M object :=
  try_except
    (logger_info ("Fetching latest commit from " +:+ repo_owner +:+ "/"
                  +:+ repo_name +:+ " branch " +:+ branch +:+ "...") ;;
     body <- http_get (api_url repo_owner repo_name branch)
                      [("Accept", "application/vnd.github.v3+json")] 30 ;;
     data <- loads body ;;
     commit <- lift (Py.getitem (snd data) (fst data) "commit") ;;
     sha <- lift (Py.getitem (snd data) commit "sha") ;;
     logger_info ("Latest commit on " +:+ branch +:+ ": "
                  +:+ py_str E (sha, snd data)) ;;
     ret (sha, snd data))
    (fun e =>
       match e with
       | HTTPError code reason =>
           if code =? 404 then
             raise (ReleaseError ("Branch '" +:+ branch +:+ "' not found in "
                                  +:+ repo_owner +:+ "/" +:+ repo_name))
           else if code =? 403 then
             raise (ReleaseError "GitHub API rate limit exceeded. Try again later or set GITHUB_TOKEN environment variable.")
           else
             raise (ReleaseError ("GitHub API error: " +:+ pretty code
                                  +:+ " " +:+ reason))
       | URLError reason =>
           raise (ReleaseError ("Network error accessing GitHub API: "
                                +:+ reason))
       | KeyError _ =>
           raise (ReleaseError "Unexpected response format from GitHub API")
       | _ =>
           if is_Exception e then
             raise (ReleaseError ("Failed to get commit SHA from GitHub: "
                                  +:+ exn_str e))
           else raise e
       end).

End WithOracle.
End GitHubOperations.

(** ** class GitOperations *)

Module GitOperations.
Section WithOracle.
Context (E : oracle).

Definition clone_repository (repo_url : string) (dest_path : path)
    (branch : option string) : M unit :=
  try_except
    (logger_info ("Cloning " +:+ repo_url +:+ " to " +:+ path_str dest_path
                  +:+ "...") ;;
     mkdir_parents (path_parent dest_path) ;;
     let cmd := ["git"; "clone"; repo_url; path_str dest_path] in
     let cmd := match branch with
                | Some b => if String.eqb b "" then cmd
                            else (cmd ++ ["--branch"; b])%list
                | None => cmd
                end in
     subprocess_run E cmd true (Some 300) ;;
     logger_info ("Successfully cloned to " +:+ path_str dest_path))
    (fun e =>
       match e with
       | CalledProcessError _ err =>
           raise (ReleaseError ("Failed to clone repository: " +:+ err))
       | TimeoutExpired =>
           raise (ReleaseError "Repository clone timed out (>5 minutes)")
       | _ => raise e
       end).

Definition check_repo_clean (repo_path : path) : M bool :=
  try_except
    (result <- subprocess_run E
                 ["git"; "-C"; path_str repo_path; "status"; "--porcelain"]
                 true (Some 10) ;;
     ret (Nat.eqb (String.length (Str.strip (stdout result))) 0))
    (fun e =>
       match e with
       | CalledProcessError _ err =>
           raise (ReleaseError ("Failed to check git status: " +:+ err))
       | _ => raise e
       end).

Definition fetch_latest (repo_path : path) : M unit :=
  try_except
    (logger_info ("Fetching latest changes from " +:+ path_name repo_path
                  +:+ "...") ;;
     subprocess_run E ["git"; "-C"; path_str repo_path; "fetch"; "origin"]
                    true (Some 30) ;;
     ret tt)
    (fun e =>
       match e with
       | CalledProcessError _ err =>
           raise (ReleaseError ("Failed to fetch: " +:+ err))
       | _ => raise e
       end).

Definition commit_changes (repo_path : path) (files : list string)
    (message : string) : M unit :=
  try_except
    (subprocess_run E (["git"; "-C"; path_str repo_path; "add"] ++ files)%list
                    true (Some 10) ;;
     subprocess_run E ["git"; "-C"; path_str repo_path; "commit"; "-m"; message]
                    true (Some 10) ;;
     logger_info ("Committed changes: " +:+ message))
    (fun e =>
       match e with
       | CalledProcessError _ err =>
           raise (ReleaseError ("Failed to commit: " +:+ err))
       | _ => raise e
       end).

End WithOracle.
End GitOperations.

(** ** class ContainerImageOperations *)

Module ContainerImageOperations.
Section WithOracle.
Context (E : oracle).

Definition get_image_digest (image_url : string) : M string :=
  try_except
    (logger_info ("Inspecting image: " +:+ image_url) ;;
     result <- subprocess_run E
                 ["skopeo"; "inspect"; "docker://" +:+ image_url;
                  "--format"; "{{.Digest}}"]
                 true (Some 60) ;;
     let digest := Str.strip (stdout result) in
     if negb (Str.startswith digest "sha256:") then
       raise (ReleaseError ("Invalid digest format: " +:+ digest))
     else
       logger_info ("Image digest: " +:+ digest) ;;
       ret digest)
    (fun e =>
       match e with
       | CalledProcessError _ err =>
           raise (ReleaseError ("Failed to inspect image: " +:+ err))
       | TimeoutExpired => raise (ReleaseError "Image inspection timed out")
       | _ => raise e
       end).

End WithOracle.
End ContainerImageOperations.

(** ** class FBCCatalogManager *)

(** The dicts built by [preview_catalog_update] and [update_fbc_catalog]:
    a key that a dict does not have is [None] here. *)
Record change_info := ChangeInfo {
  template_path : string;
  current_image : option object;
  new_image : string;
  would_change : option bool;
  files_modified : option bool
}.

Module FBCCatalogManager.
Section WithOracle.
Context (E : oracle).

Definition safe_load (s : string) : M object :=
  fun w => match yaml_safe_load E s with
           | Loaded v h => (Ok (v, h), w)
           | LoadRaises e => (Raise e, w)
           end.

Definition preview_catalog_update (template_path : path)
    (new_bundle_image : string) : M change_info :=
  try_except
    (logger_info ("Previewing catalog template: " +:+ path_str template_path) ;;
     found <- path_exists template_path ;;
     (if negb found
      then raise (ReleaseError ("Template not found: "
                                +:+ path_str template_path))
      else ret tt) ;;
     content <- read_text template_path ;;
     loaded <- safe_load content ;;
     let data := fst loaded in
     let h := snd loaded in
     has_stable <- lift (Py.contains h "Stable" data) ;;
     (if negb has_stable
      then raise (ReleaseError "Template missing 'Stable' section")
      else ret tt) ;;
     stable <- lift (Py.getitem h data "Stable") ;;
     has_bundles <- lift (Py.contains h "Bundles" stable) ;;
     (if negb has_bundles
      then raise (ReleaseError "Template missing 'Stable.Bundles' section")
      else ret tt) ;;
     stable <- lift (Py.getitem h data "Stable") ;;
     bundles <- lift (Py.getitem h stable "Bundles") ;;
     (if negb (Py.truthy h bundles) || negb (Py.is_list h bundles)
      then raise (ReleaseError "Template has empty or invalid Bundles list")
      else ret tt) ;;
     first <- lift (Py.getitem0 h bundles) ;;
     has_image <- lift (Py.contains h "Image" first) ;;
     (if negb has_image
      then raise (ReleaseError "Template missing 'Image' field in first bundle")
      else ret tt) ;;
     first <- lift (Py.getitem0 h bundles) ;;
     current_image <- lift (Py.getitem h first "Image") ;;
     let would_change := negb (Py.eq_str current_image new_bundle_image) in
     (if would_change then
        logger_info ("Would update from: " +:+ py_str E (current_image, h)) ;;
        logger_info ("Would update to:   " +:+ new_bundle_image)
      else
        logger_info "Catalog template already has the latest image") ;;
     ret {| template_path := path_str template_path;
            current_image := Some (current_image, h);
            new_image := new_bundle_image;
            would_change := Some would_change;
            files_modified := None |})
    (fun e =>
       match e with
       | YAMLError m =>
           raise (ReleaseError ("Failed to parse YAML template: " +:+ m))
       | _ =>
           if is_Exception e then
             if is_ReleaseError e then raise e
             else raise (ReleaseError ("Failed to preview template: "
                                       +:+ exn_str e))
           else raise e
       end).

Definition update_catalog_template (template_path : path)
    (new_bundle_image : string) : M unit :=
  try_except
    (logger_info ("Updating catalog template: " +:+ path_str template_path) ;;
     found <- path_exists template_path ;;
     (if negb found
      then raise (ReleaseError ("Template not found: "
                                +:+ path_str template_path))
      else ret tt) ;;
     content <- read_text template_path ;;
     loaded <- safe_load content ;;
     let data := fst loaded in
     let h := snd loaded in
     has_stable <- lift (Py.contains h "Stable" data) ;;
     (if negb has_stable
      then raise (ReleaseError "Template missing 'Stable' section")
      else ret tt) ;;
     stable <- lift (Py.getitem h data "Stable") ;;
     has_bundles <- lift (Py.contains h "Bundles" stable) ;;
     (if negb has_bundles
      then raise (ReleaseError "Template missing 'Stable.Bundles' section")
      else ret tt) ;;
     stable <- lift (Py.getitem h data "Stable") ;;
     bundles <- lift (Py.getitem h stable "Bundles") ;;
     (if negb (Py.truthy h bundles) || negb (Py.is_list h bundles)
      then raise (ReleaseError "Template has empty or invalid Bundles list")
      else ret tt) ;;
     first <- lift (Py.getitem0 h bundles) ;;
     has_image <- lift (Py.contains h "Image" first) ;;
     (if negb has_image
      then raise (ReleaseError "Template missing 'Image' field in first bundle")
      else ret tt) ;;
     first <- lift (Py.getitem0 h bundles) ;;
     current_image <- lift (Py.getitem h first "Image") ;;
     (if Py.eq_str current_image new_bundle_image then
        logger_info "Catalog template already has the latest image"
      else
        logger_info ("Updating from: " +:+ py_str E (current_image, h)) ;;
        logger_info ("Updating to:   " +:+ new_bundle_image)) ;;
     (* bundles[0]['Image'] = new_bundle_image *)
     first <- lift (Py.getitem0 h bundles) ;;
     h' <- lift (Py.setitem h first "Image" (VStr new_bundle_image)) ;;
     (* yaml.dump(data, f, default_flow_style=False, sort_keys=False) *)
     write_text template_path
       (yaml_dump E h' data
          {| default_flow_style := false; sort_keys := false |}) ;;
     logger_info ("Updated template with image: " +:+ new_bundle_image))
    (fun e =>
       match e with
       | YAMLError m =>
           raise (ReleaseError ("Failed to parse YAML template: " +:+ m))
       | _ =>
           if is_Exception e then
             if is_ReleaseError e then raise e
             else raise (ReleaseError ("Failed to update template: "
                                       +:+ exn_str e))
           else raise e
       end).

Definition regenerate_catalog (fbc_repo_path : path) (ocp_version : string)
    (opm_path : string) : M unit :=
  try_except
    (let template_path :=
       path_div (path_div fbc_repo_path ocp_version) "catalog-template.yaml" in
     let output_path :=
       path_div (path_div (path_div (path_div fbc_repo_path ocp_version)
                                    "catalog") "instaslice-operator")
                "catalog.json" in
     logger_info ("Regenerating catalog for " +:+ ocp_version +:+ "...") ;;
     let cmd := [opm_path; "alpha"; "render-template"; "semver";
                 path_str template_path;
                 "--migrate-level=bundle-object-to-csv-metadata"] in
     result <- subprocess_run E cmd true (Some 60) ;;
     write_text output_path (stdout result) ;;
     logger_info ("Generated catalog: " +:+ path_str output_path))
    (fun e =>
       match e with
       | CalledProcessError _ err =>
           raise (ReleaseError ("Failed to regenerate catalog: " +:+ err))
       | TimeoutExpired => raise (ReleaseError "Catalog generation timed out")
       | _ => raise e
       end).

End WithOracle.
End FBCCatalogManager.

(** ** class Colors *)

Module Colors.
Definition esc : string := String (ascii_of_nat 27) EmptyString.
Definition HEADER := esc +:+ "[95m".
Definition OKBLUE := esc +:+ "[94m".
Definition OKCYAN := esc +:+ "[96m".
Definition OKGREEN := esc +:+ "[92m".
Definition WARNING := esc +:+ "[93m".
Definition FAIL := esc +:+ "[91m".
Definition ENDC := esc +:+ "[0m".
Definition BOLD := esc +:+ "[1m".
Definition UNDERLINE := esc +:+ "[4m".
Definition RED := esc +:+ "[91m".
Definition GREEN := esc +:+ "[92m".
Definition YELLOW := esc +:+ "[93m".
Definition BLUE := esc +:+ "[94m".
Definition MAGENTA := esc +:+ "[95m".
End Colors.

(** ** class ReleaseManager *)

Definition newline : string := String (ascii_of_nat 10) EmptyString.

(** ['=' * 60] *)
Definition rule60 : string := Str.join "" (List.repeat "=" 60%nat).

Module ReleaseManager.
Section WithOracle.
Context (E : oracle) (config : ReleaseConfig).

Definition validate_and_setup_repositories : M unit :=
  logger_info "Validating configuration and setting up repositories..." ;;
  found <- path_exists (fbc_repo_path config) ;;
  (if negb found then
     logger_warning ("FBC repository not found at "
                     +:+ path_str (fbc_repo_path config)) ;;
     logger_info "Cloning FBC repository..." ;;
     GitOperations.clone_repository E (fbc_repo_url config)
                                    (fbc_repo_path config) None
   else
     has_git <- path_exists (path_div (fbc_repo_path config) ".git") ;;
     if negb has_git
     then raise (ReleaseError ("Not a git repository: "
                               +:+ path_str (fbc_repo_path config)))
     else ret tt) ;;
  logger_info "Configuration validated and repositories ready".

Definition check_fbc_repo_clean : M unit :=
  logger_info "Checking FBC repository status..." ;;
  clean <- GitOperations.check_repo_clean E (fbc_repo_path config) ;;
  (if negb clean
   then raise (ReleaseError
                 ("FBC repository has uncommitted changes: "
                  +:+ path_str (fbc_repo_path config) +:+ newline
                  +:+ "Please commit or stash changes before running release."))
   else ret tt) ;;
  logger_info "FBC repository is clean".

Definition get_latest_bundle_sha : M (object * string) :=
  logger_info "Fetching latest operator commit from GitHub..." ;;
  commit_sha <- GitHubOperations.get_latest_commit_sha E
                  (operator_repo_owner config) (operator_repo_name config)
                  (operator_branch config) ;;
  let bundle_image :=
    quay_registry config +:+ "/" +:+ tenant config +:+ "/"
    +:+ bundle_component config +:+ ":" +:+ py_str E commit_sha in
  image_digest <- ContainerImageOperations.get_image_digest E bundle_image ;;
  ret (commit_sha, image_digest).

Definition catalog_template_path : path :=
  path_div (path_div (fbc_repo_path config) (ocp_version config))
           "catalog-template.yaml".

Definition update_fbc_catalog (commit_sha : object) (image_digest : string)
    (dry_run : bool) : M change_info :=
  logger_info "Updating FBC catalog..." ;;
  GitOperations.fetch_latest E (fbc_repo_path config) ;;
  let bundle_image :=
    quay_registry config +:+ "/" +:+ tenant config +:+ "/"
    +:+ bundle_component config +:+ "@" +:+ image_digest in
  let template_path := catalog_template_path in
  if dry_run then
    info <- FBCCatalogManager.preview_catalog_update E template_path
              bundle_image ;;
    logger_info "FBC catalog preview completed (no files modified)" ;;
    ret info
  else
    FBCCatalogManager.update_catalog_template E template_path bundle_image ;;
    FBCCatalogManager.regenerate_catalog E (fbc_repo_path config)
                                         (ocp_version config) "opm" ;;
    logger_info "FBC catalog updated successfully" ;;
    ret {| template_path := path_str template_path;
           current_image := None;
           new_image := bundle_image;
           would_change := None;
           files_modified := Some true |}.

Definition commit_fbc_changes (commit_sha : object) : M unit :=
  logger_info "Committing FBC changes..." ;;
  let files := [ocp_version config +:+ "/catalog-template.yaml";
                ocp_version config
                +:+ "/catalog/instaslice-operator/catalog.json"] in
  let message :=
    "Update " +:+ ocp_version config
    +:+ " catalog with latest instaslice operator bundle" +:+ newline
    +:+ newline
    +:+ "Updates the instaslice-operator-bundle-next to commit "
    +:+ py_str E commit_sha +:+ " "
    +:+ "which includes the latest merged fixes." in
  GitOperations.commit_changes E (fbc_repo_path config) files message ;;
  logger_info "Changes committed successfully".

(** The summary printed at the end of a dry run. *)
Definition print_dry_run_summary (commit_sha : object) (image_digest : string)
    (info : change_info) : M unit :=
  print "" ;;
  print (Colors.MAGENTA +:+ Colors.BOLD +:+ rule60 +:+ Colors.ENDC) ;;
  print (Colors.YELLOW +:+ Colors.BOLD +:+ "DRY RUN - No files modified"
         +:+ Colors.ENDC) ;;
  print (Colors.MAGENTA +:+ Colors.BOLD +:+ rule60 +:+ Colors.ENDC) ;;
  print "" ;;
  print (Colors.BLUE +:+ "Operator commit:" +:+ Colors.ENDC +:+ " "
         +:+ py_str E commit_sha) ;;
  print (Colors.BLUE +:+ "Bundle digest:" +:+ Colors.ENDC +:+ "   "
         +:+ image_digest) ;;
  print "" ;;
  (match would_change info with
   | Some true =>
       print (Colors.BOLD +:+ "Changes that would be made:" +:+ Colors.ENDC) ;;
       print ("  " +:+ Colors.BLUE +:+ "Template:" +:+ Colors.ENDC +:+ " "
              +:+ template_path info) ;;
       print "" ;;
       current <- match current_image info with
                  | Some c => ret c
                  | None => raise (KeyError "current_image")
                  end ;;
       let new := new_image info in
       print ("  " +:+ Colors.RED +:+ Colors.BOLD +:+ "[-] Current:"
              +:+ Colors.ENDC) ;;
       print ("      " +:+ Colors.RED +:+ py_str E current +:+ Colors.ENDC) ;;
       print "" ;;
       print ("  " +:+ Colors.GREEN +:+ Colors.BOLD +:+ "[+] New:"
              +:+ Colors.ENDC) ;;
       print ("      " +:+ Colors.GREEN +:+ new +:+ Colors.ENDC) ;;
       print "" ;;
       print (Colors.BOLD +:+ "Files that would be updated:" +:+ Colors.ENDC) ;;
       print ("  " +:+ Colors.YELLOW +:+ "•" +:+ Colors.ENDC +:+ " "
              +:+ ocp_version config +:+ "/catalog-template.yaml") ;;
       print ("  " +:+ Colors.YELLOW +:+ "•" +:+ Colors.ENDC +:+ " "
              +:+ ocp_version config
              +:+ "/catalog/instaslice-operator/catalog.json")
   | _ =>
       print (Colors.OKGREEN +:+ Colors.BOLD +:+ "✓" +:+ Colors.ENDC
              +:+ " No changes needed - catalog already up-to-date")
   end) ;;
  print "" ;;
  print (Colors.OKCYAN +:+ "To perform the actual release, run without --dry-run"
         +:+ Colors.ENDC) ;;
  print (Colors.MAGENTA +:+ Colors.BOLD +:+ rule60 +:+ Colors.ENDC) ;;
  print "".

Definition run_release (dry_run : bool) : M unit :=
  logger_info rule60 ;;
  logger_info "Starting InstaSlice Operator Release" ;;
  logger_info rule60 ;;
  try_except
    ((* Step 1 *)
     validate_and_setup_repositories ;;
     (* Step 2 *)
     (if negb dry_run then check_fbc_repo_clean else ret tt) ;;
     (* Step 3 *)
     latest <- get_latest_bundle_sha ;;
     let commit_sha := fst latest in
     let image_digest := snd latest in
     (* Step 4 *)
     info <- update_fbc_catalog commit_sha image_digest dry_run ;;
     (* Step 5 *)
     if dry_run then print_dry_run_summary commit_sha image_digest info
     else
       commit_fbc_changes commit_sha ;;
       logger_info rule60 ;;
       logger_info "Release completed successfully!" ;;
       logger_info ("Operator commit: " +:+ py_str E commit_sha) ;;
       logger_info ("Bundle digest: " +:+ image_digest) ;;
       logger_info "" ;;
       logger_info "Next steps:" ;;
       logger_info ("1. Push changes: cd " +:+ path_str (fbc_repo_path config)
                    +:+ " && git push") ;;
       logger_info "2. Monitor Konflux build at: https://console.redhat.com/preview/application-pipeline/workspaces" ;;
       logger_info "3. Verify in OperatorHub once released" ;;
       logger_info rule60)
    (fun e =>
       match e with
       | DependencyError _ | ReleaseError _ =>
           logger_error ("Release failed: " +:+ exn_str e) ;;
           raise (SystemExit 1)
       | _ =>
           if is_Exception e then
             logger_error ("Unexpected error: " +:+ exn_str e) ;;
             raise (SystemExit 1)
           else raise e
       end).

End WithOracle.
End ReleaseManager.

(** ** main

    The arguments as [argparse] hands them over; [script_dir] is
    [Path(__file__).parent.parent] and [yaml_present] tells whether the
    YAML package could be imported.  Paths are absolute lists of
    components: [arg_fbc_repo] is the path given on the command line as
    [resolve()] returns it. *)

Record Args := {
  arg_fbc_repo : option path;
  arg_ocp_version : string;
  arg_dry_run : bool;
  arg_check_deps : bool;
  arg_verbose : bool
}.

Module Main.
Section WithOracle.
Context (E : oracle) (script_dir : path) (yaml_present : bool).

(** [logger.setLevel(logging.DEBUG)]: the program logs at INFO and above
    only, the records it emits are the same at either level. *)
Definition logger_setLevel_DEBUG : M unit := ret tt.

Fixpoint log_missing (missing : list string) : M unit :=
  match missing with
  | [] => ret tt
  | tool :: rest => logger_error ("  - " +:+ tool) ;; log_missing rest
  end.

(** [staging_dir = script_dir / 'staging'] *)
Definition staging_dir : path := path_div script_dir "staging".

(** [fbc_repo = args.fbc_repo or staging_dir / 'instaslice-fbc']: a path
    is never falsy, the default stands for [None] alone. *)
Definition fbc_repo (args : Args) : path :=
  match arg_fbc_repo args with
  | Some p => p
  | None => path_div staging_dir "instaslice-fbc"
  end.

(** [ReleaseConfig(fbc_repo_path=fbc_repo.resolve(),
    ocp_version=args.ocp_version)] *)
Definition config (args : Args) : ReleaseConfig := {|
  fbc_repo_path := fbc_repo args;
  operator_branch := "next";
  fbc_branch := "main";
  tenant := "dynamicacceleratorsl-tenant";
  bundle_component := "instaslice-operator-bundle-next";
  quay_registry := "quay.io/redhat-user-workloads";
  ocp_version := arg_ocp_version args;
  operator_repo_owner := "openshift";
  operator_repo_name := "instaslice-operator";
  fbc_repo_url := "https://github.com/openshift/instaslice-fbc.git"
|}.

Definition main (args : Args) : M unit :=
  (if arg_verbose args then logger_setLevel_DEBUG else ret tt) ;;
  logger_info "Checking dependencies..." ;;
  deps <- DependencyChecker.check_all_dependencies E yaml_present ;;
  (if negb (fst deps) then
     logger_error "Missing required dependencies:" ;;
     log_missing (snd deps) ;;
     logger_error (newline +:+ "Installation instructions:") ;;
     logger_error "  git:         https://git-scm.com/downloads" ;;
     logger_error "  skopeo:      https://github.com/containers/skopeo/blob/main/install.md" ;;
     logger_error "  opm:         https://github.com/operator-framework/operator-registry/releases" ;;
     logger_error "  python3-yaml: pip3 install PyYAML" ;;
     raise (SystemExit 1)
   else ret tt) ;;
  logger_info "All dependencies satisfied ✓" ;;
  (if arg_check_deps args then
     logger_info "Dependency check complete" ;;
     raise (SystemExit 0)
   else ret tt) ;;
  mkdir_exist_ok staging_dir ;;
  ReleaseManager.run_release E (config args) (arg_dry_run args).

End WithOracle.
End Main.

(** * Definitions used by the statements *)

(** ** The navigation shared by preview and apply

    [preview_catalog_update] and [update_catalog_template] repeat the same
    checks in their [try] blocks.  [locate_image] is that sequence written
    once, on the filesystem alone: what the block has found when it reaches
    the comparison with the candidate, or the exception it raises before. *)

Record located := Located {
  loc_heap : heap;
  loc_data : pyval;
  loc_bundles : pyval;
  loc_first : pyval;
  loc_current : pyval
}.

Definition res_bind {A B} (r : res A) (k : A -> res B) : res B :=
  match r with
  | Ok a => k a
  | Raise e => Raise e
  end.

Definition locate_image (E : oracle) (f : gmap path node) (p : path)
  : res located :=
  match lookup_node f p with
  | None => Raise (ReleaseError ("Template not found: " +:+ path_str p))
  | Some Dir =>
      Raise (OSError ("[Errno 21] Is a directory: '" +:+ path_str p +:+ "'"))
  | Some (File c) =>
      match yaml_safe_load E c with
      | LoadRaises e => Raise e
      | Loaded data h =>
          res_bind (Py.contains h "Stable" data) (fun has_stable =>
          if negb has_stable
          then Raise (ReleaseError "Template missing 'Stable' section") else
          res_bind (Py.getitem h data "Stable") (fun stable =>
          res_bind (Py.contains h "Bundles" stable) (fun has_bundles =>
          if negb has_bundles
          then Raise (ReleaseError "Template missing 'Stable.Bundles' section")
          else
          res_bind (Py.getitem h stable "Bundles") (fun bundles =>
          if negb (Py.truthy h bundles) || negb (Py.is_list h bundles)
          then Raise (ReleaseError "Template has empty or invalid Bundles list")
          else
          res_bind (Py.getitem0 h bundles) (fun first =>
          res_bind (Py.contains h "Image" first) (fun has_image =>
          if negb has_image
          then Raise (ReleaseError
                        "Template missing 'Image' field in first bundle")
          else
          res_bind (Py.getitem h first "Image") (fun current =>
          Ok (Located h data bundles first current))))))))
      end
  end.

(** The [except] clauses common to the two operations, [prefix] being
    ["Failed to preview template: "] or ["Failed to update template: "]. *)
Definition wrap_error (prefix : string) (e : exn) : exn :=
  match e with
  | YAMLError m => ReleaseError ("Failed to parse YAML template: " +:+ m)
  | ReleaseError _ | SystemExit _ => e
  | _ => ReleaseError (prefix +:+ exn_str e)
  end.

(** What the two operations log about their decision. *)
Definition preview_log (E : oracle) (cand : string) (L : located)
    (w : world) : world :=
  if negb (Py.eq_str (loc_current L) cand)
  then add_log INFO ("Would update to:   " +:+ cand)
         (add_log INFO ("Would update from: "
                        +:+ py_str E (loc_current L, loc_heap L)) w)
  else add_log INFO "Catalog template already has the latest image" w.

Definition update_log (E : oracle) (cand : string) (L : located)
    (w : world) : world :=
  if Py.eq_str (loc_current L) cand
  then add_log INFO "Catalog template already has the latest image" w
  else add_log INFO ("Updating to:   " +:+ cand)
         (add_log INFO ("Updating from: "
                        +:+ py_str E (loc_current L, loc_heap L)) w).

(** ** The digest format of the specification

    ["sha256:"] followed by exactly 64 hexadecimal characters. *)

Definition is_hex_char (c : ascii) : bool :=
  let n := nat_of_ascii c in
  (((48 <=? n) && (n <=? 57)) || ((97 <=? n) && (n <=? 102))
   || ((65 <=? n) && (n <=? 70)))%nat.

Fixpoint all_chars (f : ascii -> bool) (s : string) : bool :=
  match s with
  | EmptyString => true
  | String c s' => f c && all_chars f s'
  end.

Definition spec_digest_format (s : string) : bool :=
  match DependencyChecker.strip_prefix "sha256:" s with
  | Some r => Nat.eqb (String.length r) 64 && all_chars is_hex_char r
  | None => false
  end.

(** ** The order on version tuples

    The comparison of the specification, [(major, minor, patch) >=
    required] on tuples: the components are compared as numbers, one by
    one from the left; the first pair that differs decides, and a tuple is
    above its proper prefixes. *)

Inductive lex_ge : list Z -> list Z -> Prop :=
| lex_ge_nil a : lex_ge a []
| lex_ge_gt x a y b : y < x -> lex_ge (x :: a) (y :: b)
| lex_ge_eq x a b : lex_ge a b -> lex_ge (x :: a) (x :: b).

(** ** The defects of a template, in the order of the specification *)

Inductive defect := NoFile | NoStable | NoBundles | EmptyBundles | NoImage.

Definition defect_message (p : path) (d : defect) : string :=
  match d with
  | NoFile => "Template not found: " +:+ path_str p
  | NoStable => "Template missing 'Stable' section"
  | NoBundles => "Template missing 'Stable.Bundles' section"
  | EmptyBundles => "Template has empty or invalid Bundles list"
  | NoImage => "Template missing 'Image' field in first bundle"
  end.

Definition defect_section (d : defect) : string :=
  match d with
  | NoFile => "Template"
  | NoStable => "Stable"
  | NoBundles => "Stable.Bundles"
  | EmptyBundles => "Bundles"
  | NoImage => "Image"
  end.

Definition mapping_of (h : heap) (v : pyval) : option (list (pyval * pyval)) :=
  match Py.deref h v with Some (ODict es) => Some es | _ => None end.

(** The first requirement that a template fails: the file exists, the
    document has a ["Stable"] key, that section has a ["Bundles"] key,
    ["Bundles"] is a non-empty list, its first element has an ["Image"]
    key.  [None] when all hold, and when the document is not made of
    mappings where the requirements speak of keys.  A ["Bundles"] that is
    present but is not a list (null, a mapping, a scalar) fails the fourth
    requirement like the empty list does. *)
Definition first_defect (E : oracle) (f : gmap path node) (p : path)
  : option defect :=
  match lookup_node f p with
  | None => Some NoFile
  | Some Dir => None
  | Some (File c) =>
      match yaml_safe_load E c with
      | LoadRaises _ => None
      | Loaded data h =>
          match mapping_of h data with
          | None => None
          | Some top =>
              match Py.dict_get top "Stable" with
              | None => Some NoStable
              | Some stable =>
                  match mapping_of h stable with
                  | None => None
                  | Some section =>
                      match Py.dict_get section "Bundles" with
                      | None => Some NoBundles
                      | Some bundles =>
                          match Py.deref h bundles with
                          | Some (OList (first :: _)) =>
                              match mapping_of h first with
                              | None => None
                              | Some bundle =>
                                  match Py.dict_get bundle "Image" with
                                  | None => Some NoImage
                                  | Some _ => None
                                  end
                              end
                          | _ => Some EmptyBundles
                          end
                      end
                  end
              end
          end
      end
  end.

(** ** The image field of a template

    [Stable.Bundles[0]] of a loaded document, when the document has the
    shape of a catalog template: the mapping object that is the first
    bundle, and its entries. *)
Definition stable_bundles_0 (h : heap) (data : pyval)
  : option (loc * list (pyval * pyval)) :=
  top ← mapping_of h data;
  stable ← Py.dict_get top "Stable";
  section ← mapping_of h stable;
  bundles ← Py.dict_get section "Bundles";
  match Py.deref h bundles with
  | Some (OList (VRef l :: _)) =>
      match h !! l with
      | Some (ODict es) => Some (l, es)
      | _ => None
      end
  | _ => None
  end.

(** [Stable.Bundles[0].Image] *)
Definition stable_bundles_0_image (h : heap) (data : pyval) : option pyval :=
  '(_, es) ← stable_bundles_0 h data;
  Py.dict_get es "Image".

(** ** The assignment of apply

    The store after [bundles[0]['Image'] = cand], the first bundle being
    the mapping object at [l] with entries [es]. *)
Definition assign_image (h : heap) (l : loc) (es : list (pyval * pyval))
    (cand : string) : heap :=
  <[l := ODict (Py.dict_set es "Image" (VStr cand))]> h.

(** ** The command lines of the tools *)

Definition skopeo_argv (image_url : string) : list string :=
  ["skopeo"; "inspect"; "docker://" +:+ image_url; "--format"; "{{.Digest}}"].

Definition status_argv (repo_path : path) : list string :=
  ["git"; "-C"; path_str repo_path; "status"; "--porcelain"].

(** ** The answers of the commit resolver *)

Definition accept_header : list (string * string) :=
  [("Accept", "application/vnd.github.v3+json")].

(** An expected field is missing: the answer has no ["commit"], or its
    ["commit"] has no ["sha"]. *)
Definition missing_commit_field (h : heap) (data : pyval) : Prop :=
  exists top,
    mapping_of h data = Some top /\
    (Py.dict_get top "commit" = None \/
     exists commit fields,
       Py.dict_get top "commit" = Some commit /\
       mapping_of h commit = Some fields /\
       Py.dict_get fields "sha" = None).

Definition not_found_message (owner repo branch : string) : string :=
  "Branch '" +:+ branch +:+ "' not found in " +:+ owner +:+ "/" +:+ repo.
Definition rate_limit_message : string :=
  "GitHub API rate limit exceeded. Try again later or set GITHUB_TOKEN environment variable.".
Definition api_error_message (code : Z) (reason : string) : string :=
  "GitHub API error: " +:+ pretty code +:+ " " +:+ reason.
Definition network_error_message (reason : string) : string :=
  "Network error accessing GitHub API: " +:+ reason.
Definition malformed_message : string :=
  "Unexpected response format from GitHub API".

(** ** Effects on disk

    [steps P w w']: from [w] to [w'] the operations recorded are all in
    [P], and when none is recorded the disk is the same. *)
Definition steps (P : event -> Prop) (w w' : world) : Prop :=
  exists evs,
    events w' = (events w ++ evs)%list /\
    Forall P evs /\
    (evs = [] -> fs w' = fs w).

(** A computation whose every run stays within [P]. *)
Definition confined {A} (P : event -> Prop) (m : M A) : Prop :=
  forall w, steps P w (snd (m w)).

(** The operations a dry run may perform. *)
Definition dry_run_event (config : ReleaseConfig) (e : event) : Prop :=
  e = EMkdir (path_parent (fbc_repo_path config)) \/
  e = ESpawn ["git"; "clone"; fbc_repo_url config;
              path_str (fbc_repo_path config)] \/
  (exists image, e = ESpawn (skopeo_argv image)) \/
  e = ESpawn ["git"; "-C"; path_str (fbc_repo_path config); "fetch"; "origin"].

(** Those it performs when the local repository is there. *)
Definition probe_event (config : ReleaseConfig) (e : event) : Prop :=
  (exists image, e = ESpawn (skopeo_argv image)) \/
  e = ESpawn ["git"; "-C"; path_str (fbc_repo_path config); "fetch"; "origin"].

(** ** Further command lines and paths *)

Definition which_argv (command : string) : list string := ["which"; command].

Definition opm_version_argv : list string := ["opm"; "version"].

Definition clone_argv (repo_url : string) (dest_path : path)
    (branch : option string) : list string :=
  (["git"; "clone"; repo_url; path_str dest_path]
   ++ match branch with
      | Some b => if String.eqb b "" then [] else ["--branch"; b]
      | None => []
      end)%list.

Definition fetch_argv (repo_path : path) : list string :=
  ["git"; "-C"; path_str repo_path; "fetch"; "origin"].

Definition add_argv (repo_path : path) (files : list string) : list string :=
  (["git"; "-C"; path_str repo_path; "add"] ++ files)%list.

Definition commit_argv (repo_path : path) (message : string) : list string :=
  ["git"; "-C"; path_str repo_path; "commit"; "-m"; message].

Definition catalog_output_path (repo_path : path) (ocp_version : string)
  : path :=
  path_div (path_div (path_div (path_div repo_path ocp_version) "catalog")
                     "instaslice-operator") "catalog.json".

Definition render_argv (opm_path : string) (repo_path : path)
    (ocp_version : string) : list string :=
  [opm_path; "alpha"; "render-template"; "semver";
   path_str (path_div (path_div repo_path ocp_version) "catalog-template.yaml");
   "--migrate-level=bundle-object-to-csv-metadata"].

(** The tag-addressed and the digest-addressed reference of the bundle. *)
Definition tagged_image (config : ReleaseConfig) (tag : string) : string :=
  quay_registry config +:+ "/" +:+ tenant config +:+ "/"
  +:+ bundle_component config +:+ ":" +:+ tag.

Definition digest_image (config : ReleaseConfig) (digest : string) : string :=
  quay_registry config +:+ "/" +:+ tenant config +:+ "/"
  +:+ bundle_component config +:+ "@" +:+ digest.

(** The files staged by [commit_fbc_changes]. *)
Definition staged_files (config : ReleaseConfig) : list string :=
  [ocp_version config +:+ "/catalog-template.yaml";
   ocp_version config +:+ "/catalog/instaslice-operator/catalog.json"].

(** ** Exceptions that can escape

    [raises P m]: whatever [m] raises is in [P]. *)
Definition raises {A} (P : exn -> Prop) (m : M A) : Prop :=
  forall w e, fst (m w) = Raise e -> P e.

(** An exception proper, caught by [except Exception]: not an exit
    request. *)
Definition proper (e : exn) : Prop := is_Exception e = true.

(** The libraries raise exceptions proper, not exit requests. *)
Definition libraries_raise_exceptions (E : oracle) : Prop :=
  (forall url headers timeout e,
      urlopen E url headers timeout = HttpRaises e -> is_Exception e = true) /\
  (forall s e, json_loads E s = LoadRaises e -> is_Exception e = true) /\
  (forall s e, yaml_safe_load E s = LoadRaises e -> is_Exception e = true).

(** A computation that does not return: it raises on every run, within
    [P]. *)
Definition halts {A} (P : event -> Prop) (m : M A) : Prop :=
  forall w, steps P w (snd (m w)) /\ forall a, fst (m w) <> Ok a.

(** The tools of the dependency check leave the disk alone. *)
Definition inert_preflight (E : oracle) : Prop :=
  (forall command timeout f,
      snd (run_tool E (which_argv command) timeout f) = f) /\
  (forall timeout f, snd (run_tool E opm_version_argv timeout f) = f).

(** The operations of the dependency check. *)
Definition preflight_event (e : event) : Prop :=
  (exists command, e = ESpawn (which_argv command)) \/
  e = ESpawn opm_version_argv.

(** The operations of a release, dry run or not. *)
Definition release_event (config : ReleaseConfig) (e : event) : Prop :=
  dry_run_event config e \/
  e = ESpawn (status_argv (fbc_repo_path config)) \/
  e = EWrite (ReleaseManager.catalog_template_path config) \/
  e = ESpawn (render_argv "opm" (fbc_repo_path config) (ocp_version config)) \/
  e = EWrite (catalog_output_path (fbc_repo_path config) (ocp_version config)) \/
  e = ESpawn (add_argv (fbc_repo_path config) (staged_files config)) \/
  (exists message,
      e = ESpawn (commit_argv (fbc_repo_path config) message)).

(** The operations of the program as a whole. *)
Definition main_event (script_dir : path) (args : Args) (e : event) : Prop :=
  preflight_event e \/
  e = EMkdir (Main.staging_dir script_dir) \/
  release_event (Main.config script_dir args) e.

(** What [main] logs when dependencies are missing. *)
Definition missing_report (missing : list string) : list (level * string) :=
  ([(ERROR, "Missing required dependencies:")]
   ++ List.map (fun tool => (ERROR, "  - " +:+ tool)) missing
   ++ [(ERROR, newline +:+ "Installation instructions:");
       (ERROR, "  git:         https://git-scm.com/downloads");
       (ERROR, "  skopeo:      https://github.com/containers/skopeo/blob/main/install.md");
       (ERROR, "  opm:         https://github.com/operator-framework/operator-registry/releases");
       (ERROR, "  python3-yaml: pip3 install PyYAML")])%list.

(** The text that precedes the version in the output of [opm version]. *)
Definition version_pattern : string := "OpmVersion:" +:+ dquote.

(** The answer of the version check to a version that the tool reports. *)
Definition version_ok (E : oracle) (min : string) (version : option string)
  : bool :=
  match version with
  | Some v =>
      if String.eqb v "" then false
      else match DependencyChecker.version_tuple E v,
                 DependencyChecker.version_tuple E min with
           | Some cur, Some req => DependencyChecker.tuple_ge cur req
           | _, _ => false
           end
  | None => false
  end.

(** ** What a tool prints

    A character that shows: an ASCII character other than the blanks and
    the controls.  Every line of [git status --porcelain] holds one, the
    status letter or the [?] of an untracked file. *)
Definition is_visible (c : ascii) : bool :=
  let n := nat_of_ascii c in ((32 <? n) && (n <? 127))%nat.

Fixpoint has_visible (s : string) : bool :=
  match s with
  | EmptyString => false
  | String c s' => is_visible c || has_visible s'
  end.

(** ** The image of a channel

    [data[channel]['Bundles'][0]['Image']] in the document that the
    library loads from a text. *)
Definition channel_image (E : oracle) (content channel : string)
  : res pyval :=
  match yaml_safe_load E content with
  | LoadRaises e => Raise e
  | Loaded data h =>
      res_bind (Py.getitem h data channel) (fun section =>
      res_bind (Py.getitem h section "Bundles") (fun bundles =>
      res_bind (Py.getitem0 h bundles) (fun first =>
      Py.getitem h first "Image")))
  end.

(** The message of the commit of a release. *)
Definition commit_message (config : ReleaseConfig) (sha : string) : string :=
  "Update " +:+ ocp_version config
  +:+ " catalog with latest instaslice operator bundle" +:+ newline
  +:+ newline
  +:+ "Updates the instaslice-operator-bundle-next to commit "
  +:+ sha +:+ " " +:+ "which includes the latest merged fixes.".

(** ** Successful runs

    [runs m w a evs f]: from [w] the computation returns [a], having
    performed the operations [evs] and left the disk [f]. *)
Definition runs {A} (m : M A) (w : world) (a : A) (evs : list event)
    (f : gmap path node) : Prop :=
  fst (m w) = Ok a /\
  events (snd (m w)) = (events w ++ evs)%list /\
  fs (snd (m w)) = f.

(** * A small environment for the worked examples

    A catalog repository with the template of the unit tests, and stand-ins
    for the libraries and tools: the toy YAML codec keeps the image
    reference as the whole text of the template file. *)

Module Demo.

Definition old_image : string := "quay.io/old/bundle@sha256:old123".
Definition new_image : string := "quay.io/new/bundle@sha256:new456".

(** The document
[[
Schema: olm.semver
GenerateMajorChannels: true
GenerateMinorChannels: false
Stable:
  Bundles:
  - Image: <image>
]] *)
Definition template (image : pyval) : heap :=
  <[0%nat := ODict [(VStr "Schema", VStr "olm.semver");
                    (VStr "GenerateMajorChannels", VBool true);
                    (VStr "GenerateMinorChannels", VBool false);
                    (VStr "Stable", VRef 1%nat)]]>
  (<[1%nat := ODict [(VStr "Bundles", VRef 2%nat)]]>
  (<[2%nat := OList [VRef 3%nat]]>
  (<[3%nat := ODict [(VStr "Image", image)]]> ∅))).

(** A template whose second channel entry is an alias of the first
    bundle: [Stable.Bundles[0]] and [Candidate] are one mapping. *)
Definition aliased_template (image : pyval) : heap :=
  <[0%nat := ODict [(VStr "Stable", VRef 1%nat);
                    (VStr "Candidate", VRef 3%nat)]]>
  (<[1%nat := ODict [(VStr "Bundles", VRef 2%nat)]]>
  (<[2%nat := OList [VRef 3%nat]]>
  (<[3%nat := ODict [(VStr "Name", VStr "bundle"); (VStr "Image", image);
                     (VStr "Tag", VStr "next")]]> ∅))).

Definition no_stable : heap :=
  <[0%nat := ODict [(VStr "Schema", VStr "olm.semver")]]> ∅.

Definition no_bundles : heap :=
  <[0%nat := ODict [(VStr "Stable", VRef 1%nat)]]>
  (<[1%nat := ODict [(VStr "Channel", VStr "stable")]]> ∅).

Definition empty_bundles : heap :=
  <[0%nat := ODict [(VStr "Stable", VRef 1%nat)]]>
  (<[1%nat := ODict [(VStr "Bundles", VRef 2%nat)]]>
  (<[2%nat := OList []]> ∅)).

Definition toy_load (c : string) : load_result :=
  if String.eqb c "" then Loaded VNone ∅
  else if String.eqb c "- Stable" then
         Loaded (VRef 0%nat) (<[0%nat := OList [VStr "Stable"]]> ∅)
  else if String.eqb c "Schema: olm.semver" then Loaded (VRef 0%nat) no_stable
  else if String.eqb c "Stable: {Channel: stable}"
       then Loaded (VRef 0%nat) no_bundles
  else if String.eqb c "Stable: {Bundles: []}"
       then Loaded (VRef 0%nat) empty_bundles
  else if String.eqb c "Stable: ["
       then LoadRaises (YAMLError "while parsing a flow node")
  else if String.eqb c "Candidate: *bundle"
       then Loaded (VRef 0%nat) (aliased_template (VStr old_image))
  else Loaded (VRef 0%nat) (template (VStr c)).

Definition toy_dump (h : heap) (data : pyval) (o : dump_options) : string :=
  match stable_bundles_0_image h data with
  | Some (VStr s) => s
  | _ => ""
  end.

(** The answer of the branch endpoint, the toy JSON codec keeping the
    commit identifier as the whole body; ["{}"] is an object without
    fields. *)
Definition empty_object : heap := <[0%nat := ODict []]> ∅.

Definition branch_object (sha : string) : heap :=
  <[0%nat := ODict [(VStr "name", VStr "next"); (VStr "commit", VRef 1%nat)]]>
  (<[1%nat := ODict [(VStr "sha", VStr sha)]]> ∅).

Definition toy_json (body : string) : load_result :=
  if String.eqb body "{}" then Loaded (VRef 0%nat) empty_object
  else Loaded (VRef 0%nat) (branch_object body).

(** Tools that exit with status 0 and print [out]; [git clone] creates
    the destination directory. *)
Definition tools (out : string) (argv : list string) (timeout : option Z)
    (f : gmap path node) : spawn_result * gmap path node :=
  match argv with
  | "git" :: "clone" :: _ :: dest :: _ =>
      (Exited 0 "" "", <[path_of_string dest := Dir]> f)
  | _ => (Exited 0 out "", f)
  end.

(** Tools that exit with status 128. *)
Definition failing_tools (err : string) (argv : list string)
    (timeout : option Z) (f : gmap path node)
  : spawn_result * gmap path node :=
  (Exited 128 "" err, f).

Definition env (out : string) (http : http_result) : oracle := {|
  run_tool := tools out;
  urlopen := fun _ _ _ => http;
  json_loads := toy_json;
  yaml_safe_load := toy_load;
  yaml_dump := toy_dump;
  py_repr := fun _ _ => "<object>";
  unicode_int := fun _ => None
|}.

(** The same environment with tools that fail. *)
Definition failing_env (err : string) (http : http_result) : oracle := {|
  run_tool := failing_tools err;
  urlopen := fun _ _ _ => http;
  json_loads := toy_json;
  yaml_safe_load := toy_load;
  yaml_dump := toy_dump;
  py_repr := fun _ _ => "<object>";
  unicode_int := fun _ => None
|}.

Definition commit : string := "abc123def456789012345678901234567890abcd".

Definition E0 : oracle := env "sha256:abc123def456" (HttpBody commit).

Definition repo : path := ["srv"; "fbc"].
Definition template_file : path :=
  ["srv"; "fbc"; "v4.19"; "catalog-template.yaml"].

Definition disk (content : string) : gmap path node :=
  <[["srv"] := Dir]>
  (<[["srv"; "fbc"] := Dir]>
  (<[["srv"; "fbc"; ".git"] := Dir]>
  (<[["srv"; "fbc"; "v4.19"] := Dir]>
  (<[template_file := File content]> ∅)))).

Definition world_with (content : string) : world :=
  World (disk content) [] [] [].

(** A machine on which the catalog repository has not been cloned. *)
Definition fresh_world : world := World ∅ [] [] [].

(** What [opm version] prints for release 2.0.0. *)
Definition opm_2_0_0 : string :=
  "Version: version.Version{OpmVersion:" +:+ dquote +:+ "v2.0.0" +:+ dquote
  +:+ ", GitCommit:" +:+ dquote +:+ "abc123" +:+ dquote +:+ "}".

Definition config : ReleaseConfig := default_config repo.

End Demo.

(** ** A machine with the tools installed

    Every tool exits with status 0: [git status] prints nothing, [skopeo]
    the digest followed by a line end, [opm version] release 2.0.0 and
    [opm alpha render-template] a catalog. *)

Module Workstation.

Definition digest : string := "sha256:abc123def456".
Definition rendered : string := "{catalog}".

Definition tools (argv : list string) (timeout : option Z)
    (f : gmap path node) : spawn_result * gmap path node :=
  match argv with
  | "which" :: _ => (Exited 0 "/usr/bin/tool" "", f)
  | "skopeo" :: _ => (Exited 0 (digest +:+ newline) "", f)
  | ["opm"; "version"] => (Exited 0 Demo.opm_2_0_0 "", f)
  | "opm" :: _ => (Exited 0 rendered "", f)
  | "git" :: "clone" :: _ :: dest :: _ =>
      (Exited 0 "" "", <[path_of_string dest := Dir]> f)
  | _ => (Exited 0 "" "", f)
  end.

Definition env : oracle := {|
  run_tool := tools;
  urlopen := fun _ _ _ => HttpBody Demo.commit;
  json_loads := Demo.toy_json;
  yaml_safe_load := Demo.toy_load;
  yaml_dump := Demo.toy_dump;
  py_repr := fun _ _ => "<object>";
  unicode_int := fun _ => None
|}.

(** The same machine without [which]. *)
Definition no_which : oracle := {|
  run_tool := fun argv timeout f =>
                match argv with
                | "which" :: _ => (NotInstalled, f)
                | _ => tools argv timeout f
                end;
  urlopen := fun _ _ _ => HttpBody Demo.commit;
  json_loads := Demo.toy_json;
  yaml_safe_load := Demo.toy_load;
  yaml_dump := Demo.toy_dump;
  py_repr := fun _ _ => "<object>";
  unicode_int := fun _ => None
|}.

(** One on which every tool times out. *)
Definition stalled : oracle := {|
  run_tool := fun argv timeout f => (TimedOut, f);
  urlopen := fun _ _ _ => HttpBody Demo.commit;
  json_loads := Demo.toy_json;
  yaml_safe_load := Demo.toy_load;
  yaml_dump := Demo.toy_dump;
  py_repr := fun _ _ => "<object>";
  unicode_int := fun _ => None
|}.

(** The catalog repository of the examples, with the directory of the
    rendered catalog. *)
Definition disk (content : string) : gmap path node :=
  <[["srv"; "fbc"; "v4.19"; "catalog"] := Dir]>
  (<[["srv"; "fbc"; "v4.19"; "catalog"; "instaslice-operator"] := Dir]>
  (Demo.disk content)).

Definition world_with (content : string) : world :=
  World (disk content) [] [] [].

Definition check_only : Args := {|
  arg_fbc_repo := None;
  arg_ocp_version := "v4.19";
  arg_dry_run := false;
  arg_check_deps := true;
  arg_verbose := false
|}.

Definition release_args : Args := {|
  arg_fbc_repo := Some Demo.repo;
  arg_ocp_version := "v4.19";
  arg_dry_run := false;
  arg_check_deps := false;
  arg_verbose := false
|}.

End Workstation.

(** ** The YAML library on the templates of the examples

    [Yaml.dump] is the block emitter of the library on documents made of
    mappings, lists, and strings that need no quotes, booleans and null:
    two spaces of indentation, the items of a list that is the value of a
    key at the column of the key, an object reached twice written once
    under an anchor [&id001] and referred to by [*id001] afterwards; with
    [sort_keys] the entries of a mapping are sorted by key, with
    [default_flow_style] the document is written in flow style (on one
    line: the examples do not use that style, whose long lines the library
    folds).
    [Yaml.safe_load] answers the texts of the examples with the documents
    that the library loads from them. *)

Module Yaml.

Definition scalar (v : pyval) : string :=
  match v with
  | VStr s => s
  | VBool true => "true"
  | VBool false => "false"
  | VInt z => pretty z
  | _ => "null"
  end.

Fixpoint spaces (n : nat) : string :=
  match n with
  | O => ""
  | S n' => " " +:+ spaces n'
  end.

Fixpoint drop (n : nat) (s : string) : string :=
  match n, s with
  | S n', String _ s' => drop n' s'
  | _, _ => s
  end.

Definition mem (l : loc) (ls : list loc) : bool :=
  existsb (Nat.eqb l) ls.

Fixpoint index_of (l : loc) (ls : list loc) : nat :=
  match ls with
  | [] => 0
  | l' :: ls' => if Nat.eqb l l' then 0 else S (index_of l ls')
  end.

(** [id001], [id002], ... *)
Definition anchor (l : loc) (shared : list loc) : string :=
  let n := S (index_of l shared) in
  "id" +:+ (if (n <? 10)%nat then "00" else if (n <? 100)%nat then "0" else "")
  +:+ pretty n.

(** The objects reached more than once, in the order in which the second
    visit occurs. *)
Fixpoint scan (fuel : nat) (h : heap) (v : pyval)
    (st : list loc * list loc) : list loc * list loc :=
  match fuel, v with
  | S fuel', VRef l =>
      let '(visited, shared) := st in
      if mem l visited
      then (visited, if mem l shared then shared else (shared ++ [l])%list)
      else
        let st1 := ((visited ++ [l])%list, shared) in
        match h !! l with
        | Some (ODict es) =>
            fold_left (fun st kv => scan fuel' h (snd kv) st) es st1
        | Some (OList xs) | Some (OTuple xs) | Some (OSet xs) =>
            fold_left (fun st x => scan fuel' h x st) xs st1
        | None => st1
        end
  | _, _ => st
  end.

Fixpoint insert_entry (e : pyval * pyval) (es : list (pyval * pyval))
  : list (pyval * pyval) :=
  match es with
  | [] => [e]
  | e' :: es' =>
      if String.leb (scalar (fst e)) (scalar (fst e'))
      then e :: es else e' :: insert_entry e es'
  end.

Definition ordered (sort_keys : bool) (es : list (pyval * pyval))
  : list (pyval * pyval) :=
  if sort_keys then fold_right insert_entry [] es else es.

Inductive place := Top | AfterKey | AfterDash.

(** The document at the top, and what follows [key:] or [-] at the
    indentation [ind]; [done] holds the objects already written under
    their anchor. *)
Fixpoint block (fuel : nat) (h : heap) (sort_keys : bool) (shared : list loc)
    (pl : place) (ind : nat) (v : pyval) (done : list loc)
  : string * list loc :=
  match fuel, v with
  | S fuel', VRef l =>
      if mem l done then (" *" +:+ anchor l shared +:+ newline, done)
      else
        let anchored := mem l shared in
        let done1 := if anchored then (l :: done) else done in
        let mark := if anchored then " &" +:+ anchor l shared else "" in
        match h !! l with
        | Some (ODict []) =>
            (mark +:+ drop (match pl with Top => 1 | _ => 0 end)%nat " {}"
             +:+ newline, done1)
        | Some (ODict es) =>
            let col := match pl with
                       | Top => ind
                       | _ => (ind + 2)%nat
                       end in
            let '(body, done2) :=
              (fix entries (es : list (pyval * pyval)) (done : list loc)
                 : string * list loc :=
                 match es with
                 | [] => ("", done)
                 | (k, x) :: es' =>
                     let '(t1, d1) :=
                       block fuel' h sort_keys shared AfterKey col x done in
                     let '(t2, d2) := entries es' d1 in
                     (spaces col +:+ scalar k +:+ ":" +:+ t1 +:+ t2, d2)
                 end) (ordered sort_keys es) done1 in
            match pl, anchored with
            | Top, _ => (body, done2)
            | AfterDash, false => (" " +:+ drop col body, done2)
            | _, _ => (mark +:+ newline +:+ body, done2)
            end
        | Some (OList []) | Some (OTuple []) | Some (OSet []) =>
            (mark +:+ drop (match pl with Top => 1 | _ => 0 end)%nat " []"
             +:+ newline, done1)
        | Some (OList xs) | Some (OTuple xs) | Some (OSet xs) =>
            let col := match pl with
                       | AfterDash => (ind + 2)%nat
                       | _ => ind
                       end in
            let '(body, done2) :=
              (fix items (xs : list pyval) (done : list loc)
                 : string * list loc :=
                 match xs with
                 | [] => ("", done)
                 | x :: xs' =>
                     let '(t1, d1) :=
                       block fuel' h sort_keys shared AfterDash col x done in
                     let '(t2, d2) := items xs' d1 in
                     (spaces col +:+ "-" +:+ t1 +:+ t2, d2)
                 end) xs done1 in
            match pl, anchored with
            | Top, _ => (body, done2)
            | AfterDash, false => (" " +:+ drop col body, done2)
            | _, _ => (mark +:+ newline +:+ body, done2)
            end
        | None => (" null" +:+ newline, done)
        end
  | _, _ => (" " +:+ scalar v +:+ newline, done)
  end.

(** The flow style: [{key: value, ...}] and [[item, ...]]. *)
Fixpoint flow (fuel : nat) (h : heap) (sort_keys : bool) (v : pyval)
  : string :=
  match fuel, v with
  | S fuel', VRef l =>
      match h !! l with
      | Some (ODict es) =>
          "{" +:+ Str.join ", "
                    (List.map (fun kv => scalar (fst kv) +:+ ": "
                                         +:+ flow fuel' h sort_keys (snd kv))
                              (ordered sort_keys es)) +:+ "}"
      | Some (OList xs) | Some (OTuple xs) | Some (OSet xs) =>
          "[" +:+ Str.join ", " (List.map (flow fuel' h sort_keys) xs) +:+ "]"
      | None => "null"
      end
  | _, _ => scalar v
  end.

Definition depth : nat := 16.

Definition dump (h : heap) (data : pyval) (o : dump_options) : string :=
  if default_flow_style o then flow depth h (sort_keys o) data +:+ newline
  else
    match data with
    | VRef _ =>
        let shared := snd (scan depth h data ([], [])) in
        fst (block depth h (sort_keys o) shared Top 0 data [])
    | _ => scalar data +:+ newline
    end.

(** The texts of the examples. *)
Definition lines (ls : list string) : string :=
  String.concat "" (List.map (fun l => l +:+ newline) ls).

(** The template of the unit tests, with the given text after [Image:]. *)
Definition template_text (image : string) : string :=
  lines ["Schema: olm.semver";
         "GenerateMajorChannels: true";
         "GenerateMinorChannels: false";
         "Stable:";
         "  Bundles:";
         "  - Image: " +:+ image].

Definition quoted (s : string) : string := dquote +:+ s +:+ dquote.

(** A template whose [Candidate] channel lists the bundle of the [Stable]
    channel through an alias: the two lists hold one mapping. *)
Definition shared_text (name image : string) : string :=
  lines ["Stable:";
         "  Bundles:";
         "  - &" +:+ name;
         "    Image: " +:+ image;
         "Candidate:";
         "  Bundles:";
         "  - *" +:+ name].

Definition shared_bundle (image : pyval) : heap :=
  <[0%nat := ODict [(VStr "Stable", VRef 1%nat);
                    (VStr "Candidate", VRef 4%nat)]]>
  (<[1%nat := ODict [(VStr "Bundles", VRef 2%nat)]]>
  (<[2%nat := OList [VRef 3%nat]]>
  (<[3%nat := ODict [(VStr "Image", image)]]>
  (<[4%nat := ODict [(VStr "Bundles", VRef 5%nat)]]>
  (<[5%nat := OList [VRef 3%nat]]> ∅))))).

(** A template whose [Bundles] key has no value. *)
Definition null_bundles_text : string := lines ["Stable:"; "  Bundles:"].

Definition null_bundles : heap :=
  <[0%nat := ODict [(VStr "Stable", VRef 1%nat)]]>
  (<[1%nat := ODict [(VStr "Bundles", VNone)]]> ∅).

(** A template whose [Bundles] is a mapping. *)
Definition mapping_bundles_text : string :=
  lines ["Stable:"; "  Bundles:"; "    Image: " +:+ Demo.old_image].

Definition mapping_bundles : heap :=
  <[0%nat := ODict [(VStr "Stable", VRef 1%nat)]]>
  (<[1%nat := ODict [(VStr "Bundles", VRef 2%nat)]]>
  (<[2%nat := ODict [(VStr "Image", VStr Demo.old_image)]]> ∅)).

(** A text that is not one of the examples is answered like one that the
    library cannot scan. *)
Definition safe_load (c : string) : load_result :=
  if String.eqb c "" then Loaded VNone ∅
  else if String.eqb c (template_text Demo.old_image)
       then Loaded (VRef 0%nat) (Demo.template (VStr Demo.old_image))
  else if String.eqb c (template_text Demo.new_image)
          || String.eqb c (template_text (quoted Demo.new_image))
       then Loaded (VRef 0%nat) (Demo.template (VStr Demo.new_image))
  else if String.eqb c (shared_text "bundle" Demo.old_image)
       then Loaded (VRef 0%nat) (shared_bundle (VStr Demo.old_image))
  else if String.eqb c (shared_text "id001" Demo.new_image)
       then Loaded (VRef 0%nat) (shared_bundle (VStr Demo.new_image))
  else if String.eqb c null_bundles_text
       then Loaded (VRef 0%nat) null_bundles
  else if String.eqb c mapping_bundles_text
       then Loaded (VRef 0%nat) mapping_bundles
  else LoadRaises (YAMLError "while scanning the document").

(** The machine of the examples with this library. *)
Definition env : oracle := {|
  run_tool := Workstation.tools;
  urlopen := fun _ _ _ => HttpBody Demo.commit;
  json_loads := Demo.toy_json;
  yaml_safe_load := safe_load;
  yaml_dump := dump;
  py_repr := fun _ _ => "<object>";
  unicode_int := fun _ => None
|}.

End Yaml.
(** * Proofs *)

(** ** Running the monad by case analysis *)

Ltac unfold_monad :=
  unfold bind, ret, raise, lift, try_except, logger_info, logger_warning,
    logger_error, print, path_exists, read_text, res_bind in *.

Ltac reduce :=
  cbn beta iota zeta delta
    [fst snd fs events log console add_log add_event add_console set_fs
     negb orb andb is_Exception is_ReleaseError wrap_error
     loc_heap loc_current loc_data loc_first loc_bundles
     returncode stdout stderr spawn_error].

Ltac use_eqs :=
  repeat match goal with
         | H : ?x = _ |- context [match ?x with _ => _ end] => rewrite H
         end.

(** One step: the innermost scrutinee that blocks the computation is
    split, after the equations already met have been used. *)
Ltac step :=
  reduce; use_eqs; reduce;
  match goal with
  | |- context [match ?x with _ => _ end] =>
      lazymatch x with
      | context [match _ with _ => _ end] => fail
      | _ => first [is_var x; destruct x | destruct x eqn:?]
      end
  end.

(** ** Preview and apply through the shared navigation *)

Lemma preview_spec E p cand w :
  FBCCatalogManager.preview_catalog_update E p cand w =
  let w1 := add_log INFO ("Previewing catalog template: " +:+ path_str p) w in
  match locate_image E (fs w) p with
  | Ok L =>
      (Ok {| template_path := path_str p;
             current_image := Some (loc_current L, loc_heap L);
             new_image := cand;
             would_change := Some (negb (Py.eq_str (loc_current L) cand));
             files_modified := None |},
       preview_log E cand L w1)
  | Raise e => (Raise (wrap_error "Failed to preview template: " e), w1)
  end.
Proof.
  unfold FBCCatalogManager.preview_catalog_update, locate_image,
    FBCCatalogManager.safe_load, preview_log.
  unfold_monad.
  repeat step; reduce; try reflexivity; congruence.
Qed.

Lemma update_spec E p cand w :
  FBCCatalogManager.update_catalog_template E p cand w =
  let w1 := add_log INFO ("Updating catalog template: " +:+ path_str p) w in
  match locate_image E (fs w) p with
  | Ok L =>
      let w2 := update_log E cand L w1 in
      match Py.getitem0 (loc_heap L) (loc_bundles L) with
      | Ok first =>
        match Py.setitem (loc_heap L) first "Image" (VStr cand) with
        | Ok h' =>
          match write_text p
                  (yaml_dump E h' (loc_data L)
                     {| default_flow_style := false; sort_keys := false |})
                  w2 with
          | (Ok _, w3) =>
              (Ok tt, add_log INFO ("Updated template with image: " +:+ cand) w3)
          | (Raise e, w3) =>
              (Raise (wrap_error "Failed to update template: " e), w3)
          end
        | Raise e => (Raise (wrap_error "Failed to update template: " e), w2)
        end
      | Raise e => (Raise (wrap_error "Failed to update template: " e), w2)
      end
  | Raise e => (Raise (wrap_error "Failed to update template: " e), w1)
  end.
Proof.
  unfold FBCCatalogManager.update_catalog_template, locate_image,
    FBCCatalogManager.safe_load, update_log.
  unfold_monad.
  repeat step; reduce; try reflexivity; congruence.
Qed.

(** ** Dict entries *)

Lemma eq_str_true v s : Py.eq_str v s = true -> v = VStr s.
Proof.
  destruct v; cbn; try discriminate.
  intros ->%String.eqb_eq. reflexivity.
Qed.

Lemma dict_get_existsb es k :
  existsb (fun kv => Py.eq_str (fst kv) k) es =
  match Py.dict_get es k with Some _ => true | None => false end.
Proof.
  induction es as [|[k0 v0] es IH]; cbn; [reflexivity|].
  destruct (Py.eq_str k0 k); cbn; [reflexivity | exact IH].
Qed.

Lemma dict_set_same es k v :
  Py.dict_get es k = Some v -> Py.dict_set es k v = es.
Proof.
  induction es as [|[k0 v0] es IH]; cbn; [discriminate|].
  destruct (Py.eq_str k0 k); intros H.
  - congruence.
  - rewrite IH by exact H. reflexivity.
Qed.

Lemma dict_get_set_eq es k v : Py.dict_get (Py.dict_set es k v) k = Some v.
Proof.
  induction es as [|[k0 v0] es IH]; cbn.
  - rewrite String.eqb_refl. reflexivity.
  - destruct (Py.eq_str k0 k) eqn:Hk; cbn; rewrite Hk; [reflexivity | exact IH].
Qed.

Lemma dict_get_set_ne es k k' v :
  k' <> k -> Py.dict_get (Py.dict_set es k v) k' = Py.dict_get es k'.
Proof.
  intros Hne.
  induction es as [|[k0 v0] es IH]; cbn.
  - destruct (String.eqb_spec k k'); [congruence | reflexivity].
  - destruct (Py.eq_str k0 k) eqn:Hk; cbn.
    + apply eq_str_true in Hk as ->. cbn.
      destruct (String.eqb_spec k k'); [congruence | reflexivity].
    + rewrite IH. reflexivity.
Qed.

(** An assignment to a key that is present rewrites one entry where it
    stands: the entries before and after it are the same, in the same
    order, and the key is kept. *)
Lemma dict_set_present es k v0 v :
  Py.dict_get es k = Some v0 ->
  exists pre key post,
    es = (pre ++ (key, v0) :: post)%list /\
    Py.dict_set es k v = (pre ++ (key, v) :: post)%list /\
    Py.eq_str key k = true /\
    Py.dict_get pre k = None.
Proof.
  induction es as [|[k0 v1] es IH]; cbn; [discriminate|].
  destruct (Py.eq_str k0 k) eqn:Hk; intros H.
  - injection H as ->. exists [], k0, es. cbn. auto.
  - destruct (IH H) as (pre & key & post & -> & -> & Hkey & Hpre).
    exists ((k0, v1) :: pre), key, post. cbn. rewrite Hk. auto.
Qed.

(** ** Interpreter operations on mappings *)

Lemma mapping_of_inv h c es :
  mapping_of h c = Some es -> exists l, c = VRef l /\ h !! l = Some (ODict es).
Proof.
  unfold mapping_of, Py.deref. destruct c; try discriminate.
  destruct (h !! l) as [[]|] eqn:Hl; try discriminate.
  intros [= ->]. eauto.
Qed.

Lemma getitem_mapping h c es k :
  mapping_of h c = Some es ->
  Py.getitem h c k =
  match Py.dict_get es k with Some v => Ok v | None => Raise (KeyError k) end.
Proof.
  intros (l & -> & Hl)%mapping_of_inv. cbn. rewrite Hl. reflexivity.
Qed.

Lemma contains_mapping h c es k :
  mapping_of h c = Some es ->
  Py.contains h k c =
  Ok (match Py.dict_get es k with Some _ => true | None => false end).
Proof.
  intros (l & -> & Hl)%mapping_of_inv. cbn. rewrite Hl, dict_get_existsb.
  reflexivity.
Qed.

Lemma getitem_inv h c k v :
  Py.getitem h c k = Ok v ->
  exists es, mapping_of h c = Some es /\ Py.dict_get es k = Some v.
Proof.
  unfold Py.getitem, mapping_of, Py.deref, Py.dangling.
  destruct c; try discriminate.
  destruct (h !! l) as [[]|]; try discriminate.
  destruct (Py.dict_get es k) eqn:Hg; [|discriminate].
  intros [= ->]. eauto.
Qed.

Lemma setitem_mapping h l es k v :
  h !! l = Some (ODict es) ->
  Py.setitem h (VRef l) k v = Ok (<[l := ODict (Py.dict_set es k v)]> h).
Proof. intros Hl. cbn. rewrite Hl. reflexivity. Qed.

Lemma non_empty_list_inv h b :
  negb (Py.truthy h b) || negb (Py.is_list h b) = false ->
  exists l x xs, b = VRef l /\ h !! l = Some (OList (x :: xs)).
Proof.
  intros [Ht Hl]%orb_false_elim.
  apply negb_false_iff in Ht, Hl.
  unfold Py.is_list, Py.deref in Hl. unfold Py.truthy in Ht.
  destruct b; try discriminate.
  destruct (h !! l) as [[[|x xs]| | |]|] eqn:Hh; try discriminate.
  eauto.
Qed.

(** ** What the navigation has found when it succeeds *)

Lemma locate_inv E f p L :
  locate_image E f p = Ok L ->
  exists c l es,
    lookup_node f p = Some (File c) /\
    yaml_safe_load E c = Loaded (loc_data L) (loc_heap L) /\
    stable_bundles_0 (loc_heap L) (loc_data L) = Some (l, es) /\
    Py.dict_get es "Image" = Some (loc_current L) /\
    loc_first L = VRef l /\
    Py.getitem0 (loc_heap L) (loc_bundles L) = Ok (VRef l).
Proof.
  unfold locate_image, res_bind.
  destruct (lookup_node f p) as [[|c]|] eqn:Hf; try discriminate.
  destruct (yaml_safe_load E c) as [data h|] eqn:Hload; try discriminate.
  destruct (Py.contains h "Stable" data) as [[]|]; try discriminate. cbn [negb].
  destruct (Py.getitem h data "Stable") as [stable|] eqn:Hs; try discriminate.
  destruct (Py.contains h "Bundles" stable) as [[]|]; try discriminate.
  cbn [negb].
  destruct (Py.getitem h stable "Bundles") as [bundles|] eqn:Hb;
    try discriminate.
  destruct (negb (Py.truthy h bundles) || negb (Py.is_list h bundles)) eqn:Hl;
    try discriminate.
  destruct (Py.getitem0 h bundles) as [first|] eqn:H0; try discriminate.
  destruct (Py.contains h "Image" first) as [[]|]; try discriminate.
  cbn [negb].
  destruct (Py.getitem h first "Image") as [cur|] eqn:Hi; try discriminate.
  intros [= <-]. cbn [loc_data loc_heap loc_current loc_first loc_bundles].
  apply getitem_inv in Hs as (top & Htop & Hstable).
  apply getitem_inv in Hb as (section & Hsec & Hbundles).
  apply getitem_inv in Hi as (es & Hes & Himage).
  apply non_empty_list_inv in Hl as (lb & x & xs & -> & Hlb).
  cbn in H0. rewrite Hlb in H0. injection H0 as ->.
  apply mapping_of_inv in Hes as (l & -> & Hl).
  exists c, l, es. repeat split; try assumption.
  - unfold stable_bundles_0. rewrite Htop. cbn. rewrite Hstable. cbn.
    rewrite Hsec. cbn. rewrite Hbundles. cbn. rewrite Hlb, Hl. reflexivity.
  - cbn. rewrite Hlb. reflexivity.
Qed.

Lemma stable_bundles_0_inv h data l es :
  stable_bundles_0 h data = Some (l, es) ->
  exists top stable section bundles rest,
    mapping_of h data = Some top /\
    Py.dict_get top "Stable" = Some stable /\
    mapping_of h stable = Some section /\
    Py.dict_get section "Bundles" = Some bundles /\
    Py.deref h bundles = Some (OList (VRef l :: rest)) /\
    h !! l = Some (ODict es).
Proof.
  unfold stable_bundles_0.
  destruct (mapping_of h data) as [top|] eqn:H1; [|discriminate]. cbn.
  destruct (Py.dict_get top "Stable") as [stable|] eqn:H2; [|discriminate]. cbn.
  destruct (mapping_of h stable) as [section|] eqn:H3; [|discriminate]. cbn.
  destruct (Py.dict_get section "Bundles") as [bundles|] eqn:H4;
    [|discriminate]. cbn.
  destruct (Py.deref h bundles) as [[[|[] rest]| | |]|] eqn:Hb; try discriminate.
  destruct (h !! l0) as [[]|] eqn:Hl; try discriminate.
  intros [= <- <-]. exists top, stable, section, bundles, rest.
  repeat split; assumption.
Qed.

Lemma locate_found E f p c data h l es cur :
  lookup_node f p = Some (File c) ->
  yaml_safe_load E c = Loaded data h ->
  stable_bundles_0 h data = Some (l, es) ->
  Py.dict_get es "Image" = Some cur ->
  exists bundles,
    locate_image E f p = Ok (Located h data bundles (VRef l) cur) /\
    Py.getitem0 h bundles = Ok (VRef l).
Proof.
  intros Hf Hload Hsb Himg.
  apply stable_bundles_0_inv in Hsb
    as (top & stable & section & bundles & rest & Htop & Hst & Hsec & Hbu & Hb & Hl).
  exists bundles.
  assert (H0 : Py.getitem0 h bundles = Ok (VRef l)).
  { destruct bundles; try discriminate. cbn in *. rewrite Hb. reflexivity. }
  split; [|exact H0].
  unfold locate_image. rewrite Hf, Hload.
  rewrite (contains_mapping _ _ _ _ Htop), Hst. cbn [res_bind negb].
  rewrite (getitem_mapping _ _ _ _ Htop), Hst. cbn [res_bind negb].
  rewrite (contains_mapping _ _ _ _ Hsec), Hbu. cbn [res_bind negb].
  rewrite (getitem_mapping _ _ _ _ Hsec), Hbu. cbn [res_bind negb].
  assert (Hne : negb (Py.truthy h bundles) || negb (Py.is_list h bundles) = false).
  { unfold Py.is_list. rewrite Hb. destruct bundles; try discriminate.
    cbn in *. rewrite Hb. reflexivity. }
  rewrite Hne, H0. cbn [res_bind negb].
  assert (Hm : mapping_of h (VRef l) = Some es).
  { unfold mapping_of. cbn. rewrite Hl. reflexivity. }
  rewrite (contains_mapping _ _ _ _ Hm), Himg. cbn [res_bind negb].
  rewrite (getitem_mapping _ _ _ _ Hm), Himg. reflexivity.
Qed.

(** ** What the decision logs leave alone *)

Lemma update_log_fs E cand L w : fs (update_log E cand L w) = fs w.
Proof. unfold update_log. destruct (Py.eq_str _ _); reflexivity. Qed.

Lemma update_log_events E cand L w : events (update_log E cand L w) = events w.
Proof. unfold update_log. destruct (Py.eq_str _ _); reflexivity. Qed.

Lemma update_log_log E cand L w :
  log (update_log E cand L w) =
  (log w ++
   if negb (Py.eq_str (loc_current L) cand)
   then [(INFO, "Updating from: " +:+ py_str E (loc_current L, loc_heap L));
         (INFO, "Updating to:   " +:+ cand)]
   else [(INFO, "Catalog template already has the latest image")])%list.
Proof.
  unfold update_log. destruct (Py.eq_str _ _); cbn; [reflexivity|].
  rewrite <- app_assoc. reflexivity.
Qed.

Lemma preview_log_fs E cand L w : fs (preview_log E cand L w) = fs w.
Proof. unfold preview_log. destruct (negb _); reflexivity. Qed.

Lemma preview_log_events E cand L w :
  events (preview_log E cand L w) = events w.
Proof. unfold preview_log. destruct (negb _); reflexivity. Qed.

(** The apply operation on a template that the navigation accepts: the
    first bundle is a mapping object, the assignment and the write
    succeed. *)
Lemma update_found E p cand w L c l es :
  locate_image E (fs w) p = Ok L ->
  lookup_node (fs w) p = Some (File c) ->
  loc_first L = VRef l ->
  loc_heap L !! l = Some (ODict es) ->
  Py.getitem0 (loc_heap L) (loc_bundles L) = Ok (VRef l) ->
  FBCCatalogManager.update_catalog_template E p cand w =
  (Ok tt,
   add_log INFO ("Updated template with image: " +:+ cand)
     (set_fs (<[p := File (yaml_dump E (assign_image (loc_heap L) l es cand)
                                     (loc_data L)
                                     {| default_flow_style := false;
                                        sort_keys := false |})]> (fs w))
        (add_event (EWrite p)
           (update_log E cand L
              (add_log INFO ("Updating catalog template: " +:+ path_str p)
                 w))))).
Proof.
  intros HL Hf Hfirst Hl H0.
  rewrite update_spec. cbv zeta. rewrite HL, H0.
  rewrite (setitem_mapping _ _ _ _ _ Hl).
  unfold write_text. rewrite update_log_fs. cbn [fs add_log].
  rewrite Hf. reflexivity.
Qed.

(** ** Templates that the navigation refuses *)

Lemma locate_defect E f p d :
  first_defect E f p = Some d ->
  locate_image E f p = Raise (ReleaseError (defect_message p d)).
Proof.
  unfold first_defect, locate_image.
  destruct (lookup_node f p) as [[|c]|]; try discriminate.
  2:{ intros [= <-]. reflexivity. }
  destruct (yaml_safe_load E c) as [data h|]; try discriminate.
  destruct (mapping_of h data) as [top|] eqn:Htop; try discriminate.
  rewrite (contains_mapping _ _ _ _ Htop), (getitem_mapping _ _ _ _ Htop).
  destruct (Py.dict_get top "Stable") as [stable|]; cbn [res_bind negb].
  2:{ intros [= <-]. reflexivity. }
  destruct (mapping_of h stable) as [section|] eqn:Hsec; try discriminate.
  rewrite (contains_mapping _ _ _ _ Hsec), (getitem_mapping _ _ _ _ Hsec).
  destruct (Py.dict_get section "Bundles") as [bundles|]; cbn [res_bind negb].
  2:{ intros [= <-]. reflexivity. }
  unfold Py.is_list.
  destruct (Py.deref h bundles) as [[[|first rest]| | |]|] eqn:Hd;
    try (intros [= <-]; cbn [negb]; rewrite orb_true_r; reflexivity).
  { intros [= <-]. destruct bundles; try discriminate. cbn in Hd.
    unfold Py.truthy. rewrite Hd. reflexivity. }
  destruct bundles; try discriminate. cbn in Hd.
  unfold Py.truthy, Py.getitem0. rewrite Hd.
  cbn [List.length Nat.eqb negb orb res_bind].
  destruct (mapping_of h first) as [bundle|] eqn:Hb; try discriminate.
  rewrite (contains_mapping _ _ _ _ Hb).
  destruct (Py.dict_get bundle "Image"); try discriminate.
  intros [= <-]. reflexivity.
Qed.

Lemma contains_exception h k c e :
  Py.contains h k c = Raise e -> is_Exception e = true.
Proof.
  unfold Py.contains, Py.dangling.
  destruct c; try (intros [= <-]; reflexivity); try discriminate.
  destruct (h !! l) as [[]|]; try discriminate. intros [= <-]. reflexivity.
Qed.

Lemma getitem_non_mapping h c k :
  mapping_of h c = None ->
  exists e, Py.getitem h c k = Raise e /\ is_Exception e = true.
Proof.
  unfold mapping_of, Py.getitem, Py.deref, Py.dangling.
  destruct c; try (intros _; eexists; split; reflexivity).
  destruct (h !! l) as [[]|]; try discriminate;
    intros _; eexists; split; reflexivity.
Qed.

Lemma locate_non_mapping E f p c data h :
  lookup_node f p = Some (File c) ->
  yaml_safe_load E c = Loaded data h ->
  mapping_of h data = None ->
  exists e, locate_image E f p = Raise e /\ is_Exception e = true.
Proof.
  intros Hf Hload Hm. unfold locate_image. rewrite Hf, Hload.
  destruct (getitem_non_mapping h data "Stable" Hm) as (e & He & Hex).
  rewrite He.
  destruct (Py.contains h "Stable" data) as [[]|e'] eqn:Hc; cbn [res_bind negb].
  - eauto.
  - eexists; split; reflexivity.
  - apply contains_exception in Hc. eauto.
Qed.

Lemma wrap_exception prefix e :
  is_Exception e = true -> exists m, wrap_error prefix e = ReleaseError m.
Proof. destruct e; try discriminate; intros _; cbn; eauto. Qed.

Lemma image_inv h data v :
  stable_bundles_0_image h data = Some v ->
  exists l es, stable_bundles_0 h data = Some (l, es) /\
               Py.dict_get es "Image" = Some v.
Proof.
  unfold stable_bundles_0_image.
  destruct (stable_bundles_0 h data) as [[l es]|]; [|discriminate].
  cbn. eauto.
Qed.

(** ** The store after the assignment *)

Section Assignment.
Context (h : heap) (l : loc) (es : list (pyval * pyval)) (cand : string).
Context (Hl : h !! l = Some (ODict es)).

Abbreviation h' := (assign_image h l es cand).

Lemma mapping_of_assigned c m :
  mapping_of h c = Some m ->
  exists m', mapping_of h' c = Some m' /\
             forall k, k <> "Image" -> Py.dict_get m' k = Py.dict_get m k.
Proof.
  intros (l0 & -> & Hl0)%mapping_of_inv. unfold mapping_of, assign_image. cbn.
  destruct (decide (l = l0)) as [<-|Hne].
  - rewrite lookup_insert_eq. eexists; split; [reflexivity|].
    intros k Hk. assert (m = es) as -> by congruence.
    apply dict_get_set_ne. exact Hk.
  - rewrite lookup_insert_ne by exact Hne. rewrite Hl0. eauto.
Qed.

Lemma list_assigned c xs :
  Py.deref h c = Some (OList xs) -> Py.deref h' c = Some (OList xs).
Proof.
  destruct c; try discriminate. cbn. unfold assign_image. intros Hc.
  rewrite lookup_insert_ne; [exact Hc | congruence].
Qed.

Lemma stable_bundles_0_assigned data :
  stable_bundles_0 h data = Some (l, es) ->
  stable_bundles_0 h' data = Some (l, Py.dict_set es "Image" (VStr cand)).
Proof.
  intros (top & stable & section & bundles & rest
          & Htop & Hst & Hsec & Hbu & Hb & _)%stable_bundles_0_inv.
  destruct (mapping_of_assigned _ _ Htop) as (top' & Htop' & Hk1).
  destruct (mapping_of_assigned _ _ Hsec) as (section' & Hsec' & Hk2).
  unfold stable_bundles_0.
  rewrite Htop'. cbn. rewrite Hk1, Hst by discriminate. cbn.
  rewrite Hsec'. cbn. rewrite Hk2, Hbu by discriminate. cbn.
  rewrite (list_assigned _ _ Hb). unfold assign_image.
  rewrite lookup_insert_eq.
  reflexivity.
Qed.

End Assignment.

Lemma lookup_node_file_insert f p c c' :
  lookup_node f p = Some (File c) ->
  lookup_node (<[p := File c']> f) p = Some (File c').
Proof.
  destruct p; [discriminate|]. intros _. cbn. apply lookup_insert_eq.
Qed.
(** ** Blanks and visible characters *)

Lemma rstrip_cons c s :
  Str.rstrip (String c s) =
  if String.eqb (Str.lstrip (String c s)) "" then ""
  else String c (Str.rstrip s).
Proof. reflexivity. Qed.

Lemma rstrip_empty s : Str.rstrip s = "" -> Str.lstrip s = "".
Proof.
  destruct s as [|c s]; [reflexivity|]. rewrite rstrip_cons.
  destruct (String.eqb_spec (Str.lstrip (String c s)) ""); [auto|discriminate].
Qed.

Lemma not_visible n :
  (n <= 32 \/ 127 <= n)%nat -> ((32 <? n) && (n <? 127))%nat = false.
Proof.
  intros [H|H]; apply andb_false_iff; [left|right]; apply Nat.ltb_ge; exact H.
Qed.

Ltac blank_bytes H :=
  unfold Str.isspace, Str.isspace2, Str.isspace3 in H; cbv zeta in H;
  repeat rewrite ?andb_true_iff, ?orb_true_iff, ?Nat.eqb_eq, ?Nat.leb_le in H;
  unfold is_visible; cbv zeta; apply not_visible; lia.

Lemma isspace_visible c : Str.isspace c = true -> is_visible c = false.
Proof. intros H. blank_bytes H. Qed.

Lemma isspace2_visible c d :
  Str.isspace2 c d = true -> is_visible c = false /\ is_visible d = false.
Proof. intros H; split; blank_bytes H. Qed.

Lemma isspace3_visible c d e :
  Str.isspace3 c d e = true ->
  is_visible c = false /\ is_visible d = false /\ is_visible e = false.
Proof. intros H; repeat split; blank_bytes H. Qed.

Lemma lstrip_cases s :
  Str.lstrip s = s \/
  exists pre rest, s = pre +:+ rest /\ has_visible pre = false /\
                   (String.length rest < String.length s)%nat /\
                   Str.lstrip s = Str.lstrip rest.
Proof.
  destruct s as [|c s1]; [left; reflexivity|].
  cbn [Str.lstrip].
  destruct (Str.isspace c) eqn:H1.
  { right. exists (String c ""), s1. cbn [has_visible String.length].
    rewrite (isspace_visible _ H1). repeat split; lia. }
  destruct s1 as [|d s2]; [left; reflexivity|].
  destruct (Str.isspace2 c d) eqn:H2.
  { right. exists (String c (String d "")), s2.
    cbn [has_visible String.length].
    destruct (isspace2_visible _ _ H2) as [-> ->]. repeat split; lia. }
  destruct s2 as [|e s3]; [left; reflexivity|].
  destruct (Str.isspace3 c d e) eqn:H3; [|left; reflexivity].
  right. exists (String c (String d (String e ""))), s3.
  cbn [has_visible String.length].
  destruct (isspace3_visible _ _ _ H3) as (-> & -> & ->). repeat split; lia.
Qed.

Lemma has_visible_app s t :
  has_visible (s +:+ t) = has_visible s || has_visible t.
Proof.
  induction s as [|c s IH]; [reflexivity|].
  change (String c s +:+ t) with (String c (s +:+ t)).
  cbn [has_visible]. rewrite IH. apply orb_assoc.
Qed.

Lemma lstrip_visible s :
  has_visible s = true -> has_visible (Str.lstrip s) = true.
Proof.
  remember (String.length s) as n eqn:Hn. revert s Hn.
  induction n as [n IH] using lt_wf_ind. intros s -> Hv.
  destruct (lstrip_cases s) as [->|(pre & rest & -> & Hpre & Hlen & ->)];
    [exact Hv|].
  rewrite has_visible_app, Hpre in Hv.
  eapply IH; [exact Hlen|reflexivity|exact Hv].
Qed.

Lemma lstrip_empty s : Str.lstrip s = "" -> has_visible s = false.
Proof.
  remember (String.length s) as n eqn:Hn. revert s Hn.
  induction n as [n IH] using lt_wf_ind. intros s -> He.
  destruct (lstrip_cases s) as [Hs|(pre & rest & -> & Hpre & Hlen & Hs)].
  - rewrite Hs in He. subst s. reflexivity.
  - rewrite has_visible_app, Hpre. cbn [orb].
    eapply IH; [exact Hlen|reflexivity|]. rewrite <- Hs. exact He.
Qed.

Lemma strip_visible s : has_visible s = true -> Str.strip s <> "".
Proof.
  intros Hv He. unfold Str.strip in He.
  apply rstrip_empty, lstrip_empty in He.
  rewrite (lstrip_visible _ Hv) in He. discriminate.
Qed.

(** ** Tools and their outcomes *)

Ltac run_tool_cases E :=
  unfold subprocess_run; unfold_monad;
  cbn [fs events log console add_log add_event set_fs];
  repeat match goal with
         | |- context [run_tool E ?a ?t ?f] =>
             destruct (run_tool E a t f) as [[rc out err| | | |msg|msg] f']
         end.

Lemma get_image_digest_spec E url w :
  fst (ContainerImageOperations.get_image_digest E url w) =
  match fst (run_tool E (skopeo_argv url) (Some 60) (fs w)) with
  | Exited rc out err =>
      if rc =? 0 then
        if Str.startswith (Str.strip out) "sha256:" then Ok (Str.strip out)
        else Raise (ReleaseError ("Invalid digest format: " +:+ Str.strip out))
      else Raise (ReleaseError ("Failed to inspect image: " +:+ err))
  | TimedOut => Raise (ReleaseError "Image inspection timed out")
  | r => Raise (spawn_error (skopeo_argv url) r)
  end.
Proof.
  unfold ContainerImageOperations.get_image_digest, skopeo_argv.
  run_tool_cases E; reduce; try reflexivity.
  destruct (rc =? 0); reduce; [|reflexivity].
  destruct (Str.startswith (Str.strip out) "sha256:"); reflexivity.
Qed.

Lemma length_zero s : Nat.eqb (String.length s) 0 = true <-> s = "".
Proof. destruct s; cbn; split; congruence. Qed.

Lemma check_repo_clean_spec E repo w :
  fst (GitOperations.check_repo_clean E repo w) =
  match fst (run_tool E (status_argv repo) (Some 10) (fs w)) with
  | Exited rc out err =>
      if rc =? 0 then Ok (Nat.eqb (String.length (Str.strip out)) 0)
      else Raise (ReleaseError ("Failed to check git status: " +:+ err))
  | r => Raise (spawn_error (status_argv repo) r)
  end.
Proof.
  unfold GitOperations.check_repo_clean, status_argv.
  run_tool_cases E; reduce; try reflexivity.
  destruct (rc =? 0); reflexivity.
Qed.

Lemma tuple_ge_lex a b : DependencyChecker.tuple_ge a b = true <-> lex_ge a b.
Proof.
  revert b. induction a as [|x a IH]; intros [|y b]; cbn.
  - split; [constructor | reflexivity].
  - split; [discriminate | inversion 1].
  - split; [constructor | reflexivity].
  - destruct (Z.eqb_spec x y) as [->|Hxy].
    + rewrite IH. split.
      * apply lex_ge_eq.
      * inversion 1; subst; [lia | assumption].
    + rewrite Z.ltb_lt. split.
      * apply lex_ge_gt.
      * inversion 1; subst; [assumption | contradiction].
Qed.

Lemma get_opm_version_spec E w :
  fst (DependencyChecker.get_opm_version E w) =
  match fst (run_tool E ["opm"; "version"] (Some 5) (fs w)) with
  | Exited rc out _ =>
      Ok (if rc =? 0 then DependencyChecker.re_search out else None)
  | TimedOut | NotInstalled => Ok None
  | r => Raise (spawn_error ["opm"; "version"] r)
  end.
Proof.
  unfold DependencyChecker.get_opm_version.
  run_tool_cases E; reduce; try reflexivity.
  destruct (rc =? 0); reflexivity.
Qed.

Lemma check_opm_version_bind E min w :
  DependencyChecker.check_opm_version E min w =
  match DependencyChecker.get_opm_version E w with
  | (Ok version, w') => (Ok (version_ok E min version), w')
  | (Raise e, w') => (Raise e, w')
  end.
Proof.
  unfold DependencyChecker.check_opm_version, bind.
  destruct (DependencyChecker.get_opm_version E w) as [[[v|]|e] w'];
    try reflexivity.
  unfold version_ok. destruct (String.eqb v ""); [reflexivity|].
  destruct (DependencyChecker.version_tuple E v); [|reflexivity].
  destruct (DependencyChecker.version_tuple E min); reflexivity.
Qed.

Lemma check_opm_version_spec E min w :
  fst (DependencyChecker.check_opm_version E min w) =
  match fst (run_tool E ["opm"; "version"] (Some 5) (fs w)) with
  | Exited rc out _ =>
      Ok (if rc =? 0 then version_ok E min (DependencyChecker.re_search out)
          else false)
  | TimedOut | NotInstalled => Ok false
  | r => Raise (spawn_error ["opm"; "version"] r)
  end.
Proof.
  rewrite check_opm_version_bind.
  pose proof (get_opm_version_spec E w) as Hv.
  destruct (DependencyChecker.get_opm_version E w) as [[v|e] w'];
    cbn [fst] in Hv |- *;
    destruct (fst (run_tool E ["opm"; "version"] (Some 5) (fs w)))
      as [rc out err| | | |msg|msg]; try discriminate;
    try (injection Hv as ->); try reflexivity.
  destruct (rc =? 0); reflexivity.
Qed.

Lemma version_tuple_empty E : DependencyChecker.version_tuple E "" = None.
Proof. reflexivity. Qed.

Ltac run_github E :=
  unfold GitHubOperations.get_latest_commit_sha, GitHubOperations.http_get,
    GitHubOperations.loads;
  unfold_monad; cbn [fs events log console add_log add_event set_fs].

(** ** Confinement of the effects *)

Section Steps.
Context (P : event -> Prop).

Lemma steps_refl w : steps P w w.
Proof. exists []. rewrite app_nil_r. auto. Qed.

Lemma steps_same w w' :
  events w' = events w -> fs w' = fs w -> steps P w w'.
Proof. intros He Hf. exists []. rewrite app_nil_r. auto. Qed.

Lemma steps_trans w1 w2 w3 : steps P w1 w2 -> steps P w2 w3 -> steps P w1 w3.
Proof.
  intros (e1 & H1 & F1 & N1) (e2 & H2 & F2 & N2).
  exists (e1 ++ e2)%list. split; [|split].
  - rewrite H2, H1, app_assoc. reflexivity.
  - apply Forall_app. auto.
  - intros [-> ->]%app_eq_nil. rewrite N2, N1; auto.
Qed.

Lemma steps_one w w' e :
  P e -> events w' = (events w ++ [e])%list -> steps P w w'.
Proof.
  intros He Hw. exists [e]. split; [exact Hw|]. split; [|discriminate].
  constructor; [exact He | constructor].
Qed.

Lemma confined_ret {A} (a : A) : confined P (ret a).
Proof. intros w. apply steps_refl. Qed.

Lemma confined_raise {A} e : confined P (@raise A e).
Proof. intros w. apply steps_refl. Qed.

Lemma confined_lift {A} (r : res A) : confined P (lift r).
Proof. intros w. apply steps_refl. Qed.

Lemma confined_bind {A B} (m : M A) (k : A -> M B) :
  confined P m -> (forall a, confined P (k a)) -> confined P (bind m k).
Proof.
  intros Hm Hk w. unfold bind. specialize (Hm w).
  destruct (m w) as [[a|e] w']; cbn [snd] in *; [|exact Hm].
  eapply steps_trans; [exact Hm | apply Hk].
Qed.

Lemma confined_try {A} (body : M A) (handler : exn -> M A) :
  confined P body -> (forall e, confined P (handler e)) ->
  confined P (try_except body handler).
Proof.
  intros Hm Hk w. unfold try_except. specialize (Hm w).
  destruct (body w) as [[a|e] w']; cbn [snd] in *; [exact Hm|].
  eapply steps_trans; [exact Hm | apply Hk].
Qed.

Lemma steps_bind {A B} (m : M A) (k : A -> M B) w :
  steps P w (snd (m w)) -> (forall a, confined P (k a)) ->
  steps P w (snd (bind m k w)).
Proof.
  intros Hm Hk. unfold bind.
  destruct (m w) as [[a|e] w']; cbn [snd] in *; [|exact Hm].
  eapply steps_trans; [exact Hm | apply Hk].
Qed.

Lemma steps_try {A} (body : M A) (handler : exn -> M A) w :
  steps P w (snd (body w)) -> (forall e, confined P (handler e)) ->
  steps P w (snd (try_except body handler w)).
Proof.
  intros Hm Hk. unfold try_except.
  destruct (body w) as [[a|e] w']; cbn [snd] in *; [exact Hm|].
  eapply steps_trans; [exact Hm | apply Hk].
Qed.

Lemma confined_logger_info s : confined P (logger_info s).
Proof. intros w. apply steps_same; reflexivity. Qed.

Lemma confined_logger_warning s : confined P (logger_warning s).
Proof. intros w. apply steps_same; reflexivity. Qed.

Lemma confined_logger_error s : confined P (logger_error s).
Proof. intros w. apply steps_same; reflexivity. Qed.

Lemma confined_print s : confined P (print s).
Proof. intros w. apply steps_same; reflexivity. Qed.

Lemma confined_path_exists p : confined P (path_exists p).
Proof. intros w. apply steps_refl. Qed.

Lemma confined_read_text p : confined P (read_text p).
Proof.
  intros w. unfold read_text.
  destruct (lookup_node (fs w) p) as [[]|]; apply steps_refl.
Qed.

Lemma confined_mkdir p : P (EMkdir p) -> confined P (mkdir_parents p).
Proof.
  intros HP w. unfold mkdir_parents.
  destruct (make_dirs (fs w) [] p); apply (steps_one _ _ (EMkdir p)); auto.
Qed.

Lemma confined_write p c : P (EWrite p) -> confined P (write_text p c).
Proof.
  intros HP w. unfold write_text.
  destruct (lookup_node (fs w) p) as [[]|];
    [..|destruct (is_dir (fs w) (path_parent p))];
    apply (steps_one _ _ (EWrite p)); auto.
Qed.

Lemma confined_spawn E argv check timeout :
  P (ESpawn argv) -> confined P (subprocess_run E argv check timeout).
Proof.
  intros HP w. unfold subprocess_run.
  destruct (run_tool E argv timeout (fs w)) as [[rc out err| | | |msg|msg] f];
    [destruct (check && negb (rc =? 0))|..];
    apply (steps_one _ _ (ESpawn argv)); auto.
Qed.

End Steps.

(** The structure of a computation is followed down to its primitive
    operations. *)
Ltac confine :=
  repeat lazymatch goal with
    | |- confined _ (ret _) => apply confined_ret
    | |- confined _ (raise _) => apply confined_raise
    | |- confined _ (lift _) => apply confined_lift
    | |- confined _ (logger_info _) => apply confined_logger_info
    | |- confined _ (logger_warning _) => apply confined_logger_warning
    | |- confined _ (logger_error _) => apply confined_logger_error
    | |- confined _ (print _) => apply confined_print
    | |- confined _ (path_exists _) => apply confined_path_exists
    | |- confined _ (read_text _) => apply confined_read_text
    | |- confined _ (bind _ _) => apply confined_bind; [|intros ?]
    | |- confined _ (try_except _ _) => apply confined_try; [|intros ?]
    | |- confined _ (match ?x with _ => _ end) => destruct x
    end.

Section DryRun.
Context (E : oracle) (config : ReleaseConfig).

Lemma preview_confined P p cand :
  confined P (FBCCatalogManager.preview_catalog_update E p cand).
Proof.
  intros w. rewrite preview_spec. cbv zeta.
  destruct (locate_image E (fs w) p); cbn [snd];
    apply steps_same; rewrite ?preview_log_events, ?preview_log_fs;
    reflexivity.
Qed.

Lemma get_latest_commit_sha_confined P owner repo branch :
  confined P (GitHubOperations.get_latest_commit_sha E owner repo branch).
Proof.
  unfold GitHubOperations.get_latest_commit_sha. confine.
  - intros w. unfold GitHubOperations.http_get.
    destruct (urlopen E _ _ _); apply steps_refl.
  - intros w. unfold GitHubOperations.loads.
    destruct (json_loads E _); apply steps_refl.
Qed.

Lemma get_image_digest_confined P image :
  P (ESpawn (skopeo_argv image)) ->
  confined P (ContainerImageOperations.get_image_digest E image).
Proof.
  intros HP. unfold ContainerImageOperations.get_image_digest. confine.
  apply confined_spawn. exact HP.
Qed.

Lemma fetch_latest_confined P repo :
  P (ESpawn ["git"; "-C"; path_str repo; "fetch"; "origin"]) ->
  confined P (GitOperations.fetch_latest E repo).
Proof.
  intros HP. unfold GitOperations.fetch_latest. confine.
  apply confined_spawn. exact HP.
Qed.

Lemma clone_repository_confined P url dest :
  P (EMkdir (path_parent dest)) ->
  P (ESpawn ["git"; "clone"; url; path_str dest]) ->
  confined P (GitOperations.clone_repository E url dest None).
Proof.
  intros H1 H2. unfold GitOperations.clone_repository. confine.
  - apply confined_mkdir. exact H1.
  - apply confined_spawn. exact H2.
Qed.

Lemma validate_confined :
  confined (dry_run_event config)
           (ReleaseManager.validate_and_setup_repositories E config).
Proof.
  unfold ReleaseManager.validate_and_setup_repositories. confine.
  apply clone_repository_confined; unfold dry_run_event; auto.
Qed.

(** With the repository in place, the set-up step only looks. *)
Lemma validate_existing P w :
  lookup_node (fs w) (fbc_repo_path config) <> None ->
  steps P w (snd (ReleaseManager.validate_and_setup_repositories E config w)).
Proof.
  intros Hrepo. unfold ReleaseManager.validate_and_setup_repositories.
  unfold_monad. cbn [fs add_log].
  destruct (lookup_node (fs w) (fbc_repo_path config)); [|contradiction].
  cbn [negb fs add_log].
  destruct (lookup_node (fs w) (path_div (fbc_repo_path config) ".git"));
    cbn [negb snd]; apply steps_same; reflexivity.
Qed.

Lemma summary_confined P commit_sha image_digest info :
  confined P (ReleaseManager.print_dry_run_summary E config commit_sha
                image_digest info).
Proof. unfold ReleaseManager.print_dry_run_summary. confine. Qed.

Lemma update_fbc_catalog_dry_confined P commit_sha image_digest :
  (forall e, probe_event config e -> P e) ->
  confined P (ReleaseManager.update_fbc_catalog E config commit_sha
                image_digest true).
Proof.
  intros HP. unfold ReleaseManager.update_fbc_catalog. confine.
  - apply fetch_latest_confined. apply HP. right. reflexivity.
  - apply preview_confined.
Qed.

Lemma get_latest_bundle_sha_confined P :
  (forall e, probe_event config e -> P e) ->
  confined P (ReleaseManager.get_latest_bundle_sha E config).
Proof.
  intros HP. unfold ReleaseManager.get_latest_bundle_sha. confine.
  - apply get_latest_commit_sha_confined.
  - apply get_image_digest_confined. apply HP. left. eauto.
Qed.

(** The dry run, given what its set-up step does from the worlds that
    have the disk of [w]. *)
Lemma run_release_dry_steps P w :
  (forall e, probe_event config e -> P e) ->
  (forall w', fs w' = fs w -> events w' = events w ->
     steps P w'
       (snd (ReleaseManager.validate_and_setup_repositories E config w'))) ->
  steps P w (snd (ReleaseManager.run_release E config true w)).
Proof.
  intros HP Hv. unfold ReleaseManager.run_release.
  unfold bind at 1 2 3. unfold logger_info at 1 2 3. cbn [negb].
  match goal with
  | |- steps _ _ (snd (try_except _ _ ?w3)) =>
      apply (steps_trans _ _ w3); [apply steps_same; reflexivity|]
  end.
  apply steps_try.
  - apply steps_bind; [apply Hv; reflexivity|intros _].
    confine.
    + apply get_latest_bundle_sha_confined. exact HP.
    + apply update_fbc_catalog_dry_confined. exact HP.
    + apply summary_confined.
  - intros e. destruct e; cbn [is_Exception]; confine.
Qed.

End DryRun.

(** Apply on a template that already holds the candidate. *)
Lemma update_on_current E p cand w c data h :
  lookup_node (fs w) p = Some (File c) ->
  yaml_safe_load E c = Loaded data h ->
  stable_bundles_0_image h data = Some (VStr cand) ->
  FBCCatalogManager.update_catalog_template E p cand w =
  (Ok tt,
   add_log INFO ("Updated template with image: " +:+ cand)
     (set_fs (<[p := File (yaml_dump E h data
                             {| default_flow_style := false;
                                sort_keys := false |})]> (fs w))
        (add_event (EWrite p)
           (add_log INFO "Catalog template already has the latest image"
              (add_log INFO ("Updating catalog template: " +:+ path_str p)
                 w))))).
Proof.
  intros Hf Hload (l & es & Hsb & Himg)%image_inv.
  destruct (locate_found _ _ _ _ _ _ _ _ _ Hf Hload Hsb Himg)
    as (bundles & HL & H0).
  pose proof Hsb as Hsb'.
  apply stable_bundles_0_inv in Hsb'
    as (_ & _ & _ & _ & _ & _ & _ & _ & _ & _ & Hl).
  rewrite (update_found _ _ _ _ _ _ _ _ HL Hf eq_refl Hl H0).
  cbn [loc_heap loc_data]. unfold assign_image.
  rewrite (dict_set_same _ _ _ Himg), (insert_id _ _ _ Hl).
  unfold update_log. cbn [loc_current Py.eq_str]. rewrite String.eqb_refl.
  reflexivity.
Qed.

(** ** Running a tool *)

Ltac open_run :=
  unfold subprocess_run; unfold_monad;
  cbn [fs events log console add_log add_event set_fs].

Lemma make_dirs_raises f done todo e :
  make_dirs f done todo = Raise e -> exists m, e = OSError m.
Proof.
  revert f done. induction todo as [|c rest IH]; intros f done; cbn.
  - discriminate.
  - destruct (f !! (done ++ [c])%list) as [[]|]; eauto.
    intros [= <-]. eauto.
Qed.

(** ** Which exceptions escape *)

Section Raises.
Context (P : exn -> Prop).

Lemma raises_ret {A} (a : A) : raises P (ret a).
Proof. intros w e. discriminate. Qed.

Lemma raises_raise {A} e : P e -> raises P (@raise A e).
Proof. intros He w e' [= <-]. exact He. Qed.

Lemma raises_lift {A} (r : res A) :
  (forall e, r = Raise e -> P e) -> raises P (lift r).
Proof. intros Hr w e. cbn. apply Hr. Qed.

Lemma raises_bind {A B} (m : M A) (k : A -> M B) :
  raises P m -> (forall a, raises P (k a)) -> raises P (bind m k).
Proof.
  intros Hm Hk w e. unfold bind. specialize (Hm w).
  destruct (m w) as [[a|e'] w']; cbn [fst] in *.
  - apply Hk.
  - intros [= <-]. apply Hm. reflexivity.
Qed.

Lemma raises_try {A} (Q : exn -> Prop) (body : M A) (handler : exn -> M A) :
  raises Q body -> (forall e, Q e -> raises P (handler e)) ->
  raises P (try_except body handler).
Proof.
  intros Hm Hk w e. unfold try_except. specialize (Hm w).
  destruct (body w) as [[a|e'] w']; cbn [fst] in *.
  - discriminate.
  - apply Hk. apply Hm. reflexivity.
Qed.

Lemma raises_logger_info s : raises P (logger_info s).
Proof. intros w e. discriminate. Qed.

Lemma raises_logger_warning s : raises P (logger_warning s).
Proof. intros w e. discriminate. Qed.

Lemma raises_logger_error s : raises P (logger_error s).
Proof. intros w e. discriminate. Qed.

Lemma raises_print s : raises P (print s).
Proof. intros w e. discriminate. Qed.

Lemma raises_path_exists p : raises P (path_exists p).
Proof. intros w e. discriminate. Qed.

End Raises.

Lemma raises_weaken {A} (P Q : exn -> Prop) (m : M A) :
  (forall e, P e -> Q e) -> raises P m -> raises Q m.
Proof. intros HPQ Hm w e He. apply HPQ. eapply Hm. exact He. Qed.


Lemma read_text_proper p : raises proper (read_text p).
Proof.
  intros w e. unfold read_text.
  destruct (lookup_node (fs w) p) as [[]|]; cbn; intros [= <-]; reflexivity.
Qed.

Lemma write_text_proper p c : raises proper (write_text p c).
Proof.
  intros w e. unfold write_text.
  destruct (lookup_node (fs w) p) as [[]|];
    [..|destruct (is_dir (fs w) (path_parent p))];
    cbn; intros [= <-]; reflexivity.
Qed.

Lemma mkdir_parents_proper p : raises proper (mkdir_parents p).
Proof.
  intros w e. unfold mkdir_parents.
  destruct (make_dirs (fs w) [] p) eqn:Hm; cbn; [discriminate|].
  intros [= <-]. apply make_dirs_raises in Hm as (m & ->). reflexivity.
Qed.

Lemma subprocess_run_proper E argv check timeout :
  raises proper (subprocess_run E argv check timeout).
Proof.
  intros w e. unfold subprocess_run.
  destruct (run_tool E argv timeout (fs w)) as [[rc out err| | | |msg|msg] f];
    [destruct (check && negb (rc =? 0))|..];
    cbn; intros [= <-]; reflexivity.
Qed.

Lemma contains_proper h k c e : Py.contains h k c = Raise e -> proper e.
Proof. apply contains_exception. Qed.

Lemma getitem_proper h c k e : Py.getitem h c k = Raise e -> proper e.
Proof.
  unfold Py.getitem, Py.dangling. intros H.
  repeat case_match; simplify_eq; reflexivity.
Qed.

Lemma getitem0_proper h c e : Py.getitem0 h c = Raise e -> proper e.
Proof.
  unfold Py.getitem0, Py.dangling. intros H.
  repeat case_match; simplify_eq; reflexivity.
Qed.

Lemma setitem_proper h c k v e : Py.setitem h c k v = Raise e -> proper e.
Proof.
  unfold Py.setitem, Py.dangling. intros H.
  repeat case_match; simplify_eq; reflexivity.
Qed.

Lemma res_bind_raise {A B} (r : res A) (k : A -> res B) e :
  res_bind r k = Raise e ->
  r = Raise e \/ exists a, r = Ok a /\ k a = Raise e.
Proof.
  destruct r as [a|e']; cbn; intros H; [right; eauto|left].
  injection H as ->. reflexivity.
Qed.

(** The structure of a computation is followed down to the operations
    that can raise. *)
Ltac escapes :=
  repeat lazymatch goal with
    | |- raises _ (ret _) => apply raises_ret
    | |- raises _ (raise _) =>
        apply raises_raise; first [reflexivity | assumption | idtac]
    | |- raises _ (let x := _ in _) => cbv zeta
    | |- raises _ (logger_info _) => apply raises_logger_info
    | |- raises _ (logger_warning _) => apply raises_logger_warning
    | |- raises _ (logger_error _) => apply raises_logger_error
    | |- raises _ (print _) => apply raises_print
    | |- raises _ (path_exists _) => apply raises_path_exists
    | |- raises proper (read_text _) => apply read_text_proper
    | |- raises proper (write_text _ _) => apply write_text_proper
    | |- raises proper (mkdir_parents _) => apply mkdir_parents_proper
    | |- raises proper (subprocess_run _ _ _ _) => apply subprocess_run_proper
    | |- raises proper (lift (Py.contains _ _ _)) =>
        apply raises_lift; intros ?; apply contains_proper
    | |- raises proper (lift (Py.getitem _ _ _)) =>
        apply raises_lift; intros ?; apply getitem_proper
    | |- raises proper (lift (Py.getitem0 _ _)) =>
        apply raises_lift; intros ?; apply getitem0_proper
    | |- raises proper (lift (Py.setitem _ _ _ _)) =>
        apply raises_lift; intros ?; apply setitem_proper
    | |- raises _ (bind _ _) => apply raises_bind; [|intros ?]
    | |- raises _ (match ?x with _ => _ end) => destruct x
    | |- raises _ (if ?b then _ else _) => destruct b
    end.

(** A handler that lets pass what it does not convert keeps the
    exceptions proper. *)
Ltac handler_proper :=
  let e := fresh "e" in let He := fresh "He" in
  intros e He; destruct e; try discriminate He;
  cbn [is_Exception]; escapes; reflexivity.

(** What a [try] statement lets escape, when its clauses convert some
    exceptions and pass the others on. *)
Ltac escapes_try :=
  apply (raises_try _ proper);
  [ escapes
  | let e := fresh "e" in
    let He := fresh "He" in
    intros e He; destruct e; try discriminate He; escapes; reflexivity ].

Lemma wrap_error_release prefix e :
  proper e -> is_ReleaseError (wrap_error prefix e) = true.
Proof. destruct e; intros He; try discriminate He; reflexivity. Qed.

Lemma release_proper e : is_ReleaseError e = true -> proper e.
Proof. destruct e; intros He; try discriminate He; reflexivity. Qed.

Section Signatures.
Context (E : oracle).

Lemma clone_repository_proper url dest branch :
  raises proper (GitOperations.clone_repository E url dest branch).
Proof. unfold GitOperations.clone_repository. escapes_try. Qed.

Lemma check_repo_clean_proper repo :
  raises proper (GitOperations.check_repo_clean E repo).
Proof. unfold GitOperations.check_repo_clean. escapes_try. Qed.

Lemma fetch_latest_proper repo :
  raises proper (GitOperations.fetch_latest E repo).
Proof. unfold GitOperations.fetch_latest. escapes_try. Qed.

Lemma commit_changes_proper repo files message :
  raises proper (GitOperations.commit_changes E repo files message).
Proof. unfold GitOperations.commit_changes. escapes_try. Qed.

Lemma get_image_digest_proper image :
  raises proper (ContainerImageOperations.get_image_digest E image).
Proof. unfold ContainerImageOperations.get_image_digest. escapes_try. Qed.

Lemma regenerate_catalog_proper repo version opm :
  raises proper (FBCCatalogManager.regenerate_catalog E repo version opm).
Proof. unfold FBCCatalogManager.regenerate_catalog. escapes_try. Qed.

Lemma summary_proper config commit_sha image_digest info :
  raises proper (ReleaseManager.print_dry_run_summary E config commit_sha
                   image_digest info).
Proof. unfold ReleaseManager.print_dry_run_summary. escapes; reflexivity. Qed.

Context (Hlib : libraries_raise_exceptions E).


Lemma get_latest_commit_sha_release owner repo branch :
  raises (fun e => is_ReleaseError e = true)
         (GitHubOperations.get_latest_commit_sha E owner repo branch).
Proof.
  destruct Hlib as (Hurl & Hjson & _).
  unfold GitHubOperations.get_latest_commit_sha.
  apply (raises_try _ proper).
  - escapes.
    + intros w e. unfold GitHubOperations.http_get.
      destruct (urlopen E _ _ _) eqn:Hu; cbn; [discriminate|].
      intros [= <-]. eapply Hurl. exact Hu.
    + intros w e. unfold GitHubOperations.loads.
      destruct (json_loads E _) eqn:Hj; cbn; [discriminate|].
      intros [= <-]. eapply Hjson. exact Hj.
  - intros e He. destruct e; try discriminate He; cbn [is_Exception];
      escapes; reflexivity.
Qed.

Lemma locate_image_proper f p e :
  locate_image E f p = Raise e -> proper e.
Proof.
  destruct Hlib as (_ & _ & Hyaml). unfold locate_image.
  destruct (lookup_node f p) as [[|c]|]; try (intros [= <-]; reflexivity).
  destruct (yaml_safe_load E c) as [data h|e'] eqn:Hload.
  2:{ intros [= <-]. eapply Hyaml. exact Hload. }
  repeat lazymatch goal with
    | |- res_bind _ _ = Raise _ -> _ =>
        let H := fresh "H" in
        intros [H|(? & _ & H)]%res_bind_raise;
        [ first [ exact (contains_proper _ _ _ _ H)
                | exact (getitem_proper _ _ _ _ H)
                | exact (getitem0_proper _ _ _ H) ]
        | revert H ]
    | |- (if ?b then _ else _) = Raise _ -> _ =>
        destruct b; [intros [= <-]; reflexivity|]
    | |- Ok _ = Raise _ -> _ => discriminate
    end.
Qed.

Lemma preview_release p cand :
  raises (fun e => is_ReleaseError e = true)
         (FBCCatalogManager.preview_catalog_update E p cand).
Proof.
  intros w e. rewrite preview_spec. cbv zeta.
  destruct (locate_image E (fs w) p) as [L|e'] eqn:HL; cbn [fst];
    [discriminate|].
  intros [= <-]. apply wrap_error_release.
  eapply locate_image_proper. exact HL.
Qed.

Lemma update_release p cand :
  raises (fun e => is_ReleaseError e = true)
         (FBCCatalogManager.update_catalog_template E p cand).
Proof.
  intros w e. rewrite update_spec. cbv zeta.
  destruct (locate_image E (fs w) p) as [L|e'] eqn:HL; cbn [fst].
  2:{ intros [= <-]. apply wrap_error_release.
      eapply locate_image_proper. exact HL. }
  destruct (Py.getitem0 _ _) as [first|e'] eqn:H0; cbn [fst].
  2:{ intros [= <-]. apply wrap_error_release.
      eapply getitem0_proper. exact H0. }
  destruct (Py.setitem _ _ _ _) as [h'|e'] eqn:Hs; cbn [fst].
  2:{ intros [= <-]. apply wrap_error_release.
      eapply setitem_proper. exact Hs. }
  match goal with
  | |- context [write_text ?p ?c ?w] =>
      pose proof (write_text_proper p c w) as Hw;
      destruct (write_text p c w) as [[[]|e'] w3]
  end; cbn [fst] in *; [discriminate|].
  intros [= <-]. apply wrap_error_release. apply Hw. reflexivity.
Qed.

Context (config : ReleaseConfig).

Lemma validate_proper :
  raises proper (ReleaseManager.validate_and_setup_repositories E config).
Proof.
  unfold ReleaseManager.validate_and_setup_repositories. escapes;
    first [apply clone_repository_proper | reflexivity].
Qed.

Lemma check_fbc_repo_clean_proper :
  raises proper (ReleaseManager.check_fbc_repo_clean E config).
Proof.
  unfold ReleaseManager.check_fbc_repo_clean. escapes;
    first [apply check_repo_clean_proper | reflexivity].
Qed.

Lemma get_latest_bundle_sha_proper :
  raises proper (ReleaseManager.get_latest_bundle_sha E config).
Proof.
  unfold ReleaseManager.get_latest_bundle_sha. escapes.
  - eapply raises_weaken; [apply release_proper|].
    apply get_latest_commit_sha_release.
  - apply get_image_digest_proper.
Qed.

Lemma update_fbc_catalog_proper commit_sha image_digest dry_run :
  raises proper (ReleaseManager.update_fbc_catalog E config commit_sha
                   image_digest dry_run).
Proof.
  unfold ReleaseManager.update_fbc_catalog. escapes.
  - apply fetch_latest_proper.
  - eapply raises_weaken; [apply release_proper|apply preview_release].
  - eapply raises_weaken; [apply release_proper|apply update_release].
  - apply regenerate_catalog_proper.
Qed.

Lemma commit_fbc_changes_proper commit_sha :
  raises proper (ReleaseManager.commit_fbc_changes E config commit_sha).
Proof.
  unfold ReleaseManager.commit_fbc_changes. escapes.
  apply commit_changes_proper.
Qed.

End Signatures.

(** ** Runs of the operations on a tool's answer *)

Lemma fetch_latest_run E repo w :
  GitOperations.fetch_latest E repo w =
  (match fst (run_tool E (fetch_argv repo) (Some 30) (fs w)) with
   | Exited rc _ err =>
       if rc =? 0 then Ok tt
       else Raise (ReleaseError ("Failed to fetch: " +:+ err))
   | r => Raise (spawn_error (fetch_argv repo) r)
   end,
   set_fs (snd (run_tool E (fetch_argv repo) (Some 30) (fs w)))
     (add_event (ESpawn (fetch_argv repo))
        (add_log INFO ("Fetching latest changes from " +:+ path_name repo
                       +:+ "...") w))).
Proof.
  unfold GitOperations.fetch_latest, fetch_argv. open_run.
  destruct (run_tool E _ (Some 30) (fs w)) as [[rc out err| | | |msg|msg] f]; reduce;
    try reflexivity.
  destruct (rc =? 0); reflexivity.
Qed.

Lemma regenerate_catalog_run E repo ocp opm w out err f :
  run_tool E (render_argv opm repo ocp) (Some 60) (fs w)
  = (Exited 0 out err, f) ->
  is_dir f (catalog_output_path repo ocp) = false ->
  is_dir f (path_parent (catalog_output_path repo ocp)) = true ->
  FBCCatalogManager.regenerate_catalog E repo ocp opm w =
  (Ok tt,
   add_log INFO ("Generated catalog: "
                 +:+ path_str (catalog_output_path repo ocp))
     (set_fs (<[catalog_output_path repo ocp := File out]> f)
        (add_event (EWrite (catalog_output_path repo ocp))
           (set_fs f
              (add_event (ESpawn (render_argv opm repo ocp))
                 (add_log INFO ("Regenerating catalog for " +:+ ocp +:+ "...")
                    w)))))).
Proof.
  intros Hrun Hfile Hdir.
  unfold FBCCatalogManager.regenerate_catalog, render_argv, write_text,
    is_dir in *.
  fold (catalog_output_path repo ocp).
  open_run. rewrite Hrun. rewrite ?Z.eqb_refl. reduce.
  destruct (lookup_node f (catalog_output_path repo ocp)) as [[|old]|];
    [discriminate| |]; reduce; [reflexivity|].
  unfold is_dir. destruct (lookup_node f (path_parent _)) as [[]|];
    try discriminate. reflexivity.
Qed.

Lemma try_except_cases {A} (body : M A) (handler : exn -> M A) w :
  (exists a w', body w = (Ok a, w') /\ try_except body handler w = (Ok a, w'))
  \/ (exists e w', body w = (Raise e, w') /\
                   try_except body handler w = handler e w').
Proof.
  unfold try_except. destruct (body w) as [[a|e] w']; [left|right]; eauto.
Qed.

Lemma prefix_append p s : String.prefix p (p +:+ s) = true.
Proof.
  induction p as [|a p IH]; simpl; [destruct s; reflexivity|].
  destruct (Ascii.ascii_dec a a); [exact IH|contradiction].
Qed.

Lemma run_release_result E config dry_run w :
  libraries_raise_exceptions E ->
  match ReleaseManager.run_release E config dry_run w with
  | (Ok _, _) => True
  | (Raise e, w') =>
      e = SystemExit 1 /\
      exists w0 message,
        w' = add_log ERROR message w0 /\
        (Str.startswith message "Release failed: " = true \/
         Str.startswith message "Unexpected error: " = true)
  end.
Proof.
  intros Hlib. unfold ReleaseManager.run_release.
  unfold bind at 1 2 3, logger_info at 1 2 3.
  match goal with
  | |- context [try_except ?b ?h ?w3] =>
      assert (raises proper b) as Hbody;
      [|destruct (try_except_cases b h w3)
          as [([] & w' & Hb & ->) | (e & w' & Hb & ->)]]
  end.
  - escapes;
      first [ apply validate_proper
            | apply check_fbc_repo_clean_proper
            | apply get_latest_bundle_sha_proper; exact Hlib
            | apply update_fbc_catalog_proper; exact Hlib
            | apply summary_proper
            | apply commit_fbc_changes_proper ].
  - exact I.
  - specialize (Hbody _ e ltac:(rewrite Hb; reflexivity)).
    clear Hb. unfold Str.startswith.
    destruct e; try discriminate Hbody; cbn [is_Exception];
      unfold bind, logger_error, raise; (split; [reflexivity|]);
      do 2 eexists; (split; [reflexivity|]); rewrite !prefix_append; auto.
Qed.

(** ** Confinement of the apply run and of the program *)

Lemma steps_weaken (P Q : event -> Prop) w w' :
  (forall e, P e -> Q e) -> steps P w w' -> steps Q w w'.
Proof.
  intros HPQ (evs & He & Hall & Hfs). exists evs. split; [exact He|].
  split; [|exact Hfs]. eapply Forall_impl; eassumption.
Qed.

Lemma confined_weaken {A} (P Q : event -> Prop) (m : M A) :
  (forall e, P e -> Q e) -> confined P m -> confined Q m.
Proof. intros HPQ Hm w. eapply steps_weaken; [exact HPQ|apply Hm]. Qed.

Lemma confined_mkdir_exist_ok P p :
  P (EMkdir p) -> confined P (mkdir_exist_ok p).
Proof.
  intros HP w. unfold mkdir_exist_ok.
  destruct (lookup_node (fs w) p) as [[]|];
    [..|destruct (is_dir (fs w) (path_parent p))];
    apply (steps_one _ _ _ (EMkdir p)); auto.
Qed.

Ltac confine_all :=
  repeat lazymatch goal with
    | |- confined _ (ret _) => apply confined_ret
    | |- confined _ (raise _) => apply confined_raise
    | |- confined _ (lift _) => apply confined_lift
    | |- confined _ (logger_info _) => apply confined_logger_info
    | |- confined _ (logger_warning _) => apply confined_logger_warning
    | |- confined _ (logger_error _) => apply confined_logger_error
    | |- confined _ (print _) => apply confined_print
    | |- confined _ (path_exists _) => apply confined_path_exists
    | |- confined _ (read_text _) => apply confined_read_text
    | |- confined _ (write_text _ _) => apply confined_write
    | |- confined _ (subprocess_run _ _ _ _) => apply confined_spawn
    | |- confined _ (mkdir_parents _) => apply confined_mkdir
    | |- confined _ (mkdir_exist_ok _) => apply confined_mkdir_exist_ok
    | |- confined _ (bind _ _) => apply confined_bind; [|intros ?]
    | |- confined _ (try_except _ _) => apply confined_try; [|intros ?]
    | |- confined _ (let x := _ in _) => cbv zeta
    | |- confined _ (match ?x with _ => _ end) => destruct x
    | |- confined _ (if ?b then _ else _) => destruct b
    end.

Section Apply.
Context (E : oracle).

Lemma safe_load_confined P c : confined P (FBCCatalogManager.safe_load E c).
Proof.
  intros w. unfold FBCCatalogManager.safe_load.
  destruct (yaml_safe_load E c); apply steps_refl.
Qed.

Lemma update_catalog_template_confined P p cand :
  P (EWrite p) ->
  confined P (FBCCatalogManager.update_catalog_template E p cand).
Proof.
  intros HP. unfold FBCCatalogManager.update_catalog_template.
  confine_all; first [exact HP | apply safe_load_confined].
Qed.

Lemma regenerate_catalog_confined P repo ocp opm :
  P (ESpawn (render_argv opm repo ocp)) ->
  P (EWrite (catalog_output_path repo ocp)) ->
  confined P (FBCCatalogManager.regenerate_catalog E repo ocp opm).
Proof.
  intros H1 H2. unfold FBCCatalogManager.regenerate_catalog.
  confine_all; assumption.
Qed.

Lemma check_repo_clean_confined P repo :
  P (ESpawn (status_argv repo)) ->
  confined P (GitOperations.check_repo_clean E repo).
Proof.
  intros HP. unfold GitOperations.check_repo_clean. confine_all. exact HP.
Qed.

Lemma commit_changes_confined P repo files message :
  P (ESpawn (add_argv repo files)) ->
  P (ESpawn (commit_argv repo message)) ->
  confined P (GitOperations.commit_changes E repo files message).
Proof.
  intros H1 H2. unfold GitOperations.commit_changes. confine_all; assumption.
Qed.

Context (config : ReleaseConfig).

Lemma dry_run_release_event e :
  dry_run_event config e -> release_event config e.
Proof. intros H. left. exact H. Qed.

Lemma probe_release_event e : probe_event config e -> release_event config e.
Proof.
  intros [H|H]; left; unfold dry_run_event; auto.
Qed.

Lemma run_release_confined dry_run :
  confined (release_event config)
           (ReleaseManager.run_release E config dry_run).
Proof.
  unfold ReleaseManager.run_release, ReleaseManager.check_fbc_repo_clean,
    ReleaseManager.update_fbc_catalog, ReleaseManager.commit_fbc_changes.
  confine_all.
  all: first
    [ eapply confined_weaken;
      [apply dry_run_release_event | apply validate_confined]
    | apply check_repo_clean_confined; right; left; reflexivity
    | apply get_latest_bundle_sha_confined; apply probe_release_event
    | apply fetch_latest_confined; apply probe_release_event; right;
      reflexivity
    | apply preview_confined
    | apply update_catalog_template_confined; do 2 right; left; reflexivity
    | apply regenerate_catalog_confined;
      [do 3 right; left; reflexivity | do 4 right; left; reflexivity]
    | apply summary_confined
    | apply commit_changes_confined;
      [do 5 right; left; reflexivity | do 6 right; eexists; reflexivity]
    | idtac ].
Qed.

End Apply.

Section Preflight.
Context (E : oracle).

Lemma get_opm_version_confined P :
  P (ESpawn opm_version_argv) ->
  confined P (DependencyChecker.get_opm_version E).
Proof.
  intros HP. unfold DependencyChecker.get_opm_version. confine_all. exact HP.
Qed.

Lemma check_opm_version_confined P min :
  P (ESpawn opm_version_argv) ->
  confined P (DependencyChecker.check_opm_version E min).
Proof.
  intros HP. unfold DependencyChecker.check_opm_version. confine_all.
  apply get_opm_version_confined. exact HP.
Qed.

Lemma check_command_exists_confined P command :
  P (ESpawn (which_argv command)) ->
  confined P (DependencyChecker.check_command_exists E command).
Proof.
  intros HP. unfold DependencyChecker.check_command_exists. confine_all.
  exact HP.
Qed.

Lemma check_tools_confined tools missing :
  confined preflight_event (DependencyChecker.check_tools E tools missing).
Proof.
  revert missing. induction tools as [|[tool description] rest IH];
    intros missing; cbn [DependencyChecker.check_tools].
  - apply confined_ret.
  - apply confined_bind; [|intros found].
    { apply check_command_exists_confined. left. eauto. }
    apply confined_bind; [|intros ?; apply IH].
    confine_all;
      first [ apply check_opm_version_confined
            | apply get_opm_version_confined ]; right; reflexivity.
Qed.

Lemma check_all_dependencies_confined yaml_present :
  confined preflight_event
           (DependencyChecker.check_all_dependencies E yaml_present).
Proof.
  unfold DependencyChecker.check_all_dependencies. confine_all.
  apply check_tools_confined.
Qed.

Lemma log_missing_confined P missing :
  confined P (Main.log_missing missing).
Proof.
  induction missing as [|tool rest IH]; cbn [Main.log_missing].
  - apply confined_ret.
  - apply confined_bind; [apply confined_logger_error|intros _; exact IH].
Qed.

End Preflight.

Lemma halts_raise {A} P e : halts P (@raise A e).
Proof. intros w. split; [apply steps_refl|discriminate]. Qed.

Lemma halts_bind_l {A B} P (m : M A) (k : A -> M B) :
  halts P m -> halts P (bind m k).
Proof.
  intros Hm w. destruct (Hm w) as [Hs Hr]. unfold bind.
  destruct (m w) as [[a|e] w']; cbn [fst snd] in *.
  - destruct (Hr a). reflexivity.
  - split; [exact Hs|discriminate].
Qed.

Lemma halts_bind_r {A B} P (m : M A) (k : A -> M B) :
  confined P m -> (forall a, halts P (k a)) -> halts P (bind m k).
Proof.
  intros Hm Hk w. specialize (Hm w). unfold bind.
  destruct (m w) as [[a|e] w']; cbn [fst snd] in *.
  - destruct (Hk a w') as [Hs Hr]. split; [|exact Hr].
    eapply steps_trans; eassumption.
  - split; [exact Hm|discriminate].
Qed.

Lemma main_check_deps_halts E script_dir yaml_present args :
  arg_check_deps args = true ->
  halts preflight_event (Main.main E script_dir yaml_present args).
Proof.
  intros Hcheck. unfold Main.main, Main.logger_setLevel_DEBUG.
  rewrite Hcheck.
  apply halts_bind_r; [confine_all|intros _].
  apply halts_bind_r; [confine_all|intros _].
  apply halts_bind_r; [apply check_all_dependencies_confined|intros deps].
  destruct (negb (fst deps)).
  - apply halts_bind_l.
    apply halts_bind_r; [confine_all|intros _].
    apply halts_bind_r; [apply log_missing_confined|intros _].
    do 5 (apply halts_bind_r; [confine_all|intros _]).
    apply halts_raise.
  - apply halts_bind_r; [confine_all|intros _].
    apply halts_bind_r; [confine_all|intros _].
    apply halts_bind_l.
    apply halts_bind_r; [confine_all|intros _].
    apply halts_raise.
Qed.

Lemma log_missing_run missing w :
  Main.log_missing missing w =
  (Ok tt, World (fs w) (events w)
            (log w ++ List.map (fun tool => (ERROR, "  - " +:+ tool)) missing)
            (console w)).
Proof.
  revert w. induction missing as [|tool rest IH]; intros w;
    cbn [Main.log_missing List.map].
  - rewrite app_nil_r. destruct w; reflexivity.
  - unfold bind, logger_error. rewrite IH. cbn [fs events log console add_log].
    rewrite <- app_assoc. reflexivity.
Qed.

Lemma main_check_deps_result E script_dir yaml_present args w :
  arg_check_deps args = true ->
  fst (Main.main E script_dir yaml_present args w) =
  match fst (DependencyChecker.check_all_dependencies E yaml_present
               (add_log INFO "Checking dependencies..." w)) with
  | Ok (true, _) => Raise (SystemExit 0)
  | Ok (false, _) => Raise (SystemExit 1)
  | Raise e => Raise e
  end.
Proof.
  intros Hcheck. unfold Main.main, Main.logger_setLevel_DEBUG.
  rewrite Hcheck.
  assert (forall (k : unit -> M unit),
             bind (if arg_verbose args then ret tt else ret tt) k w = k tt w)
    as -> by (intros k; destruct (arg_verbose args); reflexivity).
  unfold bind at 1, logger_info at 1. unfold bind at 1.
  destruct (DependencyChecker.check_all_dependencies E yaml_present _)
    as [[[[|] missing]|e] wd]; cbn [fst snd negb]; [| |reflexivity].
  - reflexivity.
  - unfold bind at 1. unfold bind at 1.
    unfold logger_error at 1. unfold bind at 1. rewrite log_missing_run.
    reflexivity.
Qed.

(** ** The dependency check on tools that leave the disk alone *)

Lemma check_command_exists_run E command w :
  DependencyChecker.check_command_exists E command w =
  (match fst (run_tool E (which_argv command) None (fs w)) with
   | Exited rc _ _ => Ok (rc =? 0)
   | r => Raise (spawn_error (which_argv command) r)
   end,
   set_fs (snd (run_tool E (which_argv command) None (fs w)))
     (add_event (ESpawn (which_argv command)) w)).
Proof.
  unfold DependencyChecker.check_command_exists, which_argv. open_run.
  destruct (run_tool E _ None (fs w)) as [[rc out err| | | |msg|msg] f]; reflexivity.
Qed.

Lemma get_opm_version_fs E w :
  fs (snd (DependencyChecker.get_opm_version E w))
  = snd (run_tool E opm_version_argv (Some 5) (fs w)).
Proof.
  unfold DependencyChecker.get_opm_version, opm_version_argv. open_run.
  destruct (run_tool E _ (Some 5) (fs w)) as [[rc out err| | | |msg|msg] f]; reduce;
    try reflexivity.
  destruct (rc =? 0); reflexivity.
Qed.

Lemma check_opm_version_fs E min w :
  fs (snd (DependencyChecker.check_opm_version E min w))
  = snd (run_tool E opm_version_argv (Some 5) (fs w)).
Proof.
  unfold DependencyChecker.check_opm_version. unfold bind.
  pose proof (get_opm_version_fs E w) as Hfs.
  destruct (DependencyChecker.get_opm_version E w) as [[[v|]|e] w'];
    cbn [snd] in *; try exact Hfs.
  destruct (String.eqb v ""); [exact Hfs|].
  destruct (DependencyChecker.version_tuple E v); [|exact Hfs].
  destruct (DependencyChecker.version_tuple E min); exact Hfs.
Qed.

Lemma check_opm_version_disk E min w w' :
  fs w = fs w' ->
  fst (DependencyChecker.check_opm_version E min w)
  = fst (DependencyChecker.check_opm_version E min w').
Proof. intros H. rewrite !check_opm_version_spec, H. reflexivity. Qed.

(** ** The version pattern *)

Lemma append_nil s : "" +:+ s = s.
Proof. reflexivity. Qed.

Lemma append_cons c s t : String c s +:+ t = String c (s +:+ t).
Proof. reflexivity. Qed.

Lemma strip_prefix_inv pre s r :
  DependencyChecker.strip_prefix pre s = Some r -> s = pre +:+ r.
Proof.
  revert s. induction pre as [|a pre IH]; intros s; cbn.
  - intros [= ->]. reflexivity.
  - destruct s as [|b s]; [discriminate|].
    destruct (Ascii.eqb_spec a b) as [->|]; [|discriminate].
    intros H. rewrite (IH _ H). reflexivity.
Qed.

Lemma strip_prefix_append pre r :
  DependencyChecker.strip_prefix pre (pre +:+ r) = Some r.
Proof.
  induction pre as [|a pre IH]; [reflexivity|].
  rewrite append_cons. cbn [DependencyChecker.strip_prefix].
  rewrite Ascii.eqb_refl. exact IH.
Qed.

Lemma span_version_inv s v rest :
  DependencyChecker.span_version s = (v, rest) ->
  s = v +:+ rest /\ all_chars DependencyChecker.is_version_char v = true /\
  match rest with
  | String c _ => DependencyChecker.is_version_char c = false
  | EmptyString => True
  end.
Proof.
  revert v rest. induction s as [|c s IH]; intros v rest;
    cbn [DependencyChecker.span_version].
  - intros [= <- <-]. auto.
  - destruct (DependencyChecker.is_version_char c) eqn:Hc.
    + destruct (DependencyChecker.span_version s) as [v' rest'].
      intros [= <- <-]. destruct (IH _ _ eq_refl) as (-> & Hv & Hr).
      cbn [all_chars]. rewrite Hc. auto.
    + intros [= <- <-]. cbn [all_chars]. auto.
Qed.

Lemma span_version_append v rest :
  all_chars DependencyChecker.is_version_char v = true ->
  match rest with
  | String c _ => DependencyChecker.is_version_char c = false
  | EmptyString => True
  end ->
  DependencyChecker.span_version (v +:+ rest) = (v, rest).
Proof.
  intros Hv Hr. induction v as [|c v IH].
  - rewrite append_nil. destruct rest as [|c rest]; [reflexivity|].
    cbn [DependencyChecker.span_version]. rewrite Hr. reflexivity.
  - cbn [all_chars] in Hv. apply andb_prop in Hv as [Hc Hv].
    rewrite append_cons. cbn [DependencyChecker.span_version].
    rewrite Hc, (IH Hv). reflexivity.
Qed.

Lemma prefix_inv p s : String.prefix p s = true -> exists t, s = p +:+ t.
Proof.
  revert s. induction p as [|a p IH]; intros s; [eauto|].
  destruct s as [|b s]; simpl; [discriminate|].
  destruct (Ascii.ascii_dec a b) as [->|]; [|discriminate].
  intros (t & ->)%IH. eauto.
Qed.


Lemma match_here_inv s v :
  DependencyChecker.match_here s = Some v ->
  v <> "" /\ all_chars DependencyChecker.is_version_char v = true /\
  exists after,
    s = version_pattern +:+ v +:+ dquote +:+ after \/
    s = version_pattern +:+ "v" +:+ v +:+ dquote +:+ after.
Proof.
  unfold DependencyChecker.match_here. fold version_pattern.
  destruct (DependencyChecker.strip_prefix version_pattern s) as [r|] eqn:Hr;
    [|discriminate].
  apply strip_prefix_inv in Hr as ->.
  match goal with
  | |- context [DependencyChecker.span_version ?r'] =>
      assert (r = r' \/ r = "v" +:+ r') as Hr';
      [|destruct (DependencyChecker.span_version r') as [v' rest] eqn:Hspan]
  end.
  { destruct r as [|c r]; [auto|].
    destruct (Ascii.eqb_spec c "v") as [->|Hc]; [right; reflexivity|].
    left. destruct c as [[] [] [] [] [] [] [] []]; try reflexivity.
    contradiction Hc. reflexivity. }
  apply span_version_inv in Hspan as (Hspan & Hv & _).
  destruct (String.eqb_spec v' "") as [|Hne]; [discriminate|].
  unfold Str.startswith.
  destruct (String.prefix dquote rest) eqn:Hq; [|discriminate].
  intros [= <-]. apply prefix_inv in Hq as (after & ->).
  split; [exact Hne|]. split; [exact Hv|]. exists after.
  destruct Hr' as [->| ->]; rewrite Hspan; auto.
Qed.

Lemma quote_ends_version after :
  match dquote +:+ after with
  | String c _ => DependencyChecker.is_version_char c = false
  | EmptyString => True
  end.
Proof. reflexivity. Qed.

Lemma version_head_not_v v :
  v <> "" -> all_chars DependencyChecker.is_version_char v = true ->
  forall rest,
    match v +:+ rest with String "v" t => t | _ => v +:+ rest end
    = v +:+ rest.
Proof.
  intros Hne Hv rest. destruct v as [|c v]; [contradiction|].
  cbn [all_chars] in Hv. apply andb_prop in Hv as [Hc _].
  rewrite append_cons.
  destruct (Ascii.eqb_spec c "v") as [->|Hc']; [discriminate Hc|].
  destruct c as [[] [] [] [] [] [] [] []]; try reflexivity.
  contradiction Hc'. reflexivity.
Qed.

Lemma match_here_found v after :
  v <> "" -> all_chars DependencyChecker.is_version_char v = true ->
  DependencyChecker.match_here (version_pattern +:+ v +:+ dquote +:+ after)
  = Some v /\
  DependencyChecker.match_here
    (version_pattern +:+ "v" +:+ v +:+ dquote +:+ after) = Some v.
Proof.
  intros Hne Hv. unfold DependencyChecker.match_here. fold version_pattern.
  rewrite !strip_prefix_append.
  change ("v" +:+ v +:+ dquote +:+ after)
    with (String "v" (v +:+ dquote +:+ after)).
  rewrite (version_head_not_v v Hne Hv).
  rewrite (span_version_append v (dquote +:+ after) Hv
             (quote_ends_version after)).
  destruct (String.eqb_spec v "") as [|_]; [contradiction|].
  unfold Str.startswith. rewrite prefix_append. auto.
Qed.

Lemma re_search_inv s v :
  DependencyChecker.re_search s = Some v ->
  exists before rest,
    s = before +:+ rest /\ DependencyChecker.match_here rest = Some v.
Proof.
  induction s as [|c s IH]; cbn [DependencyChecker.re_search].
  - destruct (DependencyChecker.match_here "") eqn:Hm; [|discriminate].
    intros [= ->]. exists "", "". auto.
  - destruct (DependencyChecker.match_here (String c s)) eqn:Hm.
    + intros [= ->]. exists "", (String c s). auto.
    + intros (before & rest & -> & Hr)%IH.
      exists (String c before), rest. auto.
Qed.

Lemma re_search_found before rest v :
  DependencyChecker.match_here rest = Some v ->
  DependencyChecker.re_search (before +:+ rest) <> None.
Proof.
  intros Hm. induction before as [|c before IH].
  - rewrite append_nil.
    destruct rest; cbn [DependencyChecker.re_search]; rewrite Hm;
      intros H; discriminate H.
  - rewrite append_cons. cbn [DependencyChecker.re_search].
    destruct (DependencyChecker.match_here (String c _)); [|exact IH].
    intros H; discriminate H.
Qed.

(** ** The commit resolver and the image inspection in a release *)

Lemma get_latest_commit_sha_pure E owner repo branch w :
  fs (snd (GitHubOperations.get_latest_commit_sha E owner repo branch w))
  = fs w /\
  events (snd (GitHubOperations.get_latest_commit_sha E owner repo branch w))
  = events w /\
  forall w',
    fst (GitHubOperations.get_latest_commit_sha E owner repo branch w)
    = fst (GitHubOperations.get_latest_commit_sha E owner repo branch w').
Proof.
  run_github E.
  repeat match goal with
    | |- context [match ?x with _ => _ end] =>
        lazymatch x with
        | context [match _ with _ => _ end] => fail
        | _ => destruct x
        end; reduce
    end; auto.
Qed.

Lemma get_image_digest_run E url w :
  ContainerImageOperations.get_image_digest E url w =
  let w1 := set_fs (snd (run_tool E (skopeo_argv url) (Some 60) (fs w)))
              (add_event (ESpawn (skopeo_argv url))
                 (add_log INFO ("Inspecting image: " +:+ url) w)) in
  match fst (run_tool E (skopeo_argv url) (Some 60) (fs w)) with
  | Exited rc out err =>
      if rc =? 0 then
        if Str.startswith (Str.strip out) "sha256:"
        then (Ok (Str.strip out),
              add_log INFO ("Image digest: " +:+ Str.strip out) w1)
        else (Raise (ReleaseError ("Invalid digest format: "
                                   +:+ Str.strip out)), w1)
      else (Raise (ReleaseError ("Failed to inspect image: " +:+ err)), w1)
  | TimedOut => (Raise (ReleaseError "Image inspection timed out"), w1)
  | r => (Raise (spawn_error (skopeo_argv url) r), w1)
  end.
Proof.
  unfold ContainerImageOperations.get_image_digest, skopeo_argv. open_run.
  destruct (run_tool E _ (Some 60) (fs w)) as [[rc out err| | | |msg|msg] f]; reduce;
    try reflexivity.
  destruct (rc =? 0); reduce; [|reflexivity].
  destruct (Str.startswith (Str.strip out) "sha256:"); reflexivity.
Qed.

(** ** Paths under a directory *)

Lemma split_cons sep s : exists h t, Str.split sep s = h :: t.
Proof.
  induction s as [|c s (h & t & IH)]; cbn [Str.split]; [eauto|].
  destruct (Ascii.eqb c sep); [eauto|]. rewrite IH. eauto.
Qed.

Lemma split_append sep a b :
  Str.split sep (a +:+ String sep b)
  = (Str.split sep a ++ Str.split sep b)%list.
Proof.
  induction a as [|c a IH].
  - rewrite append_nil. cbn [Str.split]. rewrite Ascii.eqb_refl. reflexivity.
  - rewrite append_cons. cbn [Str.split]. rewrite IH.
    destruct (Ascii.eqb c sep); [reflexivity|].
    destruct (split_cons sep a) as (h & t & ->). reflexivity.
Qed.

Lemma path_parts_append a b :
  path_parts (a +:+ String "/" b) = (path_parts a ++ path_parts b)%list.
Proof. unfold path_parts. rewrite split_append. apply List.filter_app. Qed.

Lemma startswith_append a b :
  a <> "" -> Str.startswith (a +:+ b) "/" = Str.startswith a "/".
Proof.
  intros Ha. destruct a as [|c a]; [contradiction|].
  rewrite append_cons. unfold Str.startswith.
  assert (forall x, String.prefix "/" (String c x)
                    = if Ascii.ascii_dec "/" c then true else false) as H.
  { intros x. cbn [String.prefix].
    destruct (Ascii.ascii_dec "/" c); [destruct x|]; reflexivity. }
  rewrite !H. reflexivity.
Qed.

Lemma path_div_append p a b :
  a <> "" ->
  path_div p (a +:+ String "/" b) = (path_div p a ++ path_parts b)%list.
Proof.
  intros Ha. unfold path_div. rewrite (startswith_append a _ Ha).
  rewrite path_parts_append.
  destruct (Str.startswith a "/"); [reflexivity|]. apply app_assoc.
Qed.

(** * The claims of the specification *)

(** ** ReleaseOrchestrator *)

(** C1, as amended.  Preview never writes: for every path and candidate it
    leaves the disk and the record of operations as they were.  A dry run
    writes no template, renders no catalog and stages or commits
    nothing: the only operations it performs are the creation of the
    parent directory and the clone when the local repository is absent,
    the inspection of the image and [git fetch origin]; with the local
    repository in place, only the last two. *)
Theorem dry_run_effects E config w :
  (forall p cand,
      fs (snd (FBCCatalogManager.preview_catalog_update E p cand w)) = fs w /\
      events (snd (FBCCatalogManager.preview_catalog_update E p cand w))
      = events w) /\
  steps (dry_run_event config) w
        (snd (ReleaseManager.run_release E config true w)) /\
  (lookup_node (fs w) (fbc_repo_path config) <> None ->
   steps (probe_event config) w
         (snd (ReleaseManager.run_release E config true w))).
Proof.
  split; [|split].
  - intros p cand. rewrite preview_spec. cbv zeta.
    destruct (locate_image E (fs w) p); cbn [snd];
      rewrite ?preview_log_events, ?preview_log_fs; split; reflexivity.
  - apply run_release_dry_steps.
    + intros e [H|H]; unfold dry_run_event; auto.
    + intros w' _ _. apply validate_confined.
  - intros Hrepo. apply run_release_dry_steps.
    + auto.
    + intros w' Hfs _. apply validate_existing. rewrite Hfs. exact Hrepo.
Qed.

Lemma dry_run_effects_witness :
  steps (probe_event Demo.config) (Demo.world_with Demo.old_image)
        (snd (ReleaseManager.run_release Demo.E0 Demo.config true
                (Demo.world_with Demo.old_image))).
Proof.
  apply (proj2 (proj2 (dry_run_effects Demo.E0 Demo.config
                         (Demo.world_with Demo.old_image)))).
  vm_compute. discriminate.
Defined.

(** C1, counterexample.  On a machine without the local repository the dry
    run creates [/srv] itself and clones into [/srv/fbc]. *)
Lemma dry_run_creates_directories :
  lookup_node (fs Demo.fresh_world) ["srv"] = None /\
  lookup_node (fs Demo.fresh_world) Demo.repo = None /\
  let w' := snd (ReleaseManager.run_release Demo.E0 Demo.config true
                   Demo.fresh_world) in
  lookup_node (fs w') ["srv"] = Some Dir /\
  lookup_node (fs w') Demo.repo = Some Dir /\
  events w' =
    [EMkdir ["srv"];
     ESpawn ["git"; "clone"; "https://github.com/openshift/instaslice-fbc.git";
             "/srv/fbc"];
     ESpawn ["skopeo"; "inspect";
             "docker://quay.io/redhat-user-workloads/dynamicacceleratorsl-tenant/instaslice-operator-bundle-next:abc123def456789012345678901234567890abcd";
             "--format"; "{{.Digest}}"];
     ESpawn ["git"; "-C"; "/srv/fbc"; "fetch"; "origin"]].
Proof. repeat split; vm_compute; reflexivity. Qed.

Example dry_run_on_existing_repository :
  let r := ReleaseManager.run_release Demo.E0 Demo.config true
             (Demo.world_with Demo.old_image) in
  fst r = Ok tt /\
  events (snd r) =
    [ESpawn ["skopeo"; "inspect";
             "docker://quay.io/redhat-user-workloads/dynamicacceleratorsl-tenant/instaslice-operator-bundle-next:abc123def456789012345678901234567890abcd";
             "--format"; "{{.Digest}}"];
     ESpawn ["git"; "-C"; "/srv/fbc"; "fetch"; "origin"]] /\
  fs (snd r) !! Demo.template_file = Some (File Demo.old_image).
Proof. repeat split; vm_compute; reflexivity. Qed.

(** ** CatalogTemplateEditor *)

(** C2, as amended.  On a template whose [Stable.Bundles[0].Image] is
    the candidate string, apply changes nothing in the document and
    succeeds: the assignment stores the string that the field holds
    already, so that the store of the loaded document is as it was; the
    log records "already has the latest image" and preview reports
    [would_change = False] with the candidate as current image.  The file
    is not left alone: it is replaced by the serialisation of the
    unchanged document, so that the disk is as it was exactly when the
    file was that serialisation already.  The call succeeds on every such
    template, hence again on the file it has written whenever the library
    loads that file as a template with the same image. *)
Theorem apply_on_current_image E p cand w c data h :
  lookup_node (fs w) p = Some (File c) ->
  yaml_safe_load E c = Loaded data h ->
  stable_bundles_0_image h data = Some (VStr cand) ->
  let r := FBCCatalogManager.update_catalog_template E p cand w in
  let content' :=
    yaml_dump E h data {| default_flow_style := false; sort_keys := false |}
  in
  fst r = Ok tt /\
  (exists l es,
      stable_bundles_0 h data = Some (l, es) /\ assign_image h l es cand = h) /\
  fs (snd r) = <[p := File content']> (fs w) /\
  (fs (snd r) = fs w <-> content' = c) /\
  events (snd r) = (events w ++ [EWrite p])%list /\
  log (snd r) =
    (log w ++ [(INFO, "Updating catalog template: " +:+ path_str p);
               (INFO, "Catalog template already has the latest image");
               (INFO, "Updated template with image: " +:+ cand)])%list /\
  (exists info,
    fst (FBCCatalogManager.preview_catalog_update E p cand w) = Ok info /\
    current_image info = Some (VStr cand, h) /\
    would_change info = Some false) /\
  (forall data2 h2,
      yaml_safe_load E content' = Loaded data2 h2 ->
      stable_bundles_0_image h2 data2 = Some (VStr cand) ->
      fst (FBCCatalogManager.update_catalog_template E p cand (snd r))
      = Ok tt).
Proof.
  intros Hf Hload Himage r content'. subst r content'.
  rewrite (update_on_current _ _ _ _ _ _ _ Hf Hload Himage).
  cbn [fst snd fs events log add_log set_fs add_event].
  split; [reflexivity|]. split.
  { destruct (image_inv _ _ _ Himage) as (l & es & Hsb & Himg).
    exists l, es. split; [exact Hsb|].
    apply stable_bundles_0_inv in Hsb
      as (_ & _ & _ & _ & _ & _ & _ & _ & _ & _ & Hl).
    unfold assign_image.
    rewrite (dict_set_same _ _ _ Himg). apply insert_id. exact Hl. }
  split; [reflexivity|]. split.
  { destruct p as [|d p]; [discriminate|]. cbn [lookup_node] in Hf. split.
    - intros Heq.
      assert (Some (File (yaml_dump E h data
                {| default_flow_style := false; sort_keys := false |}))
              = Some (File c)) as Hc
        by (rewrite <- Hf, <- Heq; symmetry; apply lookup_insert_eq).
      congruence.
    - intros ->. apply insert_id. exact Hf. }
  split; [reflexivity|].
  split; [rewrite <- !app_assoc; reflexivity|].
  split.
  { destruct (image_inv _ _ _ Himage) as (l & es & Hsb & Himg).
    destruct (locate_found _ _ _ _ _ _ _ _ _ Hf Hload Hsb Himg)
      as (bundles & HL & _).
    rewrite preview_spec. cbv zeta. rewrite HL. eexists.
    split; [reflexivity|].
    cbn [current_image would_change loc_current loc_heap Py.eq_str].
    rewrite String.eqb_refl. split; reflexivity. }
  intros data2 h2 Hload2 Himage2.
  erewrite update_on_current;
    [| cbn [fs add_log set_fs add_event];
       apply (lookup_node_file_insert _ _ _ _ Hf)
     | exact Hload2 | exact Himage2].
  reflexivity.
Qed.

Lemma apply_on_current_image_witness :
  let w := Workstation.world_with (Yaml.template_text Demo.new_image) in
  let r := FBCCatalogManager.update_catalog_template Yaml.env
             Demo.template_file Demo.new_image w in
  fst r = Ok tt /\
  fs (snd r) = fs w /\
  fst (FBCCatalogManager.update_catalog_template Yaml.env
         Demo.template_file Demo.new_image (snd r)) = Ok tt.
Proof.
  cbv zeta.
  destruct (apply_on_current_image Yaml.env Demo.template_file Demo.new_image
              (Workstation.world_with (Yaml.template_text Demo.new_image))
              (Yaml.template_text Demo.new_image)
              (VRef 0%nat) (Demo.template (VStr Demo.new_image))
              ltac:(vm_compute; reflexivity) ltac:(vm_compute; reflexivity)
              ltac:(vm_compute; reflexivity))
    as (Hok & _ & _ & Hsame & _ & _ & _ & Hagain).
  split; [exact Hok|]. split.
  - apply Hsame. vm_compute. reflexivity.
  - apply (Hagain (VRef 0%nat) (Demo.template (VStr Demo.new_image)));
      vm_compute; reflexivity.
Defined.

(** C2, counterexample.  The template of the unit tests with the image
    of the candidate written between double quotes: the image is the
    candidate, apply logs that the template already has the latest image
    and succeeds, and the file is rewritten all the same, the field now
    without its quotes. *)
Lemma current_template_is_rewritten :
  let before := Yaml.template_text (Yaml.quoted Demo.new_image) in
  let after := Yaml.template_text Demo.new_image in
  let w := Workstation.world_with before in
  let r := FBCCatalogManager.update_catalog_template Yaml.env
             Demo.template_file Demo.new_image w in
  channel_image Yaml.env before "Stable" = Ok (VStr Demo.new_image) /\
  fs w !! Demo.template_file = Some (File before) /\
  fst r = Ok tt /\
  log (snd r) =
    [(INFO, "Updating catalog template: /srv/fbc/v4.19/catalog-template.yaml");
     (INFO, "Catalog template already has the latest image");
     (INFO, "Updated template with image: quay.io/new/bundle@sha256:new456")] /\
  events (snd r) = [EWrite Demo.template_file] /\
  fs (snd r) !! Demo.template_file = Some (File after) /\
  String.eqb after before = false.
Proof. repeat split; vm_compute; reflexivity. Qed.

(** C4. Preview computes the same would-change decision as apply, and the
    two raise under the same conditions.  For every filesystem, template
    path and candidate: either both succeed, the flag reported by preview
    being [current != candidate] and apply logging the matching branch
    ("Updating from/to" exactly when the flag is set, "already has the
    latest image" otherwise); or both raise, leaving the disk as it was,
    and then they raise the same release error, or the same cause wrapped
    under their respective prefixes (an exit request coming out of the
    YAML library passes through both unchanged). *)
Theorem preview_agrees_with_apply E p cand w :
  match fst (FBCCatalogManager.preview_catalog_update E p cand w),
        FBCCatalogManager.update_catalog_template E p cand w with
  | Ok info, (Ok _, wu) =>
      exists cur,
        current_image info = Some cur /\
        would_change info = Some (negb (Py.eq_str (fst cur) cand)) /\
        log wu =
        (log w
         ++ [(INFO, "Updating catalog template: " +:+ path_str p)]
         ++ (if negb (Py.eq_str (fst cur) cand)
             then [(INFO, "Updating from: " +:+ py_str E cur);
                   (INFO, "Updating to:   " +:+ cand)]
             else [(INFO, "Catalog template already has the latest image")])
         ++ [(INFO, "Updated template with image: " +:+ cand)])%list
  | Raise e1, (Raise e2, wu) =>
      fs wu = fs w /\ events wu = events w /\
      ((exists m, e1 = ReleaseError m /\ e2 = ReleaseError m) \/
       (exists cause,
           e1 = ReleaseError ("Failed to preview template: " +:+ cause) /\
           e2 = ReleaseError ("Failed to update template: " +:+ cause)) \/
       (exists code, e1 = SystemExit code /\ e2 = SystemExit code))
  | _, _ => False
  end.
Proof.
  rewrite preview_spec. cbv zeta.
  destruct (locate_image E (fs w) p) as [L|e] eqn:HL.
  - destruct (locate_inv _ _ _ _ HL)
      as (c & l & es & Hf & _ & Hsb & _ & Hfirst & H0).
    apply stable_bundles_0_inv in Hsb
      as (_ & _ & _ & _ & _ & _ & _ & _ & _ & _ & Hl).
    rewrite (update_found _ _ _ _ _ _ _ _ HL Hf Hfirst Hl H0).
    cbn [fst snd current_image would_change log add_log set_fs add_event].
    exists (loc_current L, loc_heap L). repeat split.
    rewrite update_log_log. cbn [log add_log fst].
    rewrite <- !app_assoc. reflexivity.
  - rewrite update_spec. cbv zeta. rewrite HL. cbn [fst].
    repeat split.
    destruct e; cbn; eauto 6.
Qed.

(** C5, as amended.  On a well-formed template whose image differs from
    the candidate, apply succeeds and assigns the candidate to that one
    field, in place: the store after the call differs from the loaded one
    at the first bundle's mapping object only; in that mapping the entry
    of key ["Image"] now holds the candidate, where it stood, every entry
    before and after it being kept, in order.  A position of the document
    that is an alias of the first bundle refers to that same mapping, and
    so shows the new image too.  The file is replaced by what the
    library's dump returns for that document when called with
    [default_flow_style=False, sort_keys=False] (block style, keys in
    document order).  The document written has the candidate as
    [Stable.Bundles[0].Image]; re-reading the file yields it provided the
    library loads back the document it has dumped. *)
Theorem apply_changes_only_the_image E p cand w c data h l es cur :
  lookup_node (fs w) p = Some (File c) ->
  yaml_safe_load E c = Loaded data h ->
  stable_bundles_0 h data = Some (l, es) ->
  Py.dict_get es "Image" = Some cur ->
  cur <> VStr cand ->
  let h' := assign_image h l es cand in
  let content' :=
    yaml_dump E h' data {| default_flow_style := false; sort_keys := false |}
  in
  let r := FBCCatalogManager.update_catalog_template E p cand w in
  fst r = Ok tt /\
  fs (snd r) = <[p := File content']> (fs w) /\
  events (snd r) = (events w ++ [EWrite p])%list /\
  log (snd r) =
    (log w ++ [(INFO, "Updating catalog template: " +:+ path_str p);
               (INFO, "Updating from: " +:+ py_str E (cur, h));
               (INFO, "Updating to:   " +:+ cand);
               (INFO, "Updated template with image: " +:+ cand)])%list /\
  (forall l', l' <> l -> h' !! l' = h !! l') /\
  (exists pre post,
      es = (pre ++ (VStr "Image", cur) :: post)%list /\
      h' !! l = Some (ODict (pre ++ (VStr "Image", VStr cand) :: post)) /\
      Py.dict_get pre "Image" = None) /\
  stable_bundles_0_image h' data = Some (VStr cand) /\
  (yaml_safe_load E content' = Loaded data h' ->
   exists info,
     fst (FBCCatalogManager.preview_catalog_update E p cand (snd r)) = Ok info /\
     current_image info = Some (VStr cand, h') /\
     would_change info = Some false).
Proof.
  intros Hf Hload Hsb Himg Hne h' content' r.
  destruct (locate_found _ _ _ _ _ _ _ _ _ Hf Hload Hsb Himg)
    as (bundles & HL & H0).
  pose proof Hsb as Hsb'.
  apply stable_bundles_0_inv in Hsb'
    as (_ & _ & _ & _ & _ & _ & _ & _ & _ & _ & Hl).
  assert (Hcur : Py.eq_str cur cand = false).
  { destruct (Py.eq_str cur cand) eqn:Heq; [|reflexivity].
    apply eq_str_true in Heq. contradiction. }
  pose proof (stable_bundles_0_assigned h l es cand Hl data Hsb) as Hsb2.
  assert (Himg2 : stable_bundles_0_image h' data = Some (VStr cand)).
  { unfold stable_bundles_0_image, h'. rewrite Hsb2. cbn [mbind option_bind].
    apply dict_get_set_eq. }
  subst r h' content'.
  rewrite (update_found _ _ _ _ _ _ _ _ HL Hf eq_refl Hl H0).
  cbn [fst snd loc_heap loc_data].
  split; [reflexivity|]. split; [reflexivity|].
  split.
  { cbn [events add_log set_fs add_event]. rewrite update_log_events.
    reflexivity. }
  split.
  { cbn [log add_log set_fs add_event]. rewrite update_log_log.
    cbn [loc_current loc_heap]. rewrite Hcur.
    cbn [negb log add_log]. rewrite <- !app_assoc. reflexivity. }
  split.
  { intros l' Hl'. unfold assign_image. apply lookup_insert_ne. congruence. }
  split.
  { destruct (dict_set_present es "Image" cur (VStr cand) Himg)
      as (pre & key & post & Hes & Hset & Hkey & Hpre).
    apply eq_str_true in Hkey as ->.
    exists pre, post. split; [exact Hes|]. split; [|exact Hpre].
    unfold assign_image. rewrite lookup_insert_eq, Hset. reflexivity. }
  split; [exact Himg2|].
  intros Hround.
  rewrite preview_spec. cbv zeta.
  cbn [fs add_log set_fs].
  pose proof (lookup_node_file_insert _ _ _
                (yaml_dump E (assign_image h l es cand) data
                   {| default_flow_style := false; sort_keys := false |}) Hf)
    as Hf'.
  destruct (locate_found _ _ _ _ _ _ _ _ _ Hf' Hround Hsb2
              (dict_get_set_eq es "Image" (VStr cand)))
    as (bundles' & HL' & _).
  rewrite HL'.
  eexists. split; [reflexivity|].
  cbn [current_image would_change loc_current loc_heap Py.eq_str].
  rewrite String.eqb_refl. split; reflexivity.
Qed.

Lemma apply_changes_only_the_image_witness :
  let w := Workstation.world_with (Yaml.template_text Demo.old_image) in
  let r := FBCCatalogManager.update_catalog_template Yaml.env
             Demo.template_file Demo.new_image w in
  fst r = Ok tt /\
  fs (snd r) !! Demo.template_file
  = Some (File (Yaml.template_text Demo.new_image)) /\
  exists info,
    fst (FBCCatalogManager.preview_catalog_update Yaml.env Demo.template_file
           Demo.new_image (snd r)) = Ok info /\
    would_change info = Some false.
Proof.
  cbv zeta.
  assert (Hne : VStr Demo.old_image <> VStr Demo.new_image) by discriminate.
  destruct (apply_changes_only_the_image Yaml.env Demo.template_file
              Demo.new_image
              (Workstation.world_with (Yaml.template_text Demo.old_image))
              (Yaml.template_text Demo.old_image)
              (VRef 0%nat) (Demo.template (VStr Demo.old_image))
              3%nat [(VStr "Image", VStr Demo.old_image)] (VStr Demo.old_image)
              ltac:(vm_compute; reflexivity) ltac:(vm_compute; reflexivity)
              ltac:(vm_compute; reflexivity) ltac:(vm_compute; reflexivity)
              Hne)
    as (Hok & Hfs & _ & _ & _ & _ & _ & Hread).
  split; [exact Hok|]. split.
  { rewrite Hfs. rewrite lookup_insert_eq. vm_compute. reflexivity. }
  destruct (Hread ltac:(vm_compute; reflexivity)) as (info & Hinfo & _ & Hwc).
  exists info. split; assumption.
Defined.

(** C5, counterexample.  On the template
[[
Stable:
  Bundles:
  - &bundle
    Image: quay.io/old/bundle@sha256:old123
Candidate:
  Bundles:
  - *bundle
]]
    the bundle of the [Candidate] channel is an alias of the first bundle
    of [Stable].  Apply succeeds, and in the file it writes the image of
    the [Candidate] channel has changed with that of [Stable]. *)
Lemma alias_of_the_first_bundle_changes_too :
  let before := Yaml.shared_text "bundle" Demo.old_image in
  let after := Yaml.shared_text "id001" Demo.new_image in
  let w := Workstation.world_with before in
  let r := FBCCatalogManager.update_catalog_template Yaml.env
             Demo.template_file Demo.new_image w in
  fs w !! Demo.template_file = Some (File before) /\
  channel_image Yaml.env before "Stable" = Ok (VStr Demo.old_image) /\
  channel_image Yaml.env before "Candidate" = Ok (VStr Demo.old_image) /\
  fst r = Ok tt /\
  fs (snd r) !! Demo.template_file = Some (File after) /\
  channel_image Yaml.env after "Stable" = Ok (VStr Demo.new_image) /\
  channel_image Yaml.env after "Candidate" = Ok (VStr Demo.new_image).
Proof. repeat split; vm_compute; reflexivity. Qed.

(** C6. The checks run in the order file, ["Stable"], ["Bundles"],
    non-empty list, ["Image"]: the first requirement that a template
    fails ([first_defect]) decides the release error raised by preview and
    by apply alike, whatever the rest of the document holds; a
    ["Bundles"] that is the empty list, null, a mapping or a scalar fails
    the fourth; the disk is left as it was; the messages of the five
    defects are pairwise distinct; and the message of a missing
    ["Stable"], a missing ["Bundles"], an empty or invalid ["Bundles"] or
    a missing ["Image"] names the section. *)
Theorem template_defects_are_reported E p cand w d :
  first_defect E (fs w) p = Some d ->
  fst (FBCCatalogManager.preview_catalog_update E p cand w)
    = Raise (ReleaseError (defect_message p d)) /\
  fst (FBCCatalogManager.update_catalog_template E p cand w)
    = Raise (ReleaseError (defect_message p d)) /\
  fs (snd (FBCCatalogManager.update_catalog_template E p cand w)) = fs w /\
  (forall d', defect_message p d' = defect_message p d -> d' = d) /\
  (d <> NoFile -> Str.contains (defect_section d) (defect_message p d) = true).
Proof.
  intros Hd. apply locate_defect in Hd.
  rewrite preview_spec, update_spec. cbv zeta. rewrite Hd.
  repeat split.
  - intros d'. destruct d, d'; cbn; intros H;
      first [reflexivity | discriminate H].
  - destruct d; intros Hne; [contradiction| reflexivity ..].
Qed.

Lemma template_defects_are_reported_witness :
  fst (FBCCatalogManager.update_catalog_template Demo.E0 Demo.template_file
         Demo.new_image (Demo.world_with "Stable: {Bundles: []}"))
  = Raise (ReleaseError "Template has empty or invalid Bundles list") /\
  fst (FBCCatalogManager.preview_catalog_update Yaml.env Demo.template_file
         Demo.new_image (Workstation.world_with Yaml.null_bundles_text))
  = Raise (ReleaseError "Template has empty or invalid Bundles list") /\
  fst (FBCCatalogManager.update_catalog_template Yaml.env Demo.template_file
         Demo.new_image (Workstation.world_with Yaml.mapping_bundles_text))
  = Raise (ReleaseError "Template has empty or invalid Bundles list").
Proof.
  split; [|split].
  - exact (proj1 (proj2 (template_defects_are_reported Demo.E0
                           Demo.template_file Demo.new_image
                           (Demo.world_with "Stable: {Bundles: []}")
                           EmptyBundles ltac:(vm_compute; reflexivity)))).
  - exact (proj1 (template_defects_are_reported Yaml.env
                    Demo.template_file Demo.new_image
                    (Workstation.world_with Yaml.null_bundles_text)
                    EmptyBundles ltac:(vm_compute; reflexivity))).
  - exact (proj1 (proj2 (template_defects_are_reported Yaml.env
                           Demo.template_file Demo.new_image
                           (Workstation.world_with Yaml.mapping_bundles_text)
                           EmptyBundles ltac:(vm_compute; reflexivity)))).
Defined.

(** C10. When the template parses to something that is not a mapping at
    the top level (null, a scalar, a list, a set, ...), preview and apply
    both raise a release error, and apply leaves the disk as it was: the
    [TypeError] of the navigation does not escape. *)
Theorem non_mapping_document_raises_release_error E p cand w c data h :
  lookup_node (fs w) p = Some (File c) ->
  yaml_safe_load E c = Loaded data h ->
  mapping_of h data = None ->
  (exists m, fst (FBCCatalogManager.preview_catalog_update E p cand w)
             = Raise (ReleaseError m)) /\
  (exists m, fst (FBCCatalogManager.update_catalog_template E p cand w)
             = Raise (ReleaseError m)) /\
  fs (snd (FBCCatalogManager.update_catalog_template E p cand w)) = fs w /\
  events (snd (FBCCatalogManager.update_catalog_template E p cand w))
  = events w.
Proof.
  intros Hf Hload Hm.
  destruct (locate_non_mapping _ _ _ _ _ _ Hf Hload Hm) as (e & HL & He).
  rewrite preview_spec, update_spec. cbv zeta. rewrite HL. cbn [fst snd].
  destruct (wrap_exception "Failed to preview template: " e He) as (m1 & ->).
  destruct (wrap_exception "Failed to update template: " e He) as (m2 & ->).
  repeat split; eauto.
Qed.

Lemma non_mapping_document_raises_release_error_witness :
  (exists m, fst (FBCCatalogManager.preview_catalog_update Demo.E0
                    Demo.template_file Demo.new_image (Demo.world_with ""))
             = Raise (ReleaseError m)) /\
  (exists m, fst (FBCCatalogManager.update_catalog_template Demo.E0
                    Demo.template_file Demo.new_image (Demo.world_with ""))
             = Raise (ReleaseError m)).
Proof.
  destruct (non_mapping_document_raises_release_error Demo.E0
              Demo.template_file Demo.new_image (Demo.world_with "")
              "" VNone ∅
              ltac:(vm_compute; reflexivity) ltac:(vm_compute; reflexivity)
              ltac:(vm_compute; reflexivity))
    as (H1 & H2 & _).
  split; assumption.
Defined.

Example empty_document_preview :
  fst (FBCCatalogManager.preview_catalog_update Demo.E0 Demo.template_file
         Demo.new_image (Demo.world_with ""))
  = Raise (ReleaseError
             "Failed to preview template: argument of type 'NoneType' is not iterable").
Proof. vm_compute. reflexivity. Qed.

Example list_document_apply :
  fst (FBCCatalogManager.update_catalog_template Demo.E0 Demo.template_file
         Demo.new_image (Demo.world_with "- Stable"))
  = Raise (ReleaseError
             "Failed to update template: list indices must be integers or slices, not str").
Proof. vm_compute. reflexivity. Qed.

(** ** ImageDigestResolver *)

(** C3, as amended.  The digest returned is the trimmed output of the
    inspection tool and starts with ["sha256:"]; a trimmed output without
    that prefix is refused with the release error "Invalid digest
    format".  What follows the prefix is not examined. *)
Theorem get_image_digest_checks_prefix E url w :
  (forall s,
      fst (ContainerImageOperations.get_image_digest E url w) = Ok s ->
      Str.startswith s "sha256:" = true /\
      exists out err,
        fst (run_tool E (skopeo_argv url) (Some 60) (fs w)) = Exited 0 out err /\
        s = Str.strip out) /\
  (forall out err,
      fst (run_tool E (skopeo_argv url) (Some 60) (fs w)) = Exited 0 out err ->
      Str.startswith (Str.strip out) "sha256:" = false ->
      fst (ContainerImageOperations.get_image_digest E url w)
      = Raise (ReleaseError ("Invalid digest format: " +:+ Str.strip out))).
Proof.
  rewrite get_image_digest_spec. split.
  - intros s.
    destruct (fst (run_tool E (skopeo_argv url) (Some 60) (fs w)))
      as [rc out err| | | |msg|msg]; try discriminate.
    destruct (Z.eqb_spec rc 0) as [->|]; try discriminate.
    destruct (Str.startswith (Str.strip out) "sha256:") eqn:Hp;
      try discriminate.
    intros [= <-]. eauto.
  - intros out err -> Hp. cbn. rewrite Hp. reflexivity.
Qed.

Lemma get_image_digest_checks_prefix_witness :
  Str.startswith "sha256:abc123def456" "sha256:" = true /\
  fst (ContainerImageOperations.get_image_digest
         (Demo.env "invalid-digest-format" (HttpBody Demo.commit))
         "quay.io/test/image:tag" (Demo.world_with Demo.old_image))
  = Raise (ReleaseError "Invalid digest format: invalid-digest-format").
Proof.
  split.
  - exact (proj1 (proj1 (get_image_digest_checks_prefix Demo.E0
                           "quay.io/test/image:latest"
                           (Demo.world_with Demo.old_image))
                        "sha256:abc123def456" ltac:(vm_compute; reflexivity))).
  - exact (proj2 (get_image_digest_checks_prefix
                    (Demo.env "invalid-digest-format" (HttpBody Demo.commit))
                    "quay.io/test/image:tag" (Demo.world_with Demo.old_image))
                 "invalid-digest-format" ""
                 ltac:(vm_compute; reflexivity) ltac:(vm_compute; reflexivity)).
Defined.

(** C3, counterexample.  The digest of the unit tests, twelve hexadecimal
    characters after the prefix, is returned although it is not of the
    form ["sha256:"] followed by 64 hexadecimal characters. *)
Lemma short_digest_is_accepted :
  fst (ContainerImageOperations.get_image_digest Demo.E0
         "quay.io/test/image:latest" (Demo.world_with Demo.old_image))
  = Ok "sha256:abc123def456" /\
  spec_digest_format "sha256:abc123def456" = false.
Proof. split; vm_compute; reflexivity. Qed.

(** ** CommitResolver *)

(** C7.  The commit resolver maps each failure to its own release error:
    HTTP 404 to "Branch ... not found", HTTP 403 to the rate-limit
    message, any other HTTP error status to "GitHub API error" with the
    status and the reason, a [URLError] to "Network error", a missing
    ["commit"] or ["commit"]["sha"] field to "Unexpected response format";
    on success it returns the nested [commit.sha] value; and the five
    messages are pairwise distinct, whatever the repository, the branch,
    the status and the reasons. *)
Theorem get_latest_commit_sha_taxonomy E owner repo branch w :
  let reply := urlopen E (GitHubOperations.api_url owner repo branch)
                 accept_header 30 in
  let result :=
    fst (GitHubOperations.get_latest_commit_sha E owner repo branch w) in
  (forall reason,
      reply = HttpRaises (HTTPError 404 reason) ->
      result = Raise (ReleaseError (not_found_message owner repo branch))) /\
  (forall reason,
      reply = HttpRaises (HTTPError 403 reason) ->
      result = Raise (ReleaseError rate_limit_message)) /\
  (forall code reason,
      code <> 404 -> code <> 403 ->
      reply = HttpRaises (HTTPError code reason) ->
      result = Raise (ReleaseError (api_error_message code reason))) /\
  (forall reason,
      reply = HttpRaises (URLError reason) ->
      result = Raise (ReleaseError (network_error_message reason))) /\
  (forall body data h,
      reply = HttpBody body -> json_loads E body = Loaded data h ->
      missing_commit_field h data ->
      result = Raise (ReleaseError malformed_message)) /\
  (forall body data h top commit fields sha,
      reply = HttpBody body -> json_loads E body = Loaded data h ->
      mapping_of h data = Some top ->
      Py.dict_get top "commit" = Some commit ->
      mapping_of h commit = Some fields ->
      Py.dict_get fields "sha" = Some sha ->
      result = Ok (sha, h)) /\
  (forall code reason reason',
      NoDup [not_found_message owner repo branch; rate_limit_message;
             api_error_message code reason; network_error_message reason';
             malformed_message]).
Proof.
  intros reply result. subst reply result. unfold accept_header.
  repeat split.
  - intros reason H. run_github E. rewrite H. reflexivity.
  - intros reason H. run_github E. rewrite H. reflexivity.
  - intros code reason H4 H3 H. run_github E. rewrite H. reduce.
    destruct (Z.eqb_spec code 404); [contradiction|].
    destruct (Z.eqb_spec code 403); [contradiction|]. reflexivity.
  - intros reason H. run_github E. rewrite H. reflexivity.
  - intros body data h H Hload (top & Htop & Hmiss). run_github E.
    rewrite H, Hload. reduce.
    rewrite (getitem_mapping _ _ _ _ Htop).
    destruct Hmiss as [-> | (commit & fields & -> & Hf & Hsha)];
      [reflexivity|]. reduce.
    rewrite (getitem_mapping _ _ _ _ Hf), Hsha. reflexivity.
  - intros body data h top commit fields sha H Hload Htop Hc Hf Hsha.
    run_github E. rewrite H, Hload. reduce.
    rewrite (getitem_mapping _ _ _ _ Htop), Hc. reduce.
    rewrite (getitem_mapping _ _ _ _ Hf), Hsha. reflexivity.
  - intros code reason reason'.
    unfold not_found_message, rate_limit_message, api_error_message,
      network_error_message, malformed_message.
    repeat (apply NoDup_cons; split;
            [rewrite ?elem_of_cons, elem_of_nil; cbn; intuition discriminate|]).
    apply NoDup_nil. exact I.
Qed.

Lemma get_latest_commit_sha_taxonomy_witness :
  fst (GitHubOperations.get_latest_commit_sha
         (Demo.env "" (HttpRaises (HTTPError 404 "Not Found")))
         "openshift" "instaslice-operator" "nonexistent"
         (Demo.world_with Demo.old_image))
  = Raise (ReleaseError
             "Branch 'nonexistent' not found in openshift/instaslice-operator") /\
  fst (GitHubOperations.get_latest_commit_sha
         (Demo.env "" (HttpRaises (HTTPError 500 "Server Error")))
         "openshift" "instaslice-operator" "next"
         (Demo.world_with Demo.old_image))
  = Raise (ReleaseError "GitHub API error: 500 Server Error") /\
  fst (GitHubOperations.get_latest_commit_sha
         (Demo.env "" (HttpBody "{}"))
         "openshift" "instaslice-operator" "next"
         (Demo.world_with Demo.old_image))
  = Raise (ReleaseError "Unexpected response format from GitHub API") /\
  match fst (GitHubOperations.get_latest_commit_sha Demo.E0
               "openshift" "instaslice-operator" "next"
               (Demo.world_with Demo.old_image)) with
  | Ok (sha, _) => sha = VStr Demo.commit
  | Raise _ => False
  end.
Proof.
  split; [|split; [|split]].
  - exact (proj1 (get_latest_commit_sha_taxonomy
                    (Demo.env "" (HttpRaises (HTTPError 404 "Not Found")))
                    "openshift" "instaslice-operator" "nonexistent"
                    (Demo.world_with Demo.old_image))
                 "Not Found" eq_refl).
  - refine (proj1 (proj2 (proj2 (get_latest_commit_sha_taxonomy
                    (Demo.env "" (HttpRaises (HTTPError 500 "Server Error")))
                    "openshift" "instaslice-operator" "next"
                    (Demo.world_with Demo.old_image))))
                  500 "Server Error" _ _ eq_refl); discriminate.
  - refine (proj1 (proj2 (proj2 (proj2 (proj2 (get_latest_commit_sha_taxonomy
                    (Demo.env "" (HttpBody "{}"))
                    "openshift" "instaslice-operator" "next"
                    (Demo.world_with Demo.old_image))))))
                  "{}" (VRef 0%nat) Demo.empty_object eq_refl eq_refl _).
    exists []. split; [vm_compute; reflexivity | left; reflexivity].
  - pose proof (proj1 (proj2 (proj2 (proj2 (proj2 (proj2
                  (get_latest_commit_sha_taxonomy Demo.E0
                     "openshift" "instaslice-operator" "next"
                     (Demo.world_with Demo.old_image)))))))
                  Demo.commit (VRef 0%nat) (Demo.branch_object Demo.commit)
                  [(VStr "name", VStr "next"); (VStr "commit", VRef 1%nat)]
                  (VRef 1%nat) [(VStr "sha", VStr Demo.commit)]
                  (VStr Demo.commit)
                  eq_refl ltac:(vm_compute; reflexivity)
                  ltac:(vm_compute; reflexivity) ltac:(vm_compute; reflexivity)
                  ltac:(vm_compute; reflexivity) ltac:(vm_compute; reflexivity))
      as H.
    cbv zeta in H. rewrite H. reflexivity.
Defined.

(** ** RepositoryGateway *)




Example porcelain_outputs :
  fst (GitOperations.check_repo_clean
         (Demo.env "" (HttpBody Demo.commit))
         Demo.repo (Demo.world_with Demo.old_image)) = Ok true /\
  fst (GitOperations.check_repo_clean
         (Demo.env ("M file.txt" +:+ newline +:+ "?? new_file.txt" +:+ newline)
                   (HttpBody Demo.commit))
         Demo.repo (Demo.world_with Demo.old_image)) = Ok false.
Proof. split; vm_compute; reflexivity. Qed.

(** ** PreflightChecker *)

(** C9.  When [opm version] answers, the version check returns a boolean
    and does not raise: [True] exactly when the tool exits with status 0,
    its output holds a version token, the token and the required version
    both parse as tuples of integers, and the reported tuple is at least
    the required one, the components being compared as numbers one by one
    from the left ([lex_ge]).  So a non-zero exit, an output without
    token and a token that does not parse all give [False]; so do a tool
    that is not installed and one that does not answer within five
    seconds. *)
Theorem check_opm_version_lexicographic E min w :
  let outcome := fst (run_tool E ["opm"; "version"] (Some 5) (fs w)) in
  let answer := fst (DependencyChecker.check_opm_version E min w) in
  (forall rc out err,
      outcome = Exited rc out err ->
      exists b,
        answer = Ok b /\
        (b = true <->
         rc = 0 /\
         exists v cur req,
           DependencyChecker.re_search out = Some v /\
           DependencyChecker.version_tuple E v = Some cur /\
           DependencyChecker.version_tuple E min = Some req /\
           lex_ge cur req)) /\
  (forall out err v,
      outcome = Exited 0 out err ->
      DependencyChecker.re_search out = Some v ->
      DependencyChecker.version_tuple E v = None ->
      answer = Ok false) /\
  (outcome = TimedOut \/ outcome = NotInstalled -> answer = Ok false).
Proof.
  cbv zeta. rewrite check_opm_version_spec. split; [|split].
  - intros rc out err ->. eexists. split; [reflexivity|].
    destruct (Z.eqb_spec rc 0) as [->|Hrc].
    2:{ split; [discriminate|]. intros [? _]. contradiction. }
    unfold version_ok.
    destruct (DependencyChecker.re_search out) as [v|] eqn:Hs.
    2:{ split; [discriminate|].
        intros (_ & ? & ? & ? & ? & _). discriminate. }
    destruct (String.eqb_spec v "") as [->|Hv].
    { split; [discriminate|].
      intros (_ & ? & ? & ? & [= <-] & Hvt & _).
      rewrite version_tuple_empty in Hvt. discriminate. }
    destruct (DependencyChecker.version_tuple E v) as [cur|] eqn:Hcur.
    2:{ split; [discriminate|].
        intros (_ & ? & ? & ? & [= <-] & Hvt & _). congruence. }
    destruct (DependencyChecker.version_tuple E min) as [req|] eqn:Hreq.
    2:{ split; [discriminate|].
        intros (_ & ? & ? & ? & _ & _ & ? & _). discriminate. }
    rewrite tuple_ge_lex. split.
    + intros Hge. split; [reflexivity|]. exists v, cur, req. auto.
    + intros (_ & ? & ? & ? & [= <-] & Hvt & Hrq & Hge). congruence.
  - intros out err v -> Hs Hvt. cbn. unfold version_ok. rewrite Hs, Hvt.
    destruct (String.eqb v ""); reflexivity.
  - intros [->| ->]; reflexivity.
Qed.

Lemma check_opm_version_lexicographic_witness :
  exists b,
    fst (DependencyChecker.check_opm_version
           (Demo.env Demo.opm_2_0_0 (HttpBody Demo.commit)) "1.47.0"
           (Demo.world_with Demo.old_image)) = Ok b /\
    (b = true <->
     0 = 0 /\
     exists v cur req,
       DependencyChecker.re_search Demo.opm_2_0_0 = Some v /\
       DependencyChecker.version_tuple
         (Demo.env Demo.opm_2_0_0 (HttpBody Demo.commit)) v = Some cur /\
       DependencyChecker.version_tuple
         (Demo.env Demo.opm_2_0_0 (HttpBody Demo.commit)) "1.47.0"
       = Some req /\
       lex_ge cur req).
Proof.
  exact (proj1 (check_opm_version_lexicographic
                  (Demo.env Demo.opm_2_0_0 (HttpBody Demo.commit)) "1.47.0"
                  (Demo.world_with Demo.old_image))
               0 Demo.opm_2_0_0 "" ltac:(vm_compute; reflexivity)).
Defined.

Example version_2_0_0 :
  fst (DependencyChecker.check_opm_version
         (Demo.env Demo.opm_2_0_0 (HttpBody Demo.commit)) "1.47.0"
         (Demo.world_with Demo.old_image)) = Ok true /\
  DependencyChecker.re_search Demo.opm_2_0_0 = Some "2.0.0" /\
  DependencyChecker.version_tuple Demo.E0 "2.0.0" = Some [2; 0; 0] /\
  DependencyChecker.version_tuple Demo.E0 "1.47.0" = Some [1; 47; 0] /\
  lex_ge [2; 0; 0] [1; 47; 0].
Proof.
  repeat split; try (vm_compute; reflexivity). apply lex_ge_gt. lia.
Qed.

(** Components are compared as numbers: 1.5.0 is below 1.47.0. *)
Example version_1_5_0 :
  fst (DependencyChecker.check_opm_version
         (Demo.env ("OpmVersion:" +:+ dquote +:+ "v1.5.0" +:+ dquote)
                   (HttpBody Demo.commit)) "1.47.0"
         (Demo.world_with Demo.old_image)) = Ok false.
Proof. vm_compute. reflexivity. Qed.

Example version_1_46_9 :
  fst (DependencyChecker.check_opm_version
         (Demo.env ("OpmVersion:" +:+ dquote +:+ "v1.46.9" +:+ dquote)
                   (HttpBody Demo.commit)) "1.47.0"
         (Demo.world_with Demo.old_image)) = Ok false.
Proof. vm_compute. reflexivity. Qed.

Example version_unparseable :
  fst (DependencyChecker.check_opm_version
         (Demo.env ("OpmVersion:" +:+ dquote +:+ "v1..0" +:+ dquote)
                   (HttpBody Demo.commit)) "1.47.0"
         (Demo.world_with Demo.old_image)) = Ok false.
Proof. vm_compute. reflexivity. Qed.
